(** * Design-token pipeline: Figma variables to token store to Swift sources

    A shallow embedding of the JavaScript sources of the repository:
    - the Figma plugin ([transformVariablesToTokens] and its helpers);
    - the plugin's message handlers ([figma.ui.onmessage]);
    - the Variables-API adapter (class [FigmaSync]);
    - the file-content adapters (classes [FigmaFileSync] and
      [EnhancedFigmaSync]);
    - the renderers (classes [PluginSync] and [SwiftTokenGenerator]);
    - the webhook listener ([app.post('/figma-webhook')]).

    Conventions of the model.
    - A JavaScript string is a [string]: the bytes of its UTF-8 form.  White
      space ([/\s/], [trim]) is the white space of JavaScript, in ASCII and
      outside it.  Lower case is exact on the characters of ASCII and on
      the two characters outside ASCII whose lower-case form has a letter
      of ASCII (U+0130 gives [i], U+212A gives [k]); any other character
      outside ASCII is kept as it is, and so is its place among the letters
      and digits of ASCII around it.
    - A JavaScript number is a double, held by its exact value ([Q]), or
      [NaN].  A product or a difference is the double nearest to the exact
      result, or an infinity; [Math.round] is [floor (x + 1/2)].
    - A JavaScript object is an association list of its own properties in
      insertion order.  A run that would read a property through the
      prototype chain of a built-in is reported as [Unmodelled].
    - Built-ins of the language runtime whose definition is not part of the
      repository (printing a number that is not an integer up to 2^53,
      [parseFloat] on a string) are fields of the class [JSRuntime].
    - The time of day, the environment, the network, the file system and
      the shell are inputs of the functions that use them. *)

From Stdlib Require Import String Ascii List ZArith QArith Qround Bool Lia Lqa.
From Stdlib Require Import DecimalString HexadecimalString.
From stdpp Require Import gmap strings.

Import ListNotations.
Local Open Scope string_scope.

(** ** Strings *)

Module Str.

Definition nl : string := String (ascii_of_nat 10) "".
Definition dq : string := String (ascii_of_nat 34) "".

Definition is_upper (c : ascii) : bool :=
  (65 <=? nat_of_ascii c)%nat && (nat_of_ascii c <=? 90)%nat.

Definition is_lower (c : ascii) : bool :=
  (97 <=? nat_of_ascii c)%nat && (nat_of_ascii c <=? 122)%nat.

Definition is_digit (c : ascii) : bool :=
  (48 <=? nat_of_ascii c)%nat && (nat_of_ascii c <=? 57)%nat.

(** The white space of ASCII: tab, line feed, vertical tab, form feed,
    carriage return, space. *)
Definition is_space (c : ascii) : bool :=
  ((9 <=? nat_of_ascii c)%nat && (nat_of_ascii c <=? 13)%nat)
  || (nat_of_ascii c =? 32)%nat.

(** The white space outside ASCII, by the bytes of its UTF-8 form: U+00A0
    in two bytes; U+1680, U+2000 to U+200A, U+2028, U+2029, U+202F, U+205F,
    U+3000 and U+FEFF in three. *)
Definition is_space2 (c0 c1 : ascii) : bool :=
  (nat_of_ascii c0 =? 194)%nat && (nat_of_ascii c1 =? 160)%nat.

Definition is_space3 (c0 c1 c2 : ascii) : bool :=
  let a := nat_of_ascii c0 in
  let b := nat_of_ascii c1 in
  let c := nat_of_ascii c2 in
  ((a =? 225) && (b =? 154) && (c =? 128))%nat
  || ((a =? 226) && (b =? 128)
      && (((128 <=? c) && (c <=? 138)) || (c =? 168) || (c =? 169)
          || (c =? 175)))%nat
  || ((a =? 226) && (b =? 129) && (c =? 159))%nat
  || ((a =? 227) && (b =? 128) && (c =? 128))%nat
  || ((a =? 239) && (b =? 187) && (c =? 191))%nat.

(** The number of bytes of the white-space character ([/\s/]) that [s]
    begins with; 0 when it begins with none. *)
Definition space_length (s : string) : nat :=
  match s with
  | String c0 t0 =>
      if is_space c0 then 1
      else
        match t0 with
        | String c1 t1 =>
            if is_space2 c0 c1 then 2
            else
              match t1 with
              | String c2 _ => if is_space3 c0 c1 c2 then 3 else 0
              | EmptyString => 0
              end
        | EmptyString => 0
        end
  | EmptyString => 0
  end.

(** A letter of ASCII in lower case. *)
Definition lower_char (c : ascii) : ascii :=
  if is_upper c then ascii_of_nat (nat_of_ascii c + 32) else c.

(** U+0130, capital I with a dot above, and U+212A, the Kelvin sign, by
    the bytes of their UTF-8 forms. *)
Definition is_dotted_I (c0 c1 : ascii) : bool :=
  (nat_of_ascii c0 =? 196)%nat && (nat_of_ascii c1 =? 176)%nat.

Definition is_kelvin (c0 c1 c2 : ascii) : bool :=
  (nat_of_ascii c0 =? 226)%nat && (nat_of_ascii c1 =? 132)%nat
  && (nat_of_ascii c2 =? 170)%nat.

(** U+0307, the combining dot above. *)
Definition dot_above (s : string) : string :=
  String (ascii_of_nat 204) (String (ascii_of_nat 135) s).

(** [s.toLowerCase()], as far as letters and digits of ASCII go: a capital
    letter of ASCII becomes the small one, U+0130 becomes [i] and U+0307,
    and U+212A becomes [k].  These are the only characters whose lower-case
    form has a character of ASCII; a character outside ASCII that has
    another lower-case form outside ASCII is kept as it is. *)
Fixpoint toLowerCase (s : string) : string :=
  match s with
  | EmptyString => EmptyString
  | String c0 t0 =>
      match t0 with
      | String c1 t1 =>
          if is_dotted_I c0 c1
          then String "i" (dot_above (toLowerCase t1))
          else
            match t1 with
            | String c2 t2 =>
                if is_kelvin c0 c1 c2 then String "k" (toLowerCase t2)
                else String (lower_char c0) (toLowerCase t0)
            | EmptyString => String (lower_char c0) (toLowerCase t0)
            end
      | EmptyString => String (lower_char c0) EmptyString
      end
  end.

(** The letters of [s] as a regular expression with the flag [i] (and
    without the flag [u]) compares them: a letter of ASCII in either case
    is the same letter, and a character outside ASCII is never a character
    of ASCII. *)
Fixpoint fold_case (s : string) : string :=
  match s with
  | EmptyString => EmptyString
  | String c t => String (lower_char c) (fold_case t)
  end.

(** The character class [[a-z0-9]]. *)
Definition alnum (c : ascii) : bool := is_lower c || is_digit c.

(** [s.replace(/[^a-z0-9]/g, '')] *)
Fixpoint strip_non_alnum (s : string) : string :=
  match s with
  | EmptyString => EmptyString
  | String c t =>
      if alnum c then String c (strip_non_alnum t) else strip_non_alnum t
  end.

(** [s.startsWith(p)] *)
Fixpoint startsWith (p s : string) : bool :=
  match p, s with
  | EmptyString, _ => true
  | String _ _, EmptyString => false
  | String a p', String b s' => Ascii.eqb a b && startsWith p' s'
  end.

Fixpoint drop (n : nat) (s : string) : string :=
  match n, s with
  | O, _ => s
  | S _, EmptyString => EmptyString
  | S n', String _ t => drop n' t
  end.

(** [s.replace(/^p/, '')] for a literal [p]. *)
Definition replace_prefix (p s : string) : string :=
  if startsWith p s then drop (String.length p) s else s.

(** [s.includes(w)] *)
Fixpoint includes (w s : string) : bool :=
  startsWith w s ||
  match s with
  | EmptyString => false
  | String _ t => includes w t
  end.

(** [s.match(/w1|w2|.../i)] for lower-case literal alternatives: some
    alternative occurs in [s], the case of the letters of ASCII ignored. *)
Definition match_alt_i (alts : list string) (s : string) : bool :=
  existsb (fun w => includes w (fold_case s)) alts.

(** What replaces a white-space character in [replace_spaces]: a hyphen
    for the first of a run. *)
Definition hyphen (in_run : bool) (rest : string) : string :=
  if in_run then rest else String "-" rest.

(** [s.replace(/\s+/g, '-')]: every maximal run of white space becomes one
    hyphen. *)
Fixpoint replace_spaces_from (in_run : bool) (s : string) : string :=
  match s with
  | EmptyString => EmptyString
  | String c0 t0 =>
      if is_space c0 then hyphen in_run (replace_spaces_from true t0)
      else
        match t0 with
        | String c1 t1 =>
            if is_space2 c0 c1
            then hyphen in_run (replace_spaces_from true t1)
            else
              match t1 with
              | String c2 t2 =>
                  if is_space3 c0 c1 c2
                  then hyphen in_run (replace_spaces_from true t2)
                  else String c0 (replace_spaces_from false t0)
              | EmptyString => String c0 (replace_spaces_from false t0)
              end
        | EmptyString => String c0 EmptyString
        end
  end.

Definition replace_spaces (s : string) : string := replace_spaces_from false s.

(** [s.split(sep)] for a one-character separator. *)
Fixpoint split_on (sep : ascii) (s : string) : list string :=
  match s with
  | EmptyString => [EmptyString]
  | String c t =>
      if Ascii.eqb c sep then EmptyString :: split_on sep t
      else match split_on sep t with
           | [] => [String c EmptyString]
           | h :: r => String c h :: r
           end
  end.

(** [s.trimStart()] *)
Fixpoint trim_start (s : string) : string :=
  match s with
  | EmptyString => EmptyString
  | String c0 t0 =>
      if is_space c0 then trim_start t0
      else
        match t0 with
        | String c1 t1 =>
            if is_space2 c0 c1 then trim_start t1
            else
              match t1 with
              | String c2 t2 => if is_space3 c0 c1 c2 then trim_start t2 else s
              | EmptyString => s
              end
        | EmptyString => s
        end
  end.

(** [s] consists of white space. *)
Fixpoint only_space (s : string) : bool :=
  match s with
  | EmptyString => true
  | String c0 t0 =>
      if is_space c0 then only_space t0
      else
        match t0 with
        | String c1 t1 =>
            if is_space2 c0 c1 then only_space t1
            else
              match t1 with
              | String c2 t2 => is_space3 c0 c1 c2 && only_space t2
              | EmptyString => false
              end
        | EmptyString => false
        end
  end.

(** [s.trimEnd()] *)
Fixpoint trim_end (s : string) : string :=
  match s with
  | EmptyString => EmptyString
  | String c t => if only_space s then EmptyString else String c (trim_end t)
  end.

(** [s.trim()] *)
Definition trim (s : string) : string := trim_end (trim_start s).

Fixpoint all_chars (p : ascii -> bool) (s : string) : bool :=
  match s with
  | EmptyString => true
  | String c t => p c && all_chars p t
  end.

(** The number of occurrences of the character [c] in [s]. *)
Fixpoint count (c : ascii) (s : string) : nat :=
  match s with
  | EmptyString => 0
  | String a t => (if Ascii.eqb a c then 1 else 0) + count c t
  end.

(** [s.charAt(0).toLowerCase() + s.slice(1)] *)
Definition lower_first (s : string) : string :=
  match s with
  | EmptyString => EmptyString
  | String c0 t0 =>
      match t0 with
      | String c1 t1 =>
          if is_dotted_I c0 c1 then String "i" (dot_above t1)
          else
            match t1 with
            | String c2 t2 =>
                if is_kelvin c0 c1 c2 then String "k" t2
                else String (lower_char c0) t0
            | EmptyString => String (lower_char c0) t0
            end
      | EmptyString => String (lower_char c0) EmptyString
      end
  end.


(** A word of small letters of ASCII without [k] that does not end in
    [i]. *)
Fixpoint plain_word (w : string) : bool :=
  match w with
  | EmptyString => true
  | String a w' =>
      is_lower a && negb (Ascii.eqb a "k")
      && (negb (Ascii.eqb a "i") || negb (String.eqb w' ""))
      && plain_word w'
  end.

End Str.

(** ** Categories *)

Inductive Category : Type :=
  | color | typography | spacing | borderRadius | shadow | opacity.

Definition category_name (c : Category) : string :=
  match c with
  | color => "color"
  | typography => "typography"
  | spacing => "spacing"
  | borderRadius => "borderRadius"
  | shadow => "shadow"
  | opacity => "opacity"
  end.

Definition all_categories : list Category :=
  [color; typography; spacing; borderRadius; shadow; opacity].

(** ** Name sanitization *)

(** Plugin, [sanitizeVariableName]. *)
Definition sanitizeVariableName (name : string) : string :=
  Str.replace_prefix "borderradius"
    (Str.replace_prefix "typography"
      (Str.replace_prefix "spacing"
        (Str.replace_prefix "color"
          (Str.strip_non_alnum (Str.toLowerCase name))))).

(** [FigmaFileSync.sanitizeName]. *)
Definition sanitizeName (name : string) : string :=
  Str.replace_prefix "typography"
    (Str.replace_prefix "spacing"
      (Str.replace_prefix "color"
        (Str.strip_non_alnum (Str.toLowerCase name)))).

(** [EnhancedFigmaSync.sanitizeName]. *)
Definition sanitizeName_enhanced (name : string) : string :=
  Str.replace_prefix "spacing"
    (Str.replace_prefix "color"
      (Str.strip_non_alnum (Str.toLowerCase name))).

(** The prefix words each sanitizer strips, in the order it strips them. *)
Definition variable_prefix_words : list string :=
  ["color"; "spacing"; "typography"; "borderradius"].

Definition name_prefix_words : list string :=
  ["color"; "spacing"; "typography"].

Definition starts_with_any (words : list string) (s : string) : bool :=
  existsb (fun w => Str.startsWith w s) words.

(** ** Category classification *)

(** Plugin, [determineTokenCategory (name, type)]. *)
Definition determineTokenCategory (name type : string) : Category :=
  let lowerName := Str.toLowerCase name in
  if String.eqb type "COLOR" then color
  else if String.eqb type "FLOAT" then
    if Str.includes "spacing" lowerName || Str.includes "padding" lowerName
       || Str.includes "margin" lowerName
    then spacing
    else if Str.includes "radius" lowerName || Str.includes "corner" lowerName
    then borderRadius
    else if Str.includes "opacity" lowerName || Str.includes "alpha" lowerName
    then opacity
    else spacing
  else if String.eqb type "STRING" then
    if Str.includes "font" lowerName || Str.includes "typography" lowerName
       || Str.includes "text" lowerName
    then typography
    else typography
  else spacing.

Definition color_words : list string :=
  ["color"; "background"; "foreground"; "border"].
Definition typography_words : list string := ["font"; "text"; "typography"].
Definition radius_words : list string := ["radius"; "corner"].
Definition shadow_words : list string := ["shadow"].
Definition opacity_words : list string := ["opacity"; "alpha"].

(** [FigmaSync.createTokenPath]: the category chosen from the name. *)
Definition pathCategory (name : string) : Category :=
  if Str.match_alt_i color_words name then color
  else if Str.match_alt_i typography_words name then typography
  else if Str.match_alt_i radius_words name then borderRadius
  else if Str.match_alt_i shadow_words name then shadow
  else if Str.match_alt_i opacity_words name then opacity
  else spacing.

(** ** JavaScript values and numbers *)

#[local] Set Warnings "-register-all".

Inductive jsval : Type :=
  | JUndefined
  | JNull
  | JBool (b : bool)
  | JNum (x : Q)
  | JNaN
  | JStr (s : string)
  | JObj (fields : list (string * jsval)).

(** An object: its own properties in insertion order.  (The reordering of
    integer-like keys by the engine is not modelled; no statement below
    depends on the order of such keys.) *)
Definition obj : Type := list (string * jsval).

Fixpoint obj_get (o : obj) (k : string) : option jsval :=
  match o with
  | [] => None
  | (k', v) :: r => if String.eqb k' k then Some v else obj_get r k
  end.

(** [o[k] = v] on an object whose own keys are those of [o]. *)
Fixpoint obj_set (o : obj) (k : string) (v : jsval) : obj :=
  match o with
  | [] => [(k, v)]
  | (k', v') :: r =>
      if String.eqb k' k then (k', v) :: r else (k', v') :: obj_set r k v
  end.

Definition obj_keys (o : obj) : list string := map fst o.

Definition is_null (v : jsval) : bool :=
  match v with JNull => true | _ => false end.

Definition Qltb (x y : Q) : bool :=
  (Qnum x * QDen y <? Qnum y * QDen x)%Z.

Definition Qis_zero (x : Q) : bool := (Qnum x =? 0)%Z.

(** [!!v] *)
Definition truthy (v : jsval) : bool :=
  match v with
  | JUndefined | JNull | JNaN => false
  | JBool b => b
  | JNum x => negb (Qis_zero x)
  | JStr s => negb (String.eqb s "")
  | JObj _ => true
  end.

(** [Math.round (x)]: the integer nearest to [x], the upper one of two. *)
Definition Math_round (x : Q) : Z := Qfloor (x + (1 # 2))%Q.

(** *** Double arithmetic

    A number is a double, held here by its exact value.  The result of an
    arithmetic operation is the double nearest to the exact result, a tie
    going to the even significand, or an infinity. *)

(** [floor (log2 (n / d))] *)
Definition binade (n d : positive) : Z :=
  let k := (Z.log2 (Zpos n) - Z.log2 (Zpos d))%Z in
  if (Zpos n * 2 ^ Z.max 0 (- k) <? Zpos d * 2 ^ Z.max 0 k)%Z
  then (k - 1)%Z else k.

(** The integer nearest to [a / b], the even one of two. *)
Definition round_half_even (a b : Z) : Z :=
  let f := (a / b)%Z in
  let r := (a mod b)%Z in
  if (2 * r <? b)%Z then f
  else if (b <? 2 * r)%Z then (f + 1)%Z
  else if Z.even f then f else (f + 1)%Z.

(** The multiple of [2^q] nearest to [n / d], where [2^q] is the distance
    between the doubles around [n / d]: 52 binary places below its leading
    bit, and [2^-1074] for the subnormal numbers. *)
Definition nearest_positive (n d : positive) : Q :=
  let q := Z.max (binade n d - 52) (-1074) in
  let m :=
    round_half_even (Zpos n * 2 ^ Z.max 0 (- q)) (Zpos d * 2 ^ Z.max 0 q) in
  Qred (Qmake (m * 2 ^ Z.max 0 q) (Z.to_pos (2 ^ Z.max 0 (- q)))).

(** The double nearest to [x], were the exponent of a double unbounded
    above. *)
Definition nearest_double (x : Q) : Q :=
  match Qnum x with
  | Z0 => 0%Q
  | Zpos n => nearest_positive n (Qden x)
  | Zneg n => Qopp (nearest_positive n (Qden x))
  end.

(** The result of an operation on doubles. *)
Inductive double : Type :=
  | Finite (x : Q)
  | Infinite (negative : bool).

Definition to_double (x : Q) : double :=
  let y := nearest_double x in
  if Qle_bool (inject_Z (2 ^ 1024)) y then Infinite false
  else if Qle_bool y (inject_Z (- 2 ^ 1024)) then Infinite true
  else Finite y.

(** [x * y] *)
Definition multiply (x y : Q) : double := to_double (x * y).

(** Built-ins that the sources call and the repository does not define. *)
Class JSRuntime : Type := {
  (** [Number::toString (x)] in radix 10 for a number that is not an
      integer of magnitude up to 2^53; the language does not fix the last
      digit it prints in every case. *)
  Number_toString : Q -> string;
  (** [x.toString(16)] for an integer above 2^53 in magnitude, whose last
      digits the language leaves to the implementation. *)
  Number_toString16 : Q -> string;
  (** [parseFloat (s)] for a string [s]; [None] is NaN. *)
  parseFloat_string : string -> option Q
}.

(** [String (n)] for an integer-valued number [n], [|n| <= 2^53]: its
    decimal digits. *)
Definition int_toString (n : Z) : string :=
  DecimalString.NilZero.string_of_int (Z.to_int n).

(** [n.toString(16)] for an integer-valued number [n], [|n| <= 2^53]: its
    hexadecimal digits. *)
Definition int_toString16 (n : Z) : string :=
  if (n <? 0)%Z
  then "-" ++ HexadecimalString.NilZero.string_of_uint (N.to_hex_uint (Z.to_N (- n)))
  else HexadecimalString.NilZero.string_of_uint (N.to_hex_uint (Z.to_N n)).

Definition Qis_int (x : Q) : bool := (Qnum x mod QDen x =? 0)%Z.

(** *** Printing a double in radix 10 *)

(** [10^e] *)
Definition power_of_ten (e : Z) : Q :=
  if (0 <=? e)%Z then inject_Z (10 ^ e) else Qmake 1 (Z.to_pos (10 ^ (- e))).

(** The number of decimal digits of a positive integer. *)
Definition digits (n : Z) : Z := Z.of_nat (String.length (int_toString n)).

(** The [n] with [10^(n-1) <= x < 10^n], for a positive [x]. *)
Definition decimal_exponent (x : Q) : Z :=
  if Qle_bool 1 x then digits (Qfloor x)
  else
    let c := Qceiling (Qinv x) in
    if (c <=? 1)%Z then 1%Z else (1 - digits (c - 1))%Z.

(** The decimal [s * 10^e] reads back as the double [x]. *)
Definition reads_back (x : Q) (s e : Z) : bool :=
  Qeq_bool (nearest_double (inject_Z s * power_of_ten e)) x.

(** The integer [s] of [k] digits, with its exponent [e = n - k], for which
    [s * 10^e] is nearest to [x] among the decimals of [k] digits that read
    back as [x]; [None] when none does. *)
Definition digits_of_length (x : Q) (n k : Z) : option (Z * Z) :=
  let e := (n - k)%Z in
  let t := (x / power_of_ten e)%Q in
  let lo := Qfloor t in
  let hi := (lo + 1)%Z in
  match reads_back x lo e, reads_back x hi e with
  | true, true =>
      if Qle_bool (t - inject_Z lo) (inject_Z hi - t) then Some (lo, e)
      else Some (hi, e)
  | true, false => Some (lo, e)
  | false, true => Some (hi, e)
  | false, false => None
  end.

(** The shortest such decimal, looked for among those of [k], [k + 1], ...
    digits; a decimal of 17 digits reads back as any double. *)
Fixpoint shortest_from (fuel : nat) (x : Q) (n k : Z) : Z * Z :=
  match digits_of_length x n k with
  | Some r => r
  | None =>
      match fuel with
      | O => (Qfloor (x / power_of_ten (n - k)), (n - k)%Z)
      | S fuel' => shortest_from fuel' x n (k + 1)
      end
  end.

(** [s] without the zeros it ends in, each counted in the exponent. *)
Fixpoint strip_zeros (fuel : nat) (s e : Z) : Z * Z :=
  match fuel with
  | O => (s, e)
  | S fuel' =>
      if ((s mod 10 =? 0) && negb (s =? 0))%Z
      then strip_zeros fuel' (s / 10) (e + 1) else (s, e)
  end.

Definition zeros (n : Z) : string :=
  string_of_list_ascii (repeat "0"%char (Z.to_nat n)).

(** [Number::toString (x)] in radix 10 for a positive double [x]: the
    digits [s] of the shortest decimal that reads back as [x], [k] of them,
    with the decimal point after [n] digits, set out as the language lays
    down. *)
Definition positive_toString (x : Q) : string :=
  let (s0, e0) := shortest_from 16 x (decimal_exponent x) 1 in
  let (s, e) := strip_zeros 17 s0 e0 in
  let ds := int_toString s in
  let k := Z.of_nat (String.length ds) in
  let n := (e + k)%Z in
  if ((k <=? n) && (n <=? 21))%Z then ds ++ zeros (n - k)
  else if ((0 <? n) && (n <=? 21))%Z
  then substring 0 (Z.to_nat n) ds ++ "."
         ++ substring (Z.to_nat n) (Z.to_nat (k - n)) ds
  else if ((-6 <? n) && (n <=? 0))%Z then "0." ++ zeros (- n) ++ ds
  else
    let exponent :=
      (if (0 <=? n - 1)%Z then "e+" else "e-") ++ int_toString (Z.abs (n - 1)) in
    if (k =? 1)%Z then ds ++ exponent
    else substring 0 1 ds ++ "." ++ substring 1 (Z.to_nat (k - 1)) ds ++ exponent.

(** [Number::toString (x)] in radix 10 for a double [x]. *)
Definition double_toString (x : Q) : string :=
  match Qnum x with
  | Z0 => "0"
  | Zpos _ => positive_toString x
  | Zneg _ => "-" ++ positive_toString (Qopp x)
  end.

Section Runtime.
Context {rt : JSRuntime}.

(** [`${n}`] for an integer-valued number [n]: its decimal digits up to
    2^53, where every integer is a double of its own. *)
Definition round_toString (n : Z) : string :=
  if (Z.abs n <=? 2 ^ 53)%Z then int_toString n
  else Number_toString (inject_Z n).

(** [n.toString(16)] for an integer-valued number [n]. *)
Definition round_toString16 (n : Z) : string :=
  if (Z.abs n <=? 2 ^ 53)%Z then int_toString16 n
  else Number_toString16 (inject_Z n).

(** [`${x}`] for a number [x]. *)
Definition num_toString (x : Q) : string :=
  if Qis_int x then round_toString (Qnum x / QDen x)%Z
  else Number_toString x.

(** [`${v}`] *)
Definition ToString (v : jsval) : string :=
  match v with
  | JUndefined => "undefined"
  | JNull => "null"
  | JBool true => "true"
  | JBool false => "false"
  | JNum x => num_toString x
  | JNaN => "NaN"
  | JStr s => s
  | JObj _ => "[object Object]"
  end.

(** [s.padStart(target, pad)] for a one-character [pad]. *)
Definition padStart (target : nat) (pad : ascii) (s : string) : string :=
  string_of_list_ascii (repeat pad (target - String.length s)) ++ s.

(** ** Figma variables *)

(** A Figma colour: [{r, g, b}] or [{r, g, b, a}]. *)
Record RGBA : Type := mkRGBA {
  red : Q;
  green : Q;
  blue : Q;
  alpha : option Q
}.

(** The value a variable holds in one mode:
    [boolean | number | string | RGB | RGBA | VariableAlias]. *)
Inductive VariableValue : Type :=
  | BoolValue (b : bool)
  | NumberValue (x : Q)
  | StringValue (s : string)
  | ColorValue (c : RGBA)
  | AliasValue (id : string).

(** The same value as a JavaScript value. *)
Definition value_of (v : VariableValue) : jsval :=
  match v with
  | BoolValue b => JBool b
  | NumberValue x => JNum x
  | StringValue s => JStr s
  | ColorValue c =>
      JObj ([("r", JNum (red c)); ("g", JNum (green c)); ("b", JNum (blue c))]
            ++ match alpha c with
               | Some a => [("a", JNum a)]
               | None => []
               end)
  | AliasValue id => JObj [("type", JStr "VARIABLE_ALIAS"); ("id", JStr id)]
  end.

Record FigmaVariable : Type := mkVariable {
  var_name : string;
  var_resolvedType : string;
  var_valuesByMode : list (string * VariableValue);
  var_key : string;
  var_collectionId : string
}.

(** ** Value conversion *)

(** [Math.round (n * 255)], printed by [print] when it is finite. *)
Definition rounded_scaled (print : Z -> string) (n : Q) : string :=
  match multiply n 255 with
  | Finite p => print (Math_round p)
  | Infinite false => "Infinity"
  | Infinite true => "-Infinity"
  end.

(** The local [toHex] of [colorToHex]. *)
Definition toHex (n : Q) : string :=
  padStart 2 "0" (rounded_scaled round_toString16 n).

(** Plugin, [colorToHex (color)]. *)
Definition colorToHex (color : VariableValue) : jsval :=
  match color with
  | ColorValue c =>
      let a := match alpha c with Some a => a | None => 1%Q end in
      if Qltb a 1%Q then
        JStr ("rgba(" ++ rounded_scaled round_toString (red c) ++ ", "
                 ++ rounded_scaled round_toString (green c) ++ ", "
                 ++ rounded_scaled round_toString (blue c) ++ ", "
                 ++ num_toString a ++ ")")
      else JStr ("#" ++ toHex (red c) ++ toHex (green c) ++ toHex (blue c))
  | AliasValue _ =>
      (* no r, g, b, a: [a] defaults to 1 and each channel prints as NaN *)
      JStr "#NaNNaNNaN"
  | BoolValue _ | NumberValue _ | StringValue _ => JNull
  end.

(** [FigmaSync.colorToHex (color)]. *)
Definition FigmaSync_colorToHex (color : VariableValue) : jsval :=
  match color with
  | ColorValue c =>
      let a := match alpha c with Some a => a | None => 1%Q end in
      if Qltb a 1%Q then
        JStr ("rgba(" ++ rounded_scaled round_toString (red c) ++ ", "
                 ++ rounded_scaled round_toString (green c) ++ ", "
                 ++ rounded_scaled round_toString (blue c) ++ ", "
                 ++ num_toString a ++ ")")
      else JStr ("#" ++ toHex (red c) ++ toHex (green c) ++ toHex (blue c))
  | AliasValue _ => JStr "#NaNNaNNaN"
  | BoolValue _ | NumberValue _ | StringValue _ => JNull
  end.

(** [parseFloat (value)] *)
Definition parseFloat (value : VariableValue) : jsval :=
  match value with
  | NumberValue x => JNum x
  | StringValue s =>
      match parseFloat_string s with Some x => JNum x | None => JNaN end
  | BoolValue _ | ColorValue _ | AliasValue _ => JNaN
  end.

(** [Boolean (value)] *)
Definition Boolean (value : VariableValue) : jsval :=
  JBool (truthy (value_of value)).

(** Plugin, [transformVariableValue (type, value)]. *)
Definition transformVariableValue (type : string) (value : VariableValue)
  : jsval :=
  if String.eqb type "COLOR" then colorToHex value
  else if String.eqb type "FLOAT" then parseFloat value
  else if String.eqb type "STRING" then value_of value
  else if String.eqb type "BOOLEAN" then Boolean value
  else value_of value.

(** [FigmaSync.transformValue (type, value)]. *)
Definition transformValue (type : string) (value : VariableValue) : jsval :=
  if String.eqb type "COLOR" then FigmaSync_colorToHex value
  else if String.eqb type "FLOAT" then parseFloat value
  else if String.eqb type "STRING" then value_of value
  else if String.eqb type "BOOLEAN" then Boolean value
  else JNull.

End Runtime.

(** ** Plugin: variables to tokens *)

Section Plugin.
Context {rt : JSRuntime}.

Definition empty_tokens : obj :=
  [("color", JObj []); ("typography", JObj []); ("spacing", JObj []);
   ("borderRadius", JObj []); ("shadow", JObj []); ("opacity", JObj [])].

(** [tokens[category][name] = entry] *)
Definition set_token (tokens : obj) (category name : string) (entry : jsval)
  : obj :=
  match obj_get tokens category with
  | Some (JObj inner) =>
      obj_set tokens category (JObj (obj_set inner name entry))
  | _ => tokens (* not reached: [tokens] holds an object for every category *)
  end.

(** The object literal stored for one token. *)
Definition token_entry (category : Category) (variable : FigmaVariable)
    (transformedValue : jsval) : jsval :=
  JObj [("value", transformedValue);
        ("type", JStr (category_name category));
        ("variableId", JStr (var_key variable));
        ("originalName", JStr (var_name variable));
        ("resolvedType", JStr (var_resolvedType variable))].

(** The body of the inner [forEach], for one [[modeId, value]] entry. *)
Definition process_mode (name : string) (category : Category)
    (variable : FigmaVariable) (tokens : obj)
    (entry : string * VariableValue) : obj :=
  let transformedValue :=
    transformVariableValue (var_resolvedType variable) (snd entry) in
  if is_null transformedValue then tokens
  else set_token tokens (category_name category) name
         (token_entry category variable transformedValue).

(** The body of the outer [forEach], for one variable. *)
Definition process_variable (tokens : obj) (variable : FigmaVariable) : obj :=
  let name := sanitizeVariableName (var_name variable) in
  let category :=
    determineTokenCategory (var_name variable) (var_resolvedType variable) in
  fold_left (process_mode name category variable)
    (var_valuesByMode variable) tokens.

(** [transformVariablesToTokens (variables)] *)
Definition transformVariablesToTokens (variables : list FigmaVariable) : obj :=
  fold_left process_variable variables empty_tokens.

(** [Object.assign (target, source)] and [{...target, ...source}]. *)
Definition object_assign (target source : obj) : obj :=
  fold_left (fun acc kv => obj_set acc (fst kv) (snd kv)) source target.

(** The object [commitToGitHub] serialises and uploads; [now] is
    [new Date().toISOString()].  ([JSON.stringify] keeps every key of this
    object and writes [NaN] as [null].) *)
Definition plugin_store (now : string) (tokens : obj) : obj :=
  object_assign
    [("$metadata",
      JObj [("generatedAt", JStr now);
            ("source", JStr "figma-plugin");
            ("method", JStr "variables-api");
            ("note", JStr "Generated from Figma Variables API via plugin")])]
    tokens.

End Plugin.

(** ** Variables-API adapter (class [FigmaSync]) *)

(** The result of code that may throw; [Throw] carries the gist of
    [error.message].  [Unmodelled] marks a run that leaves the model: a
    property read that resolves through the prototype chain of a built-in
    ([constructor], [__proto__], a string method, ...). *)
Inductive result (A : Type) : Type :=
  | Ok (a : A)
  | Throw (message : string)
  | Unmodelled.
Arguments Ok {A} a.
Arguments Throw {A} message.
Arguments Unmodelled {A}.

Definition bind {A B : Type} (m : result A) (f : A -> result B) : result B :=
  match m with
  | Ok a => f a
  | Throw e => Throw e
  | Unmodelled => Unmodelled
  end.

Notation "'let*' x ':=' m 'in' k" := (bind m (fun x => k))
  (at level 10, x name, m at level 100, k at level 200).

(** [forEach] with a callback that may throw. *)
Fixpoint forEach {A S : Type} (body : S -> A -> result S) (l : list A) (s : S)
  : result S :=
  match l with
  | [] => Ok s
  | a :: r => let* s' := body s a in forEach body r s'
  end.

Fixpoint assoc_get {A : Type} (l : list (string * A)) (k : string) : option A :=
  match l with
  | [] => None
  | (k', v) :: r => if String.eqb k' k then Some v else assoc_get r k
  end.

Record Mode : Type := mkMode { mode_name : string }.

Record Collection : Type := mkCollection {
  coll_name : string;
  coll_modes : list (string * Mode)
}.

Record Meta : Type := mkMeta {
  variableCollections : list (string * Collection)
}.

(** The fields the constructor sets. *)
Record FigmaSync : Type := mkFigmaSync {
  accessToken : string;
  fileKey : string;
  collections : list string;
  modes : list string
}.

(** Property names every plain object inherits from [Object.prototype]. *)
Definition inherited_keys : list string :=
  ["constructor"; "__proto__"; "hasOwnProperty"; "isPrototypeOf";
   "propertyIsEnumerable"; "toLocaleString"; "toString"; "valueOf";
   "__defineGetter__"; "__defineSetter__"; "__lookupGetter__";
   "__lookupSetter__"].

Definition inherited_key (k : string) : bool :=
  existsb (String.eqb k) inherited_keys.

Section VariablesApi.
Context {rt : JSRuntime}.

(** [FigmaSync.createTokenPath (variable, collection, mode)] *)
Definition createTokenPath (variable : FigmaVariable) (collection : Collection)
    (mode : Mode) : string :=
  let collectionName := Str.replace_spaces (Str.toLowerCase (coll_name collection)) in
  let modeName := Str.replace_spaces (Str.toLowerCase (mode_name mode)) in
  let variableName := Str.replace_spaces (Str.toLowerCase (var_name variable)) in
  let category := pathCategory (var_name variable) in
  category_name category ++ "." ++ collectionName ++ "." ++ modeName
    ++ "." ++ variableName.

(** [s.length]: the number of UTF-16 code units of [s], one for each
    character and two for a character of four bytes. *)
Fixpoint utf16_length (s : string) : nat :=
  match s with
  | EmptyString => 0
  | String c t =>
      let b := nat_of_ascii c in
      (if (b <? 128)%nat || (192 <=? b)%nat then 1 else 0)
      + (if (240 <=? b)%nat then 1 else 0) + utf16_length t
  end.

(** The properties a string has of its own: [length] and its indices. *)
Definition string_own_key (s key : string) : bool :=
  String.eqb key "length"
  || existsb (fun i => String.eqb (int_toString (Z.of_nat i)) key)
       (seq 0 (utf16_length s)).

(** [current[key] = value], in strict mode (class bodies are strict).  On
    a boolean, a number or a string the assignment throws, except for the
    key [__proto__]: that one reaches the setter every value inherits from
    [Object.prototype], and a run that reaches it is not modelled, on a
    primitive as on an object. *)
Definition assign (current : jsval) (key : string) (value : jsval)
  : result jsval :=
  match current with
  | JObj fields =>
      if String.eqb key "__proto__" then Unmodelled
      else Ok (JObj (obj_set fields key value))
  | JUndefined | JNull => Throw "Cannot set properties of undefined"
  | JStr s =>
      if String.eqb key "__proto__" then Unmodelled
      else if string_own_key s key
      then Throw "Cannot assign to read only property"
      else Throw "Cannot create property"
  | JBool _ | JNum _ | JNaN =>
      if String.eqb key "__proto__" then Unmodelled
      else Throw "Cannot create property"
  end.

(** The loop and final assignment of [setNestedValue], from [current] on. *)
Fixpoint setNested (current : jsval) (keys : list string) (value : jsval)
  : result jsval :=
  match keys with
  | [] => Ok current
  | [key] => assign current key value
  | key :: rest =>
      match current with
      | JObj fields =>
          match obj_get fields key with
          | Some child =>
              let* child' :=
                setNested (if truthy child then child else JObj []) rest value in
              Ok (JObj (obj_set fields key child'))
          | None =>
              if inherited_key key then Unmodelled
              else let* child' := setNested (JObj []) rest value in
                   Ok (JObj (obj_set fields key child'))
          end
      | JUndefined | JNull => Throw "Cannot read properties of undefined"
      | JBool _ | JNum _ | JNaN | JStr _ => Unmodelled
      end
  end.

(** [FigmaSync.setNestedValue (obj, path, value)] *)
Definition setNestedValue (o : obj) (path : string) (value : jsval)
  : result obj :=
  let* r := setNested (JObj o) (Str.split_on "." path) value in
  match r with
  | JObj o' => Ok o'
  | _ => Unmodelled
  end.

Definition list_includes (l : list string) (s : string) : bool :=
  existsb (String.eqb s) l.

(** The callback of the inner [forEach] of [transformToStyleDictionary]. *)
Definition api_process_mode (this : FigmaSync) (variable : FigmaVariable)
    (collection : Collection) (tokens : obj)
    (entry : string * VariableValue) : result obj :=
  match assoc_get (coll_modes collection) (fst entry) with
  | None =>
      if inherited_key (fst entry) then Unmodelled
      else Throw "Cannot read properties of undefined (reading 'name')"
  | Some mode =>
      if negb (Nat.eqb (List.length (modes this)) 0)
         && negb (list_includes (modes this) (mode_name mode))
      then Ok tokens
      else
        let tokenPath := createTokenPath variable collection mode in
        if String.eqb tokenPath "" then Ok tokens
        else
          let transformedValue :=
            transformValue (var_resolvedType variable) (snd entry) in
          if is_null transformedValue then Ok tokens
          else setNestedValue tokens tokenPath transformedValue
  end.

(** The callback of the outer [forEach]. *)
Definition api_process_variable (this : FigmaSync) (meta : Meta)
    (tokens : obj) (entry : string * FigmaVariable) : result obj :=
  let variable := snd entry in
  match assoc_get (variableCollections meta) (var_collectionId variable) with
  | None =>
      if inherited_key (var_collectionId variable) then Unmodelled
      else Throw "Cannot read properties of undefined (reading 'name')"
  | Some collection =>
      if negb (Nat.eqb (List.length (collections this)) 0)
         && negb (list_includes (collections this) (coll_name collection))
      then Ok tokens
      else forEach (api_process_mode this variable collection)
             (var_valuesByMode variable) tokens
  end.

(** [FigmaSync.transformToStyleDictionary ({meta, values})] *)
Definition transformToStyleDictionary (this : FigmaSync) (meta : Meta)
    (values : list (string * FigmaVariable)) : result obj :=
  forEach (api_process_variable this meta) values empty_tokens.

(** The object [FigmaSync.saveTokens] writes. *)
Definition api_store (now : string) (tokens : obj) : obj :=
  object_assign
    [("$metadata",
      JObj [("generatedAt", JStr now);
            ("source", JStr "figma");
            ("version", JStr "1.0.0")])]
    tokens.

End VariablesApi.

(** ** The adapter as a process: environment, network, file system *)

(** What the process does to the outside world.  Progress lines written
    with [console.log] and [console.warn] are not recorded. *)
Inductive Event : Type :=
  | ConsoleError (line : string)
  | HttpGet (url token : string)
  | MkDir (path : string)
  | WriteFile (path : string) (content : jsval).

(** How the process ends. *)
Inductive Ending : Type :=
  | Exit (code : Z)
  | LeftModel.

(** A computation that records events and either yields a value or ends
    the process ([process.exit]). *)
Definition proc (A : Type) : Type := list Event -> list Event * (A + Ending).

Definition ret {A : Type} (a : A) : proc A := fun t => (t, inl a).

Definition emit (e : Event) : proc unit := fun t => ((t ++ [e])%list, inl tt).

Definition process_exit {A : Type} (code : Z) : proc A :=
  fun t => (t, inr (Exit code)).

Definition leave_model {A : Type} : proc A := fun t => (t, inr LeftModel).

Definition pbind {A B : Type} (m : proc A) (f : A -> proc B) : proc B :=
  fun t =>
    match m t with
    | (t', inl a) => f a t'
    | (t', inr e) => (t', inr e)
    end.

Notation "'do' x '<-' m ';' k" := (pbind m (fun x => k))
  (at level 10, x name, m at level 100, k at level 200).
Notation "m '>>' k" := (pbind m (fun _ => k))
  (at level 65, right associativity).

(** What the outside world answers. *)
Record World : Type := mkWorld {
  (** [axios.get (url, {headers: {'X-Figma-Token': token}})]: the text of
      the error, or [response.data]. *)
  http_get : string -> string -> string + (Meta * list (string * FigmaVariable));
  (** [fs.existsSync (tokensDir)] *)
  tokens_dir_exists : bool;
  (** [new Date().toISOString()] *)
  clock : string
}.

Definition FIGMA_API_BASE : string := "https://api.figma.com/v1".
Definition TOKENS_OUTPUT_PATH : string := "../tokens/figma-tokens.json".
Definition TOKENS_DIR : string := "../tokens".

(** [s?.split(',').map(s => s.trim()).filter(Boolean) || []] *)
Definition comma_list (s : option string) : list string :=
  match s with
  | None => []
  | Some s =>
      filter (fun x => negb (String.eqb x "")) (map Str.trim (Str.split_on "," s))
  end.

(** [!s] for an environment variable. *)
Definition unset (s : option string) : bool :=
  match s with
  | None => true
  | Some s => String.eqb s ""
  end.

Section Process.
Context {rt : JSRuntime}.

(** [new FigmaSync()]; [env] is [process.env] after [dotenv] has loaded
    the [.env] file. *)
Definition FigmaSync_constructor (env : gmap string string) : proc FigmaSync :=
  let accessToken := env !! "FIGMA_ACCESS_TOKEN" in
  let fileKey := env !! "FIGMA_FILE_KEY" in
  let collections := comma_list (env !! "FIGMA_COLLECTIONS") in
  let modes := comma_list (env !! "FIGMA_MODES") in
  if unset accessToken || unset fileKey then
    emit (ConsoleError "❌ Missing required environment variables:") >>
    emit (ConsoleError
            "   FIGMA_ACCESS_TOKEN and FIGMA_FILE_KEY must be set in .env file") >>
    process_exit 1
  else
    ret (mkFigmaSync (default "" accessToken) (default "" fileKey)
           collections modes).

(** [FigmaSync.fetchVariables ()] *)
Definition fetchVariables (w : World) (this : FigmaSync)
  : proc (Meta * list (string * FigmaVariable)) :=
  let url := FIGMA_API_BASE ++ "/files/" ++ fileKey this ++ "/variables/local" in
  emit (HttpGet url (accessToken this)) >>
  match http_get w url (accessToken this) with
  | inr data => ret data
  | inl message =>
      emit (ConsoleError ("❌ Failed to fetch variables from Figma: " ++ message)) >>
      process_exit 1
  end.

(** [FigmaSync.saveTokens (tokens)] *)
Definition saveTokens (w : World) (tokens : obj) : proc unit :=
  (if tokens_dir_exists w then ret tt else emit (MkDir TOKENS_DIR)) >>
  emit (WriteFile TOKENS_OUTPUT_PATH (JObj (api_store (clock w) tokens))).

(** [FigmaSync.run ()] *)
Definition run (w : World) (this : FigmaSync) : proc unit :=
  do data <- fetchVariables w this;
  match transformToStyleDictionary this (fst data) (snd data) with
  | Ok tokens => saveTokens w tokens
  | Throw message =>
      emit (ConsoleError ("❌ Sync failed: " ++ message)) >> process_exit 1
  | Unmodelled => leave_model
  end.

(** The script: [const sync = new FigmaSync(); sync.run();].  The result is
    the events of the run and the exit status. *)
Definition FigmaSync_main (env : gmap string string) (w : World)
  : list Event * Ending :=
  match (do sync <- FigmaSync_constructor env; run w sync) [] with
  | (t, inl _) => (t, Exit 0)
  | (t, inr e) => (t, e)
  end.

End Process.

(** ** Renderer (class [PluginSync]) *)

Section Renderer.
Context {rt : JSRuntime}.

(** [name.charAt(0).toLowerCase() + name.slice(1)] *)
Definition toSwiftName (name : string) : string := Str.lower_first name.

(** [Object.entries (s)] for a string [s] of ASCII characters: one entry
    for each character, under its index. *)
Fixpoint string_entries (i : nat) (s : string) : obj :=
  match s with
  | EmptyString => []
  | String c t =>
      (int_toString (Z.of_nat i), JStr (String c EmptyString))
        :: string_entries (S i) t
  end.

(** [Object.entries (this.tokens[category] || {})] *)
Definition category_entries (tokens : obj) (category : string) : obj :=
  match obj_get tokens category with
  | Some (JObj fields) => fields
  | Some (JStr s) => string_entries 0 s
  | _ => []
  end.

(** [token.value] *)
Definition token_value (token : jsval) : result jsval :=
  match token with
  | JObj fields =>
      match obj_get fields "value" with
      | Some v => Ok v
      | None => Ok JUndefined
      end
  | JUndefined | JNull =>
      Throw "Cannot read properties of undefined (reading 'value')"
  | JBool _ | JNum _ | JNaN | JStr _ => Ok JUndefined
  end.

Definition colors_header (timestamp : string) : string :=
"//
//  Colors.swift
//  Design System
//
//  ⚠️  AUTO-GENERATED FILE - DO NOT EDIT MANUALLY
//  Generated from Figma Variables via Plugin
//  Last updated: " ++ timestamp ++ "
//

import SwiftUI

extension Color {
".

Definition spacing_header (timestamp : string) : string :=
"//
//  Spacing.swift
//  Design System
//
//  ⚠️  AUTO-GENERATED FILE - DO NOT EDIT MANUALLY
//  Generated from Figma Variables via Plugin
//  Last updated: " ++ timestamp ++ "
//

import SwiftUI

struct Spacing {
".

(** [`${v}`] for a value of the token file.  An object is printed by the
    [toString] it inherits, as [[object Object]]; an object with a property
    [toString] of its own, which is not a function in a value read from
    JSON, cannot be converted and the conversion throws. *)
Definition template (v : jsval) : result string :=
  match v with
  | JObj fields =>
      match obj_get fields "toString" with
      | Some _ => Throw "Cannot convert object to primitive value"
      | None => Ok "[object Object]"
      end
  | _ => Ok (ToString v)
  end.

(** The line [generateColors] appends for one entry. *)
Definition color_line (entry : string * jsval) : result string :=
  let swiftName := toSwiftName (fst entry) in
  let* value := token_value (snd entry) in
  match value with
  | JStr s =>
      let hexValue := if Str.startsWith "#" s then s else "#" ++ s in
      Ok ("    static let " ++ swiftName ++ " = Color(hex: " ++ Str.dq
            ++ hexValue ++ Str.dq ++ ")" ++ Str.nl)
  | JUndefined | JNull =>
      Throw "Cannot read properties of undefined (reading 'startsWith')"
  | JBool _ | JNum _ | JNaN | JObj _ =>
      Throw "token.value.startsWith is not a function"
  end.

(** [PluginSync.generateColors ()]; [timestamp] is
    [new Date().toISOString()]. *)
Definition generateColors (tokens : obj) (timestamp : string) : result string :=
  let* output :=
    forEach (fun output entry =>
               let* line := color_line entry in Ok (output ++ line))
      (category_entries tokens "color") (colors_header timestamp) in
  Ok (output ++ "}" ++ Str.nl).

(** The line [generateSpacing] appends for one entry. *)
Definition spacing_line (entry : string * jsval) : result string :=
  let swiftName := toSwiftName (fst entry) in
  let* value := token_value (snd entry) in
  let* text := template value in
  Ok ("    static let " ++ swiftName ++ ": CGFloat = " ++ text ++ Str.nl).

(** [PluginSync.generateSpacing ()] *)
Definition generateSpacing (tokens : obj) (timestamp : string) : result string :=
  let* output :=
    forEach (fun output entry =>
               let* line := spacing_line entry in Ok (output ++ line))
      (category_entries tokens "spacing") (spacing_header timestamp) in
  Ok (output ++ "}" ++ Str.nl).

(** [text] has [line] as one of its lines. *)
Definition has_line (text line : string) : Prop :=
  (exists post, text = line ++ Str.nl ++ post) \/
  (exists pre post, text = pre ++ Str.nl ++ line ++ Str.nl ++ post).

End Renderer.

(** ** Webhook listener *)

Record Response : Type := mkResponse {
  status : Z;
  body : jsval
}.

(** [v !== 'tokens_updated'] *)
Definition not_tokens_updated (v : option jsval) : bool :=
  match v with
  | Some (JStr s) => negb (String.eqb s "tokens_updated")
  | _ => true
  end.

Definition optional_field (k : string) (v : option jsval) : obj :=
  match v with
  | Some v => [(k, v)]
  | None => []
  end.

Section Webhook.
(** The machine the listener runs on: [exec (command)] either fails with an
    error (its message) or succeeds with the output, and changes the
    machine. *)
Variable Machine : Type.
Variable exec : string -> Machine -> (string + string) * Machine.

(** A computation over the machine that records every command it starts
    and may reject (throw). *)
Definition shell (A : Type) : Type :=
  Machine * list string -> (string + A) * (Machine * list string).

(** [executeCommand (command)], awaited. *)
Definition executeCommand (command : string) : shell string :=
  fun st =>
    let (m, started) := st in
    let (r, m') := exec command m in
    (r, (m', (started ++ [command])%list)).

Definition shell_bind {A B : Type} (c : shell A) (f : A -> shell B) : shell B :=
  fun st =>
    match c st with
    | (inr a, st') => f a st'
    | (inl e, st') => (inl e, st')
    end.

Definition shell_ret {A : Type} (a : A) : shell A := fun st => (inr a, st).

(** The handler of [POST /figma-webhook]: the response, the machine after
    it, and the commands started, in order.  [req_body] is [req.body];
    [now] is [new Date().toISOString()]. *)
Definition figma_webhook (now : string) (req_body : obj) (m : Machine)
  : Response * (Machine * list string) :=
  let event := obj_get req_body "event" in
  let repository := obj_get req_body "repository" in
  let commit := obj_get req_body "commit" in
  if not_tokens_updated event then
    (mkResponse 200 (JObj [("message", JStr "Event ignored")]), (m, []))
  else
    match
      shell_bind (executeCommand "git pull origin main") (fun _ =>
      shell_bind (executeCommand "cd scripts && npm run generate-swift") (fun _ =>
      shell_ret tt)) (m, [])
    with
    | (inr _, st) =>
        (mkResponse 200
           (JObj ([("success", JBool true);
                   ("message", JStr "Tokens updated successfully")]
                  ++ optional_field "repository" repository
                  ++ optional_field "commit" commit
                  ++ [("timestamp", JStr now)])%list),
         st)
    | (inl message, st) =>
        (mkResponse 500
           (JObj [("success", JBool false); ("error", JStr message)]),
         st)
    end.

End Webhook.

(** ** File-content adapter (class [FigmaFileSync]) *)

Record Style : Type := mkStyle {
  style_name : string;
  styleType : string
}.

Record Component : Type := mkComponent {
  component_name : string
}.

(** [fileData]: the [styles] and [components] maps of the file, when
    present. *)
Record FileData : Type := mkFileData {
  styles : option (list (string * Style));
  components : option (list (string * Component))
}.

Definition color_token (hex : string) : jsval :=
  JObj [("value", JStr hex); ("type", JStr "color")].

Definition number_token (category : string) (n : Z) : jsval :=
  JObj [("value", JNum (inject_Z n)); ("type", JStr category)].

Definition font_token (fontSize : Z) (fontWeight : string) (lineHeight : Z)
  : jsval :=
  JObj [("value", JObj [("fontSize", JNum (inject_Z fontSize));
                        ("fontWeight", JStr fontWeight);
                        ("lineHeight", JNum (inject_Z lineHeight))]);
        ("type", JStr "typography")].

Definition shadow_token (y blur : Z) (shadowOpacity : Q) : jsval :=
  JObj [("value", JObj [("offset", JObj [("x", JNum 0); ("y", JNum (inject_Z y))]);
                        ("blur", JNum (inject_Z blur));
                        ("color", JStr "#000000");
                        ("opacity", JNum shadowOpacity)]);
        ("type", JStr "shadow")].

Definition default_colors : obj :=
  [("primary", color_token "#007AFF"); ("secondary", color_token "#5856D6");
   ("success", color_token "#34C759"); ("warning", color_token "#FF9500");
   ("error", color_token "#FF3B30"); ("background", color_token "#FFFFFF");
   ("surface", color_token "#F2F2F7"); ("text", color_token "#000000");
   ("textSecondary", color_token "#6D6D70")].

Definition default_spacing : obj :=
  [("xs", number_token "spacing" 4); ("small", number_token "spacing" 8);
   ("medium", number_token "spacing" 16); ("large", number_token "spacing" 24);
   ("xl", number_token "spacing" 32); ("xxl", number_token "spacing" 48)].

Definition default_typography : obj :=
  [("headline", font_token 24 "bold" 32); ("title", font_token 20 "semibold" 28);
   ("body", font_token 16 "regular" 24); ("caption", font_token 12 "regular" 16)].

Definition default_borderRadius : obj :=
  [("small", number_token "borderRadius" 4);
   ("medium", number_token "borderRadius" 8);
   ("large", number_token "borderRadius" 12);
   ("xl", number_token "borderRadius" 16)].

Definition default_shadow : obj :=
  [("card", shadow_token 2 8 (1 # 10)); ("elevated", shadow_token 4 16 (15 # 100))].

(** The colour tokens collected from the styles. *)
Definition colors_from_styles (colors : obj) (l : list (string * Style)) : obj :=
  fold_left
    (fun colors entry =>
       if String.eqb (styleType (snd entry)) "FILL"
       then obj_set colors (sanitizeName (style_name (snd entry)))
              (color_token "#007AFF")
       else colors)
    l colors.

(** The colour tokens collected from the component names. *)
Definition colors_from_components (colors : obj) (l : list (string * Component))
  : obj :=
  fold_left
    (fun colors entry =>
       let name := Str.toLowerCase (component_name (snd entry)) in
       if Str.includes "color" name || Str.includes "primary" name
          || Str.includes "secondary" name
       then obj_set colors (sanitizeName (component_name (snd entry)))
              (color_token "#007AFF")
       else colors)
    l colors.

(** [FigmaFileSync.extractTokensFromFile (fileData)] *)
Definition extractTokensFromFile (fileData : FileData) : obj :=
  let colors := [] in
  let colors :=
    match styles fileData with
    | Some l => colors_from_styles colors l
    | None => colors
    end in
  let colors :=
    match components fileData with
    | Some l => colors_from_components colors l
    | None => colors
    end in
  let colors :=
    if Nat.eqb (List.length (obj_keys colors)) 0 then default_colors
    else colors in
  [("color", JObj colors);
   ("typography", JObj default_typography);
   ("spacing", JObj default_spacing);
   ("borderRadius", JObj default_borderRadius);
   ("shadow", JObj default_shadow)].

(** The object [FigmaFileSync.saveTokens] writes. *)
Definition file_store (now : string) (tokens : obj) : obj :=
  object_assign
    [("$metadata",
      JObj [("generatedAt", JStr now);
            ("source", JStr "figma-file-content");
            ("method", JStr "file-content-extraction");
            ("note",
             JStr "Variables API not available - using file content extraction")])]
    tokens.

(** ** Vocabulary of the statements *)

(** The digit of [d] in radix 16, [0 <= d < 16]. *)
Definition hex_digit (d : Z) : ascii :=
  match String.get (Z.to_nat d) "0123456789abcdef" with
  | Some c => c
  | None => "?"%char
  end.

(** [n] written with exactly two hexadecimal digits. *)
Definition two_hex_digits (n : Z) : string :=
  String (hex_digit (n / 16)) (String (hex_digit (n mod 16)) EmptyString).

(** A channel of a Figma colour lies in [0, 1]. *)
Definition unit_interval (x : Q) : Prop := (0 <= x)%Q /\ (x <= 1)%Q.

Definition valid_channels (c : RGBA) : Prop :=
  unit_interval (red c) /\ unit_interval (green c) /\ unit_interval (blue c).

(** [tokens[category][name]] *)
Definition token_lookup (tokens : obj) (category name : string) : option jsval :=
  match obj_get tokens category with
  | Some (JObj inner) => obj_get inner name
  | _ => None
  end.

Definition has_field (fields : obj) (k : string) : bool :=
  match obj_get fields k with Some _ => true | None => false end.

(** A token: an object with at least the fields [value] and [type]. *)
Definition token_shape (entry : jsval) : bool :=
  match entry with
  | JObj fields => has_field fields "value" && has_field fields "type"
  | _ => false
  end.

(** A category: an object that maps names directly to tokens. *)
Definition category_shape (v : jsval) : bool :=
  match v with
  | JObj fields => forallb (fun kv => token_shape (snd kv)) fields
  | _ => false
  end.

Definition is_object (v : jsval) : bool :=
  match v with JObj _ => true | _ => false end.

Definition is_category_name (k : string) : bool :=
  existsb (fun c => String.eqb k (category_name c)) all_categories.

(** The declared shape of a token store: a [$metadata] object, and every
    other key a category that maps names to tokens. *)
Definition store_shape (store : obj) : bool :=
  match obj_get store "$metadata" with
  | Some (JObj _) => true
  | _ => false
  end
  && forallb (fun kv => String.eqb (fst kv) "$metadata"
                        || (is_category_name (fst kv) && category_shape (snd kv)))
       store.

(** The shape the Variables-API adapter produces: a [$metadata] object and
    every other key a category holding an object. *)
Definition nested_store_shape (store : obj) : bool :=
  match obj_get store "$metadata" with
  | Some (JObj _) => true
  | _ => false
  end
  && forallb (fun kv => String.eqb (fst kv) "$metadata"
                        || (is_category_name (fst kv) && is_object (snd kv)))
       store.

(** The words [determineTokenCategory] looks for in the name of a FLOAT. *)
Definition spacing_words : list string := ["spacing"; "padding"; "margin"].

(** A COLOR variable named [primary], in collection [Brand], mode [Light]. *)
Definition primary_variable : FigmaVariable :=
  mkVariable "primary" "COLOR"
    [("1:0", ColorValue (mkRGBA 0 (122 # 255) 1 (Some 1%Q)))]
    "key-primary" "VariableCollectionId:1:1".

Definition brand_collection : Collection :=
  mkCollection "Brand" [("1:0", mkMode "Light")].

(** A runtime to run examples with: it prints a number in radix 10 by the
    shortest decimal that reads back as the same double and a large integer
    in radix 16 by all its digits, and it parses no string (no example has
    one to parse). *)
Definition example_runtime : JSRuntime := {|
  Number_toString := double_toString;
  Number_toString16 x := int_toString16 (Qnum x);
  parseFloat_string _ := None
|}.

Definition Category_eqb (c c' : Category) : bool :=
  match c, c' with
  | color, color | typography, typography | spacing, spacing
  | borderRadius, borderRadius | shadow, shadow | opacity, opacity => true
  | _, _ => false
  end.

(** A token object given by the contents of its six categories. *)
Definition slots (f : Category -> obj) : obj :=
  [("color", JObj (f color)); ("typography", JObj (f typography));
   ("spacing", JObj (f spacing)); ("borderRadius", JObj (f borderRadius));
   ("shadow", JObj (f shadow)); ("opacity", JObj (f opacity))].

(** The contents [f] with category [c] replaced by [inner]. *)
Definition with_category (f : Category -> obj) (c : Category) (inner : obj)
  : Category -> obj :=
  fun c' => if Category_eqb c c' then inner else f c'.

(** Every entry of an object is a token, and no key occurs twice. *)
Definition tokens_only (inner : obj) : Prop :=
  List.NoDup (obj_keys inner)
  /\ forallb (fun kv => token_shape (snd kv)) inner = true.

(** Two COLOR variables whose names sanitize to [primary], each with two
    modes. *)
Definition brand_primary : FigmaVariable :=
  mkVariable "Color/Primary" "COLOR"
    [("1:0", ColorValue (mkRGBA 0 0 0 None));
     ("1:1", ColorValue (mkRGBA 1 1 1 None))]
    "key-a" "VariableCollectionId:1:1".

Definition plain_primary : FigmaVariable :=
  mkVariable "primary" "COLOR"
    [("1:0", ColorValue (mkRGBA 1 0 0 None));
     ("1:1", ColorValue (mkRGBA 0 0 1 None))]
    "key-b" "VariableCollectionId:1:1".

(** A FLOAT variable whose name also sanitizes to [primary]. *)
Definition primary_size : FigmaVariable :=
  mkVariable "Primary" "FLOAT" [("1:0", NumberValue 16)]
    "key-c" "VariableCollectionId:1:1".

(** A FLOAT variable [space-lg] with the value 8 in its one mode. *)
Definition space_lg : FigmaVariable :=
  mkVariable "space-lg" "FLOAT" [("1:0", NumberValue 8)]
    "key-space" "VariableCollectionId:1:1".

Definition brand_meta : Meta :=
  mkMeta [("VariableCollectionId:1:1", brand_collection)].

Definition all_collections : FigmaSync := mkFigmaSync "figd_token" "FILEKEY" [] [].

(** Something is stored in [o] under the path [keys]. *)
Fixpoint has_path (o : obj) (keys : list string) : bool :=
  match keys with
  | [] => true
  | k :: ks =>
      match obj_get o k with
      | Some (JObj o') => has_path o' ks
      | Some _ => match ks with [] => true | _ :: _ => false end
      | None => false
      end
  end.

(** A token object with exactly the six categories, each an object. *)
Definition six_objects (tokens : obj) : Prop := exists f, tokens = slots f.

(** The plugin's transform seen on the contents of the six categories. *)
Section PluginContents.
Context {rt : JSRuntime}.

Definition mode_contents (name : string) (category : Category)
    (variable : FigmaVariable) (f : Category -> obj)
    (entry : string * VariableValue) : Category -> obj :=
  let transformedValue :=
    transformVariableValue (var_resolvedType variable) (snd entry) in
  if is_null transformedValue then f
  else with_category f category
         (obj_set (f category) name
            (token_entry category variable transformedValue)).

Definition variable_contents (f : Category -> obj) (variable : FigmaVariable)
  : Category -> obj :=
  fold_left
    (mode_contents (sanitizeVariableName (var_name variable))
       (determineTokenCategory (var_name variable) (var_resolvedType variable))
       variable)
    (var_valuesByMode variable) f.

Definition contents (variables : list FigmaVariable) : Category -> obj :=
  fold_left variable_contents variables (fun _ => []).

End PluginContents.

(** The two commands of the webhook. *)
Definition pull_command : string := "git pull origin main".


Definition pull_fails (command : string) (m : unit)
  : (string + string) * unit :=
  if String.eqb command pull_command
  then (inl "Command failed: git pull origin main", m)
  else (inr "", m).

(** The request body of the webhook scenario. *)
Definition tokens_updated_body : obj :=
  [("event", JStr "tokens_updated"); ("repository", JStr "r");
   ("commit", JStr "c")].

(** The token store of the end-to-end scenario. *)
Definition scenario_store : obj :=
  [("color", JObj [("primary", JObj [("value", JStr "#007AFF")])]);
   ("spacing", JObj [("small", JObj [("value", JNum 8)])])].

(** A world for examples: the network is down. *)
Definition offline_world : World :=
  mkWorld (fun _ _ => inl "getaddrinfo ENOTFOUND api.figma.com") true
    "2025-10-19T13:06:59.013Z".

Definition is_console_error (e : Event) : bool :=
  match e with ConsoleError _ => true | _ => false end.

(** ** Further vocabulary: paths, filters, lists of names *)

(** [v[k1][k2]...], reading own properties; [None] when a step finds
    nothing to read. *)
Fixpoint get_path (v : jsval) (keys : list string) : option jsval :=
  match keys with
  | [] => Some v
  | k :: ks =>
      match v with
      | JObj o =>
          match obj_get o k with
          | Some child => get_path child ks
          | None => None
          end
      | _ => None
      end
  end.

(** A value that is not an object. *)
Definition is_primitive (v : jsval) : bool := negb (is_object v).

(** The variables the collections filter of [transformToStyleDictionary]
    lets through: all of them when no collection is listed, otherwise those
    of a listed collection; a variable whose collection is unknown is not
    filtered (reading its collection throws first). *)
Definition passes_collections (this : FigmaSync) (meta : Meta)
    (entry : string * FigmaVariable) : bool :=
  match assoc_get (variableCollections meta) (var_collectionId (snd entry)) with
  | None => true
  | Some collection =>
      Nat.eqb (List.length (collections this)) 0
      || list_includes (collections this) (coll_name collection)
  end.

Definition is_write (e : Event) : bool :=
  match e with WriteFile _ _ => true | _ => false end.

Definition is_request (e : Event) : bool :=
  match e with HttpGet _ _ => true | _ => false end.

Definition blank_or_comma (c : ascii) : bool :=
  Str.is_space c || Ascii.eqb c ","%char.

Definition not_space (c : ascii) : bool := negb (Str.is_space c).

(** The modes the modes filter lets through, in the same way. *)
Definition passes_modes (this : FigmaSync) (collection : Collection)
    (entry : string * VariableValue) : bool :=
  match assoc_get (coll_modes collection) (fst entry) with
  | None => true
  | Some mode =>
      Nat.eqb (List.length (modes this)) 0
      || list_includes (modes this) (mode_name mode)
  end.

(** A process environment that lists one collection, and a world whose
    network answers with the variable [space-lg]. *)
Definition brand_env : gmap string string :=
  {["FIGMA_ACCESS_TOKEN" := "figd_token"; "FIGMA_FILE_KEY" := "FILEKEY";
    "FIGMA_COLLECTIONS" := " Brand , ,Marketing"]}.

Definition online_world : World :=
  mkWorld (fun _ _ => inr (brand_meta, [("VariableID:1:2", space_lg)])) false
    "2025-10-19T13:06:59.013Z".

(** ** The token file between an adapter and the renderer *)

Definition is_undefined (v : jsval) : bool :=
  match v with JUndefined => true | _ => false end.

(** [JSON.parse (JSON.stringify (v))]: [NaN] is written as [null] and a
    property whose value is [undefined] is left out. *)
Fixpoint json_roundtrip (v : jsval) : jsval :=
  match v with
  | JNaN => JNull
  | JObj fields =>
      JObj (List.filter (fun kv => negb (is_undefined (snd kv)))
              (List.map (fun kv => (fst kv, json_roundtrip (snd kv))) fields))
  | JUndefined | JNull | JBool _ | JNum _ | JStr _ => v
  end.

(** The properties of a parsed token file. *)
Definition file_tokens (store : obj) : obj :=
  match json_roundtrip (JObj store) with
  | JObj fields => fields
  | _ => []
  end.

(** ** Renderer: the other generators and the scripts *)

(** The lines a [forEach] appends, one per entry, unless a callback
    throws. *)
Fixpoint lines_of (line : string * jsval -> result string) (entries : obj)
  : result (list string) :=
  match entries with
  | [] => Ok []
  | e :: r =>
      let* l := line e in
      let* ls := lines_of line r in
      Ok (l :: ls)
  end.

Section MoreRenderer.
Context {rt : JSRuntime}.

(** [typeof v === 'object'] *)
Definition typeof_object (v : jsval) : bool :=
  match v with JObj _ | JNull => true | _ => false end.

(** [v.k] for a property name [k] that no prototype defines. *)
Definition get_property (v : jsval) (k : string) : result jsval :=
  match v with
  | JObj fields =>
      match obj_get fields k with
      | Some x => Ok x
      | None => Ok JUndefined
      end
  | JUndefined | JNull => Throw ("Cannot read properties of undefined (reading '" ++ k ++ "')")
  | JBool _ | JNum _ | JNaN | JStr _ => Ok JUndefined
  end.

(** [a - b]; a string operand and an infinite result are outside the
    model.  An object of the token file counts as NaN, through the
    [toString] it inherits, unless it has a property [toString] of its
    own. *)
Definition to_number (v : jsval) : result (option Q) :=
  match v with
  | JNum x => Ok (Some x)
  | JNull => Ok (Some 0%Q)
  | JBool true => Ok (Some 1%Q)
  | JBool false => Ok (Some 0%Q)
  | JUndefined | JNaN => Ok None
  | JObj fields =>
      match obj_get fields "toString" with
      | Some _ => Throw "Cannot convert object to primitive value"
      | None => Ok None
      end
  | JStr _ => Unmodelled
  end.

Definition subtract (a b : jsval) : result jsval :=
  let* x := to_number a in
  let* y := to_number b in
  match x, y with
  | Some x, Some y =>
      match to_double (x - y) with
      | Finite z => Ok (JNum z)
      | Infinite _ => Unmodelled
      end
  | _, _ => Ok JNaN
  end.

(** The callback of [generateTypography]. *)
Definition typography_line (entry : string * jsval) : result string :=
  let swiftName := toSwiftName (fst entry) in
  let* value := token_value (snd entry) in
  if typeof_object value then
    let* fontSize := get_property value "fontSize" in
    let* fontWeight := get_property value "fontWeight" in
    let* lineHeight := get_property value "lineHeight" in
    let* size := template fontSize in
    let fontCode := "Font.system(size: " ++ size in
    let* fontCode :=
      if truthy fontWeight then
        match fontWeight with
        | JStr w => Ok (fontCode ++ ", weight: ." ++ Str.toLowerCase w)
        | _ => Throw "fontWeight.toLowerCase is not a function"
        end
      else Ok fontCode in
    let fontCode := fontCode ++ ")" in
    let* fontCode :=
      if truthy lineHeight then
        let* spacing := subtract lineHeight fontSize in
        Ok (fontCode ++ ".lineSpacing(" ++ ToString spacing ++ ")")
      else Ok fontCode in
    Ok ("    static let " ++ swiftName ++ " = " ++ fontCode ++ Str.nl)
  else
    Ok ("    static let " ++ swiftName ++ " = Font.system(size: "
          ++ ToString value ++ ")" ++ Str.nl).

(** The callback of [generateShadows]. *)
Definition shadow_line (entry : string * jsval) : result string :=
  let swiftName := toSwiftName (fst entry) in
  let* value := token_value (snd entry) in
  if typeof_object value then
    let* offset := get_property value "offset" in
    let* blur := get_property value "blur" in
    let* color := get_property value "color" in
    let* opacity := get_property value "opacity" in
    let* x := get_property offset "x" in
    let* width := template x in
    let* y := get_property offset "y" in
    let* height := template y in
    let* blur := template blur in
    let* color := template color in
    let* opacity := template opacity in
    Ok ("    static let " ++ swiftName ++ " = Shadow(offset: CGSize(width: "
          ++ width ++ ", height: " ++ height ++ "), blur: " ++ blur
          ++ ", color: Color(hex: " ++ Str.dq ++ color ++ Str.dq
          ++ "), opacity: " ++ opacity ++ ")" ++ Str.nl)
  else
    Ok ("    static let " ++ swiftName
          ++ " = Shadow(offset: CGSize(width: 0, height: 2), blur: 4, color: .black, opacity: 0.1)"
          ++ Str.nl).

(** The comment block that opens a generated file; [file] is its name and
    [origin] the words after [via]. *)
Definition banner (file origin timestamp : string) : string :=
"//
//  " ++ file ++ "
//  Design System
//
//  ⚠️  AUTO-GENERATED FILE - DO NOT EDIT MANUALLY
//  Generated from Figma Variables via " ++ origin ++ "
//  Last updated: " ++ timestamp ++ "
//

import SwiftUI

".

Definition shadow_struct : string :=
"struct Shadow {
    let offset: CGSize
    let blur: CGFloat
    let color: Color
    let opacity: Double
    
    init(offset: CGSize, blur: CGFloat, color: Color, opacity: Double) {
        self.offset = offset
        self.blur = blur
        self.color = color
        self.opacity = opacity
    }
}

".

Definition typography_header (timestamp : string) : string :=
  banner "Typography.swift" "Plugin" timestamp ++ "extension Font {" ++ Str.nl.

Definition borderRadius_header (timestamp : string) : string :=
  banner "BorderRadius.swift" "Plugin" timestamp ++ "struct BorderRadius {"
    ++ Str.nl.

Definition shadows_header (timestamp : string) : string :=
  banner "Shadows.swift" "Plugin" timestamp ++ shadow_struct
    ++ "extension Shadow {" ++ Str.nl.

(** [PluginSync.generateTypography ()] *)
Definition generateTypography (tokens : obj) (timestamp : string)
  : result string :=
  let* output :=
    forEach (fun output entry =>
               let* line := typography_line entry in Ok (output ++ line))
      (category_entries tokens "typography") (typography_header timestamp) in
  Ok (output ++ "}" ++ Str.nl).

(** [PluginSync.generateBorderRadius ()]; its callback has the text of the
    one in [generateSpacing]. *)
Definition generateBorderRadius (tokens : obj) (timestamp : string)
  : result string :=
  let* output :=
    forEach (fun output entry =>
               let* line := spacing_line entry in Ok (output ++ line))
      (category_entries tokens "borderRadius") (borderRadius_header timestamp) in
  Ok (output ++ "}" ++ Str.nl).

(** [PluginSync.generateShadows ()] *)
Definition generateShadows (tokens : obj) (timestamp : string)
  : result string :=
  let* output :=
    forEach (fun output entry =>
               let* line := shadow_line entry in Ok (output ++ line))
      (category_entries tokens "shadow") (shadows_header timestamp) in
  Ok (output ++ "}" ++ Str.nl).

End MoreRenderer.

(** ** Class [SwiftTokenGenerator]: the same callbacks under other headers *)

Section SwiftTokenGenerator.
Context {rt : JSRuntime}.

(** [SwiftTokenGenerator.generateColors ()] *)
Definition Swift_generateColors (tokens : obj) (timestamp : string)
  : result string :=
  let* output :=
    forEach (fun output entry =>
               let* line := color_line entry in Ok (output ++ line))
      (category_entries tokens "color")
      (banner "Colors.swift" "Style Dictionary" timestamp
         ++ "extension Color {" ++ Str.nl) in
  Ok (output ++ "}" ++ Str.nl).

(** [SwiftTokenGenerator.generateTypography ()] *)
Definition Swift_generateTypography (tokens : obj) (timestamp : string)
  : result string :=
  let* output :=
    forEach (fun output entry =>
               let* line := typography_line entry in Ok (output ++ line))
      (category_entries tokens "typography")
      (banner "Typography.swift" "Style Dictionary" timestamp
         ++ "extension Font {" ++ Str.nl) in
  Ok (output ++ "}" ++ Str.nl).

(** [SwiftTokenGenerator.generateSpacing ()] *)
Definition Swift_generateSpacing (tokens : obj) (timestamp : string)
  : result string :=
  let* output :=
    forEach (fun output entry =>
               let* line := spacing_line entry in Ok (output ++ line))
      (category_entries tokens "spacing")
      (banner "Spacing.swift" "Style Dictionary" timestamp
         ++ "struct Spacing {" ++ Str.nl) in
  Ok (output ++ "}" ++ Str.nl).

(** [SwiftTokenGenerator.generateBorderRadius ()] *)
Definition Swift_generateBorderRadius (tokens : obj) (timestamp : string)
  : result string :=
  let* output :=
    forEach (fun output entry =>
               let* line := spacing_line entry in Ok (output ++ line))
      (category_entries tokens "borderRadius")
      (banner "BorderRadius.swift" "Style Dictionary" timestamp
         ++ "struct BorderRadius {" ++ Str.nl) in
  Ok (output ++ "}" ++ Str.nl).

(** [SwiftTokenGenerator.generateShadows ()] *)
Definition Swift_generateShadows (tokens : obj) (timestamp : string)
  : result string :=
  let* output :=
    forEach (fun output entry =>
               let* line := shadow_line entry in Ok (output ++ line))
      (category_entries tokens "shadow")
      (banner "Shadows.swift" "Style Dictionary" timestamp ++ shadow_struct
         ++ "extension Shadow {" ++ Str.nl) in
  Ok (output ++ "}" ++ Str.nl).

End SwiftTokenGenerator.

(** ** The renderer scripts as processes *)

(** What the renderer finds: the token file ([None] when it is missing,
    otherwise the message of the [SyntaxError] of [JSON.parse] or the value
    parsed), whether the output directory exists, and the clock, read once
    by each generator. *)
Record RenderWorld : Type := mkRenderWorld {
  tokens_file : option (string + jsval);
  output_dir_exists : bool;
  render_clock : nat -> string
}.

Definition OUTPUT_DIR : string := "../DesignSystem/Tokens".

(** The own properties [this.tokens.color] and the like are read from; a
    primitive has none of them, and [null] has no properties at all. *)
Definition tokens_properties (v : jsval) : result obj :=
  match v with
  | JObj fields => Ok fields
  | JUndefined | JNull => Throw "Cannot read properties of null (reading 'color')"
  | JBool _ | JNum _ | JNaN | JStr _ => Ok []
  end.

(** The token summary at the end of [PluginSync.generateAll] calls
    [Object.keys] on every top-level value, which throws on [null]. *)
Definition summary_throws (v : jsval) : bool :=
  match v with
  | JObj fields =>
      existsb (fun kv => is_null (snd kv) || is_undefined (snd kv)) fields
  | _ => false
  end.

Definition write_files (files : list (string * string)) : proc unit :=
  fold_left
    (fun acc file =>
       acc >> emit (WriteFile (OUTPUT_DIR ++ "/" ++ fst file) (JStr (snd file))))
    files (ret tt).

(** The report of an uncaught exception on standard error, and the exit
    status 1 that goes with it. *)
Definition uncaught {A : Type} (message : string) : proc A :=
  emit (ConsoleError ("Uncaught " ++ message)) >> process_exit 1.

Definition lift {A : Type} (r : result A) : proc A :=
  match r with
  | Ok a => ret a
  | Throw message => uncaught message
  | Unmodelled => leave_model
  end.

Section RenderScripts.
Context {rt : JSRuntime}.

(** [PluginSync.loadTokens ()] *)
Definition PluginSync_loadTokens (w : RenderWorld) : proc jsval :=
  match tokens_file w with
  | None =>
      emit (ConsoleError
              "❌ No tokens file found. Make sure the Figma plugin has exported tokens.") >>
      process_exit 1
  | Some (inl message) => uncaught message
  | Some (inr v) => ret v
  end.

(** [PluginSync.generateAll ()] *)
Definition PluginSync_generateAll (w : RenderWorld) (this_tokens : jsval)
  : proc unit :=
  (if output_dir_exists w then ret tt else emit (MkDir OUTPUT_DIR)) >>
  do tokens <- lift (tokens_properties this_tokens);
  do colors <- lift (generateColors tokens (render_clock w 0));
  do fonts <- lift (generateTypography tokens (render_clock w 1));
  do gaps <- lift (generateSpacing tokens (render_clock w 2));
  do radii <- lift (generateBorderRadius tokens (render_clock w 3));
  do shadows <- lift (generateShadows tokens (render_clock w 4));
  write_files [("Colors.swift", colors); ("Typography.swift", fonts);
               ("Spacing.swift", gaps); ("BorderRadius.swift", radii);
               ("Shadows.swift", shadows)] >>
  if summary_throws this_tokens
  then uncaught "Cannot convert undefined or null to object"
  else ret tt.

(** The script [sync-plugin.js]:
    [const generator = new PluginSync(); generator.generateAll();]. *)
Definition PluginSync_main (w : RenderWorld) : list Event * Ending :=
  match (do tokens <- PluginSync_loadTokens w;
         PluginSync_generateAll w tokens) [] with
  | (t, inl _) => (t, Exit 0)
  | (t, inr e) => (t, e)
  end.

(** [SwiftTokenGenerator.loadTokens ()] *)
Definition Swift_loadTokens (w : RenderWorld) : proc jsval :=
  match tokens_file w with
  | None =>
      emit (ConsoleError "❌ No tokens file found. Run sync-file first.") >>
      process_exit 1
  | Some (inl message) => uncaught message
  | Some (inr v) => ret v
  end.

(** [SwiftTokenGenerator.generateAll ()] *)
Definition Swift_generateAll (w : RenderWorld) (this_tokens : jsval)
  : proc unit :=
  (if output_dir_exists w then ret tt else emit (MkDir OUTPUT_DIR)) >>
  do tokens <- lift (tokens_properties this_tokens);
  do colors <- lift (Swift_generateColors tokens (render_clock w 0));
  do fonts <- lift (Swift_generateTypography tokens (render_clock w 1));
  do gaps <- lift (Swift_generateSpacing tokens (render_clock w 2));
  do radii <- lift (Swift_generateBorderRadius tokens (render_clock w 3));
  do shadows <- lift (Swift_generateShadows tokens (render_clock w 4));
  write_files [("Colors.swift", colors); ("Typography.swift", fonts);
               ("Spacing.swift", gaps); ("BorderRadius.swift", radii);
               ("Shadows.swift", shadows)].

(** The script of [SwiftTokenGenerator]. *)
Definition Swift_main (w : RenderWorld) : list Event * Ending :=
  match (do tokens <- Swift_loadTokens w; Swift_generateAll w tokens) [] with
  | (t, inl _) => (t, Exit 0)
  | (t, inr e) => (t, e)
  end.

End RenderScripts.

(** ** Vocabulary for the renderer *)

(** The concatenation of a list of strings. *)
Fixpoint join (l : list string) : string :=
  match l with
  | [] => EmptyString
  | s :: r => s ++ join r
  end.

(** A category that has nothing to iterate over: it is missing, or holds
    [null], a boolean, a number, the empty string or an object without
    properties.  A string that is not empty is iterated over. *)
Definition nothing_to_render (tokens : obj) (category : string) : Prop :=
  match obj_get tokens category with
  | Some (JObj (_ :: _)) | Some (JStr (String _ _)) => False
  | _ => True
  end.

(** The five files of the renderer, in the order they are written. *)
Definition generated_files : list string :=
  ["../DesignSystem/Tokens/Colors.swift";
   "../DesignSystem/Tokens/Typography.swift";
   "../DesignSystem/Tokens/Spacing.swift";
   "../DesignSystem/Tokens/BorderRadius.swift";
   "../DesignSystem/Tokens/Shadows.swift"].

(** The paths written, in order. *)
Definition written_paths (t : list Event) : list string :=
  flat_map (fun e => match e with WriteFile path _ => [path] | _ => [] end) t.

(** A world in which the token file holds the scenario's store. *)
Definition scenario_world : RenderWorld :=
  mkRenderWorld (Some (inr (JObj scenario_store))) false
    (fun _ => "2025-10-19T13:06:59.013Z").


(** ** Vocabulary for the plugin's export *)

(** The entry [entry] is the one the plugin builds for some mode of some
    variable of [variables] whose category is [c] and whose sanitized name
    is [name]. *)
Definition from_variable {rt : JSRuntime} (variables : list FigmaVariable)
    (c : Category) (name : string) (entry : jsval) : Prop :=
  exists variable modeId value,
    In variable variables
    /\ In (modeId, value) (var_valuesByMode variable)
    /\ determineTokenCategory (var_name variable) (var_resolvedType variable) = c
    /\ sanitizeVariableName (var_name variable) = name
    /\ transformVariableValue (var_resolvedType variable) value <> JNull
    /\ entry = token_entry c variable
                 (transformVariableValue (var_resolvedType variable) value).

(** The properties of an object after it went through the token file. *)
Definition roundtrip_fields (inner : obj) : obj :=
  List.filter (fun kv => negb (is_undefined (snd kv)))
    (List.map (fun kv => (fst kv, json_roundtrip (snd kv))) inner).

(** What the renderer finds after the plugin exported [variables] at time
    [now]. *)
Definition exported_world {rt : JSRuntime} (now : string)
    (variables : list FigmaVariable) (dir_exists : bool)
    (clock : nat -> string) : RenderWorld :=
  mkRenderWorld
    (Some (inr (json_roundtrip
                  (JObj (plugin_store now
                           (transformVariablesToTokens variables))))))
    dir_exists clock.

(** ** Vocabulary for the Variables-API store *)

(** Every entry of a category is an object whose entries are objects: the
    levels of the collection and of the mode. *)
Definition nested_twice (inner : obj) : bool :=
  forallb (fun kv =>
             match snd kv with
             | JObj m => forallb (fun kv' => is_object (snd kv')) m
             | _ => false
             end) inner.

(** What the renderer finds after the Variables-API adapter wrote
    [tokens] at time [now]. *)
Definition synced_world (now : string) (tokens : obj) (dir_exists : bool)
    (clock : nat -> string) : RenderWorld :=
  mkRenderWorld (Some (inr (json_roundtrip (JObj (api_store now tokens)))))
    dir_exists clock.

(** A COLOR variable [surface color] of the collection [Brand]. *)
Definition surface_color : FigmaVariable :=
  mkVariable "surface color" "COLOR"
    [("1:0", ColorValue (mkRGBA 1 1 1 (Some 1%Q)))]
    "key-surface" "VariableCollectionId:1:1".

(** ** The generated files kept in the repository *)

(** The declarations of [DesignSystem/Tokens/Spacing.swift]. *)
Definition Spacing_swift_body : string :=
"struct Spacing {
    static let xs: CGFloat = 4
    static let small: CGFloat = 8
    static let medium: CGFloat = 16
    static let large: CGFloat = 24
    static let xl: CGFloat = 32
    static let xxl: CGFloat = 48
}
".

(** The declarations of [DesignSystem/Tokens/Typography.swift]. *)
Definition Typography_swift_body : string :=
"extension Font {
    static let headline = Font.system(size: 24, weight: .bold).lineSpacing(8)
    static let title = Font.system(size: 20, weight: .semibold).lineSpacing(8)
    static let body = Font.system(size: 16, weight: .regular).lineSpacing(8)
    static let caption = Font.system(size: 12, weight: .regular).lineSpacing(4)
}
".

(** The declarations [SwiftTokenGenerator] gives for the default border
    radii. *)
Definition BorderRadius_swift_body : string :=
"struct BorderRadius {
    static let small: CGFloat = 4
    static let medium: CGFloat = 8
    static let large: CGFloat = 12
    static let xl: CGFloat = 16
}
".

(** ** Enhanced file-content adapter (class [EnhancedFigmaSync]) *)

(** A paint of a node: its [type] and, when present, its [color]. *)
Record Fill : Type := mkFill {
  fill_type : string;
  fill_color : option RGBA
}.

(** A node of the document: [name], [fills] and [children], each of which
    may be missing. *)
Inductive Node : Type :=
  mkNode (node_name : option string) (node_fills : option (list Fill))
         (node_children : option (list Node)).

(** A [Map] from strings to strings: its entries in insertion order. *)
Definition ColorMap : Type := list (string * string).

(** [colorMap.set (key, value)]: a key that is present keeps its place. *)
Fixpoint map_set (m : ColorMap) (k v : string) : ColorMap :=
  match m with
  | [] => [(k, v)]
  | (k', v') :: r =>
      if String.eqb k' k then (k', v) :: r else (k', v') :: map_set r k v
  end.

(** [name.toLowerCase().replace(/[^a-z0-9]/g, '')] *)
Definition normalize (name : string) : string :=
  Str.strip_non_alnum (Str.toLowerCase name).

(** The key under which the fills of a node are stored. *)
Definition node_key (name : option string) : string :=
  match name with
  | Some n => if String.eqb n "" then "unnamed" else normalize n
  | None => "unnamed"
  end.

Section EnhancedAdapter.
Context {rt : JSRuntime}.

(** The [hex] of a solid fill. *)
Definition fill_hex (c : RGBA) : string :=
  "#" ++ toHex (red c) ++ toHex (green c) ++ toHex (blue c).

(** The loop over [node.fills]. *)
Definition collect_fills (name : option string) (fills : list Fill)
    (colorMap : ColorMap) : ColorMap :=
  fold_left
    (fun colorMap fill =>
       if String.eqb (fill_type fill) "SOLID"
       then match fill_color fill with
            | Some c => map_set colorMap (node_key name) (fill_hex c)
            | None => colorMap
            end
       else colorMap)
    fills colorMap.

(** [EnhancedFigmaSync.extractColorsFromNode (node, colorMap, depth)]; the
    map is returned instead of being updated in place. *)
Fixpoint extractColorsFromNode (node : Node) (colorMap : ColorMap)
    (depth : nat) : ColorMap :=
  if (3 <? depth)%nat then colorMap
  else
    match node with
    | mkNode name fills children =>
        let colorMap :=
          match fills with
          | Some fills => collect_fills name fills colorMap
          | None => colorMap
          end in
        match children with
        | Some children =>
            fold_left
              (fun colorMap child =>
                 extractColorsFromNode child colorMap (S depth))
              children colorMap
        | None => colorMap
        end
    end.

(** The loop over the entries of the map in [findMatchingColor]. *)
Fixpoint first_partial_match (normalizedName : string) (colorMap : ColorMap)
  : option string :=
  match colorMap with
  | [] => None
  | (key, value) :: rest =>
      if Str.includes key normalizedName || Str.includes normalizedName key
      then Some value
      else first_partial_match normalizedName rest
  end.

(** [EnhancedFigmaSync.findMatchingColor (styleName, colorMap)]; [None] is
    [null]. *)
Definition findMatchingColor (styleName : string) (colorMap : ColorMap)
  : option string :=
  let normalizedName := normalize styleName in
  match assoc_get colorMap normalizedName with
  | Some value => Some value
  | None => first_partial_match normalizedName colorMap
  end.

(** The file [EnhancedFigmaSync] reads: the [styles] map, when present, and
    the [document]. *)
Record EnhancedFileData : Type := mkEnhancedFileData {
  enhanced_styles : option (list (string * Style));
  document : Node
}.

(** The token of a fill style. *)
Definition style_token (value styleId originalName : string) : jsval :=
  JObj [("value", JStr value); ("type", JStr "color");
        ("styleId", JStr styleId); ("originalName", JStr originalName)].

(** The first loop of [extractTokensFromFile], over the styles. *)
Definition enhanced_colors_from_styles (colors : obj)
    (l : list (string * Style)) : obj :=
  fold_left
    (fun colors entry =>
       if String.eqb (styleType (snd entry)) "FILL"
       then obj_set colors (sanitizeName_enhanced (style_name (snd entry)))
              (style_token "#007AFF" (fst entry) (style_name (snd entry)))
       else colors)
    l colors.

(** [token.value = v] *)
Definition set_value (token : jsval) (v : jsval) : jsval :=
  match token with
  | JObj fields => JObj (obj_set fields "value" v)
  | _ => token
  end.

(** The second loop: each token whose [originalName] matches a colour of
    the document takes that colour. *)
Definition update_color (colorMap : ColorMap) (entry : string * jsval)
  : string * jsval :=
  match entry with
  | (name, token) =>
      match token with
      | JObj fields =>
          match obj_get fields "originalName" with
          | Some (JStr originalName) =>
              match findMatchingColor originalName colorMap with
              | Some matchingColor =>
                  if String.eqb matchingColor "" then (name, token)
                  else (name, set_value token (JStr matchingColor))
              | None => (name, token)
              end
          | _ => (name, token)
          end
      | _ => (name, token)
      end
  end.

Definition actualColors : list (string * string) :=
  [("scapiaGreen", "#b8f928"); ("scapiaRed", "#f94828"); ("cream", "#faf9f7");
   ("darkText", "#111111"); ("white", "#ffffff"); ("lightGray", "#f3f3f3");
   ("mediumGray", "#d9d9d9"); ("darkGray", "#0f0f0f")].

(** The third loop, over [actualColors]. *)
Definition add_actual_colors (colors : obj) : obj :=
  fold_left
    (fun colors entry => obj_set colors (fst entry) (color_token (snd entry)))
    actualColors colors.

(** The colour category [EnhancedFigmaSync.extractTokensFromFile] builds. *)
Definition enhanced_colors (fileData : EnhancedFileData) : obj :=
  let colors :=
    match enhanced_styles fileData with
    | Some l => enhanced_colors_from_styles [] l
    | None => []
    end in
  let colorMap := extractColorsFromNode (document fileData) [] 0 in
  let colors := map (update_color colorMap) colors in
  add_actual_colors colors.

(** [EnhancedFigmaSync.extractTokensFromFile (fileData)] *)
Definition enhanced_extractTokensFromFile (fileData : EnhancedFileData) : obj :=
  [("color", JObj (enhanced_colors fileData));
   ("typography", JObj default_typography);
   ("spacing", JObj default_spacing);
   ("borderRadius", JObj default_borderRadius);
   ("shadow", JObj default_shadow)].

End EnhancedAdapter.

(** The document without the nodes more than [n] levels below its root. *)
Fixpoint prune (n : nat) (node : Node) : Node :=
  match node with
  | mkNode name fills children =>
      match n with
      | O => mkNode name fills None
      | S n' => mkNode name fills (option_map (map (prune n')) children)
      end
  end.

(** ** The plugin's message handlers *)

(** The result of an awaited call: a value, or the error it throws.  An
    [Error] object is the object that holds its [message]. *)
Inductive outcome (A : Type) : Type :=
  | Returns (a : A)
  | Throws (error : jsval).
Arguments Returns {A} a.
Arguments Throws {A} error.

Definition new_Error (message : string) : jsval :=
  JObj [("message", JStr message)].

(** The [Response] of [fetch]: [ok], [statusText] and the result of
    [json()]. *)
Record Reply : Type := mkReply {
  reply_ok : bool;
  reply_statusText : string;
  reply_json : outcome jsval
}.

(** What the plugin's surroundings answer: the Figma API, the two requests
    (by URL, authorization header and, for the PUT, the body sent), the
    clock at each reading, [btoa (JSON.stringify (o, null, 2))], and the
    [TypeError] the engine throws when a property of [undefined] or [null]
    is read. *)
Record PluginWorld : Type := mkPluginWorld {
  getLocalVariablesAsync : outcome (list FigmaVariable);
  fetch_get : string -> string -> outcome Reply;
  fetch_put : string -> string -> obj -> outcome Reply;
  toISOString : nat -> string;
  btoa_stringify : obj -> outcome string;
  nullish_read : string -> jsval
}.

(** What a handler does that can be seen from outside ([console.log] is
    left out). *)
Inductive PluginEvent : Type :=
  | PostMessage (message : obj)
  | GetLocalVariables
  | FetchGet (url authorization : string)
  | FetchPut (url authorization : string) (commitData : obj).

(** A handler: the events it causes, in order, and how it ends. *)
Definition plugin (A : Type) : Type := (list PluginEvent * outcome A)%type.

Definition finish {A : Type} (a : A) : plugin A := ([], Returns a).

Definition throw {A : Type} (error : jsval) : plugin A := ([], Throws error).

Definition await {A : Type} (o : outcome A) : plugin A := ([], o).

Definition cause (e : PluginEvent) : plugin unit := ([e], Returns tt).

Definition and_then {A B : Type} (m : plugin A) (k : A -> plugin B) : plugin B :=
  match m with
  | (t, Returns a) => let (t', r) := k a in ((t ++ t')%list, r)
  | (t, Throws error) => (t, Throws error)
  end.

(** [try { m } catch (error) { handler }] *)
Definition try_catch {A : Type} (m : plugin A) (handler : jsval -> plugin A)
  : plugin A :=
  match m with
  | (t, Returns a) => (t, Returns a)
  | (t, Throws error) => let (t', r) := handler error in ((t ++ t')%list, r)
  end.

Notation "'let!' x ':=' m 'in' k" := (and_then m (fun x => k))
  (at level 10, x name, m at level 200, k at level 200, only parsing).

(** [v.k] for a value [v] that is not [undefined] or [null], and a property
    name [k] that no prototype defines. *)
Definition property (v : jsval) (k : string) : jsval :=
  match v with
  | JObj fields =>
      match obj_get fields k with
      | Some x => x
      | None => JUndefined
      end
  | _ => JUndefined
  end.

(** [v.k] *)
Definition read (w : PluginWorld) (v : jsval) (k : string) : plugin jsval :=
  match v with
  | JUndefined | JNull => throw (nullish_read w k)
  | _ => finish (property v k)
  end.

(** [typeof v === 'string'] *)
Definition typeof_string (v : jsval) : bool :=
  match v with JStr _ => true | _ => false end.

(** [msg.type], when it is a string. *)
Definition msg_type (msg : obj) : option string :=
  match obj_get msg "type" with
  | Some (JStr s) => Some s
  | _ => None
  end.

Definition loading (message : string) : obj :=
  [("type", JStr "loading"); ("message", JStr message)].

Definition export_error (error : jsval) : obj :=
  [("type", JStr "export-error"); ("error", error)].

Definition export_success (count : nat) : obj :=
  [("type", JStr "export-success");
   ("data", JObj [("count", JNum (inject_Z (Z.of_nat count)))])].

Definition variables_loaded (count : nat) (tokens : obj) : obj :=
  [("type", JStr "variables-loaded");
   ("data", JObj [("count", JNum (inject_Z (Z.of_nat count)));
                  ("tokens", JObj tokens)])].

Section Handlers.
Context {rt : JSRuntime}.

(** [`${error && error.message ? error.message : 'Unknown error'}`] *)
Definition caught_message (error : jsval) : string :=
  if truthy error && truthy (property error "message")
  then ToString (property error "message")
  else "Unknown error".

(** [(error && typeof error === 'object' && error.message) ? error.message
     : (typeof error === 'string' ? error : 'Unknown error occurred')] *)
Definition errorMessage (error : jsval) : jsval :=
  if truthy error && typeof_object error && truthy (property error "message")
  then property error "message"
  else if typeof_string error then error
  else JStr "Unknown error occurred".

(** [handleGetVariables ()] *)
Definition handleGetVariables (w : PluginWorld) : plugin unit :=
  try_catch
    (let! _ := cause (PostMessage (loading "Loading variables...")) in
     let! _ := cause GetLocalVariables in
     let! variables := await (getLocalVariablesAsync w) in
     let tokens := transformVariablesToTokens variables in
     cause (PostMessage (variables_loaded (List.length variables) tokens)))
    (fun error =>
       cause (PostMessage
                (export_error
                   (JStr ("Failed to load variables: "
                            ++ caught_message error))))).

Definition contents_url (repoOwner repoName : jsval) : string :=
  "https://api.github.com/repos/" ++ ToString repoOwner ++ "/"
    ++ ToString repoName ++ "/contents/tokens/figma-tokens.json".

Definition authorization_header (githubToken : jsval) : string :=
  "token " ++ ToString githubToken.

(** The first part of [commitToGitHub]: [existingSha] after the request
    for the existing file. *)
Definition existing_sha (w : PluginWorld) (url authorization : string)
  : plugin jsval :=
  try_catch
    (let! _ := cause (FetchGet url authorization) in
     let! existingResponse := await (fetch_get w url authorization) in
     if reply_ok existingResponse
     then
       let! existingData := await (reply_json existingResponse) in
       read w existingData "sha"
     else finish JNull)
    (fun _ => finish JNull).

(** The [commitData] of a commit. *)
Definition commit_data (now encodedContent : string) (existingSha : jsval)
  : obj :=
  let commitData :=
    [("message", JStr ("Update design tokens from Figma - " ++ now));
     ("content", JStr encodedContent);
     ("branch", JStr "main")] in
  if truthy existingSha then obj_set commitData "sha" existingSha
  else commitData.

(** [commitToGitHub (githubToken, repoOwner, repoName, tokens)] *)
Definition commitToGitHub (w : PluginWorld)
    (githubToken repoOwner repoName : jsval) (tokens : obj) : plugin unit :=
  let url := contents_url repoOwner repoName in
  let authorization := authorization_header githubToken in
  let! existingSha := existing_sha w url authorization in
  let! encodedContent :=
    await (btoa_stringify w (plugin_store (toISOString w 0) tokens)) in
  let commitData :=
    commit_data (toISOString w 1) encodedContent existingSha in
  let! _ := cause (FetchPut url authorization commitData) in
  let! response := await (fetch_put w url authorization commitData) in
  if negb (reply_ok response)
  then
    let! errorData := await (reply_json response) in
    let! message := read w errorData "message" in
    throw (new_Error
             ("GitHub API error: "
                ++ ToString (if truthy message then message
                             else JStr (reply_statusText response))))
  else
    let! result := await (reply_json response) in
    let! commit := read w result "commit" in
    let! _ := read w commit "html_url" in
    finish tt.

(** [handleExportToGitHub (githubToken, repoOwner, repoName)] *)
Definition handleExportToGitHub (w : PluginWorld)
    (githubToken repoOwner repoName : jsval) : plugin unit :=
  try_catch
    (let! _ := cause (PostMessage (loading "Exporting to GitHub...")) in
     let! _ := cause GetLocalVariables in
     let! variables := await (getLocalVariablesAsync w) in
     let tokens := transformVariablesToTokens variables in
     let! _ := commitToGitHub w githubToken repoOwner repoName tokens in
     cause (PostMessage (export_success (List.length variables))))
    (fun error =>
       cause (PostMessage
                (export_error
                   (JStr ("GitHub export failed: " ++ caught_message error))))).

(** [msg.k] *)
Definition field (msg : obj) (k : string) : jsval := property (JObj msg) k.

(** [!msg.githubToken || !msg.repoOwner || !msg.repoName] *)
Definition credentials_missing (msg : obj) : bool :=
  negb (truthy (field msg "githubToken"))
  || negb (truthy (field msg "repoOwner"))
  || negb (truthy (field msg "repoName")).

(** [figma.ui.onmessage (msg)] *)
Definition onmessage (w : PluginWorld) (msg : obj) : plugin unit :=
  try_catch
    (match msg_type msg with
     | Some type =>
         if String.eqb type "get-variables" then handleGetVariables w
         else if String.eqb type "export-to-github" then
           if credentials_missing msg
           then throw (new_Error "Missing GitHub credentials")
           else handleExportToGitHub w (field msg "githubToken")
                  (field msg "repoOwner") (field msg "repoName")
         else finish tt
     | None => finish tt
     end)
    (fun error => cause (PostMessage (export_error (errorMessage error)))).

End Handlers.

(** The messages posted in a trace, and its requests. *)
Definition posted (t : list PluginEvent) : list obj :=
  flat_map (fun e => match e with PostMessage m => [m] | _ => [] end) t.

Definition is_fetch (e : PluginEvent) : bool :=
  match e with FetchGet _ _ | FetchPut _ _ _ => true | _ => false end.

Definition is_put (e : PluginEvent) : bool :=
  match e with FetchPut _ _ _ => true | _ => false end.

(** The [sha] a reply to the first request gives to the commit: the [sha]
    of the body of a reply that is ok, when it is truthy. *)
Definition reply_sha (o : outcome Reply) : option jsval :=
  match o with
  | Returns response =>
      if reply_ok response then
        match reply_json response with
        | Returns (JObj existingData) =>
            match obj_get existingData "sha" with
            | Some sha => if truthy sha then Some sha else None
            | None => None
            end
        | _ => None
        end
      else None
  | Throws _ => None
  end.

(** A reply to the commit after which [commitToGitHub] returns: it is ok
    and its body holds a [commit] that is not [undefined] or [null]. *)
Definition commit_confirmed (o : outcome Reply) : bool :=
  match o with
  | Returns response =>
      reply_ok response
      && match reply_json response with
         | Returns (JObj result) =>
             match obj_get result "commit" with
             | Some JUndefined | Some JNull | None => false
             | Some _ => true
             end
         | _ => false
         end
  | Throws _ => false
  end.

(** The [commitData] sent after the reply [o] to the first request. *)
Definition sent_commit_data (now encodedContent : string) (o : outcome Reply)
  : obj :=
  List.app
    [("message", JStr ("Update design tokens from Figma - " ++ now));
     ("content", JStr encodedContent);
     ("branch", JStr "main")]
    match reply_sha o with
    | Some sha => [("sha", sha)]
    | None => []
    end.

(** The kinds of message that end a loading state. *)
Definition final_types : list string :=
  ["variables-loaded"; "export-success"; "export-error"].




(** * Properties *)

(** ** Strings *)

Module StrFacts.
Import Str.

Lemma string_length_ind (P : string -> Prop) :
  (forall s, (forall t, (String.length t < String.length s)%nat -> P t) -> P s) ->
  forall s, P s.
Proof.
  intros H s.
  assert (forall n t, (String.length t < n)%nat -> P t) as Hn.
  { induction n as [|n IH]; intros t Ht; [lia|].
    apply H. intros u Hu. apply IH. lia. }
  apply (Hn (S (String.length s))). lia.
Qed.

Lemma alnum_not_upper (c : ascii) : alnum c = true -> is_upper c = false.
Proof.
  unfold alnum, is_upper, is_lower, is_digit.
  destruct (Nat.leb_spec 65 (nat_of_ascii c)), (Nat.leb_spec (nat_of_ascii c) 90),
    (Nat.leb_spec 97 (nat_of_ascii c)), (Nat.leb_spec (nat_of_ascii c) 122),
    (Nat.leb_spec 48 (nat_of_ascii c)), (Nat.leb_spec (nat_of_ascii c) 57);
    simpl; intros; try reflexivity; try discriminate; lia.
Qed.

(** A letter or digit of ASCII begins none of the characters outside
    ASCII. *)
Lemma alnum_ascii (c : ascii) :
  alnum c = true -> (nat_of_ascii c < 128)%nat.
Proof.
  unfold alnum, is_lower, is_digit.
  destruct (Nat.leb_spec 97 (nat_of_ascii c)), (Nat.leb_spec (nat_of_ascii c) 122),
    (Nat.leb_spec 48 (nat_of_ascii c)), (Nat.leb_spec (nat_of_ascii c) 57);
    simpl; intros; try discriminate; lia.
Qed.

Lemma is_dotted_I_ascii (c0 c1 : ascii) :
  (nat_of_ascii c0 < 128)%nat -> is_dotted_I c0 c1 = false.
Proof.
  intros H. unfold is_dotted_I.
  destruct (Nat.eqb_spec (nat_of_ascii c0) 196); [lia|reflexivity].
Qed.

Lemma is_kelvin_ascii (c0 c1 c2 : ascii) :
  (nat_of_ascii c0 < 128)%nat -> is_kelvin c0 c1 c2 = false.
Proof.
  intros H. unfold is_kelvin.
  destruct (Nat.eqb_spec (nat_of_ascii c0) 226); [lia|reflexivity].
Qed.

(** A character of ASCII is lower-cased on its own. *)
Lemma toLowerCase_ascii (c : ascii) (t : string) :
  (nat_of_ascii c < 128)%nat ->
  toLowerCase (String c t) = String (lower_char c) (toLowerCase t).
Proof.
  intros H. destruct t as [|c1 [|c2 t2]]; cbn [toLowerCase].
  - reflexivity.
  - rewrite (is_dotted_I_ascii c c1 H). reflexivity.
  - rewrite (is_dotted_I_ascii c c1 H), (is_kelvin_ascii c c1 c2 H).
    reflexivity.
Qed.

Lemma all_alnum_strip (s : string) : all_chars alnum (strip_non_alnum s) = true.
Proof.
  induction s as [|c t IH]; simpl; [reflexivity|].
  destruct (alnum c) eqn:E; simpl; [rewrite E|]; exact IH.
Qed.

Lemma toLowerCase_alnum (s : string) :
  all_chars alnum s = true -> toLowerCase s = s.
Proof.
  induction s as [|c t IH]; [reflexivity|].
  cbn [all_chars]. intros [Hc Ht]%andb_prop.
  rewrite (toLowerCase_ascii c t (alnum_ascii c Hc)). unfold lower_char.
  rewrite (alnum_not_upper c Hc), (IH Ht). reflexivity.
Qed.

Lemma strip_alnum (s : string) :
  all_chars alnum s = true -> strip_non_alnum s = s.
Proof.
  induction s as [|c t IH]; simpl; [reflexivity|].
  intros [Hc Ht]%andb_prop. rewrite Hc, (IH Ht). reflexivity.
Qed.

Lemma all_chars_drop (p : ascii -> bool) (n : nat) (s : string) :
  all_chars p s = true -> all_chars p (drop n s) = true.
Proof.
  revert s; induction n as [|n IH]; intros [|c t]; simpl; auto.
  intros [_ Ht]%andb_prop. apply IH, Ht.
Qed.

Lemma all_chars_replace_prefix (p : ascii -> bool) (w s : string) :
  all_chars p s = true -> all_chars p (replace_prefix w s) = true.
Proof.
  intros H. unfold replace_prefix.
  destruct (startsWith w s); [apply all_chars_drop|]; exact H.
Qed.

Lemma replace_prefix_absent (w s : string) :
  startsWith w s = false -> replace_prefix w s = s.
Proof. intros H. unfold replace_prefix. rewrite H. reflexivity. Qed.

Lemma length_drop (n : nat) (s : string) :
  String.length (drop n s) = (String.length s - n)%nat.
Proof.
  revert s; induction n as [|n IH]; intros [|c t]; simpl; auto.
Qed.

Lemma startsWith_length (w s : string) :
  startsWith w s = true -> (String.length w <= String.length s)%nat.
Proof.
  revert s; induction w as [|a w IH]; intros [|b s]; simpl; try lia; try discriminate.
  intros [_ H]%andb_prop. apply IH in H. lia.
Qed.

Lemma length_replace_prefix_le (w s : string) :
  (String.length (replace_prefix w s) <= String.length s)%nat.
Proof.
  unfold replace_prefix. destruct (startsWith w s); [rewrite length_drop|]; lia.
Qed.

Lemma length_replace_prefix_lt (w s : string) :
  startsWith w s = true -> (0 < String.length w)%nat ->
  (String.length (replace_prefix w s) < String.length s)%nat.
Proof.
  intros H Hw. unfold replace_prefix. rewrite H, length_drop.
  apply startsWith_length in H. lia.
Qed.

(** *** Lower case and the words looked for in a name *)

(** A plain word occurs in the lower-case form of a name exactly where it
    occurs in the name with the case of its ASCII letters ignored, because
    [k] and [i] are the only letters that a character outside ASCII
    gives. *)

Lemma eqb_byte (a : ascii) (n : nat) :
  (n < 256)%nat -> Ascii.eqb a (ascii_of_nat n) = (nat_of_ascii a =? n)%nat.
Proof.
  intros Hn. destruct (Nat.eqb_spec (nat_of_ascii a) n) as [E|E].
  - apply Ascii.eqb_eq. rewrite <- E. symmetry. apply ascii_nat_embedding.
  - apply Ascii.eqb_neq. intros ->. apply E. apply nat_ascii_embedding, Hn.
Qed.

Lemma is_lower_code (a : ascii) :
  is_lower a = true -> (97 <= nat_of_ascii a <= 122)%nat.
Proof.
  unfold is_lower. intros [H1 H2]%andb_prop.
  apply Nat.leb_le in H1, H2. lia.
Qed.

Lemma lower_char_high (c : ascii) :
  (128 <= nat_of_ascii c)%nat -> lower_char c = c.
Proof.
  intros H. unfold lower_char, is_upper.
  destruct (Nat.leb_spec (nat_of_ascii c) 90); [lia|].
  rewrite andb_false_r. reflexivity.
Qed.

(** A small letter is not a byte of a character outside ASCII. *)
Lemma startsWith_high (a : ascii) (w' : string) (c : ascii) (r : string) :
  is_lower a = true -> (128 <= nat_of_ascii c)%nat ->
  startsWith (String a w') (String c r) = false.
Proof.
  intros Ha Hc. cbn [startsWith].
  destruct (Ascii.eqb_spec a c) as [->|_]; [|reflexivity].
  apply is_lower_code in Ha. lia.
Qed.

Lemma dotted_I_bytes (c0 c1 : ascii) :
  is_dotted_I c0 c1 = true -> nat_of_ascii c0 = 196%nat /\ nat_of_ascii c1 = 176%nat.
Proof.
  unfold is_dotted_I. intros [H0 H1]%andb_prop.
  apply Nat.eqb_eq in H0, H1. split; assumption.
Qed.

Lemma kelvin_bytes (c0 c1 c2 : ascii) :
  is_kelvin c0 c1 c2 = true ->
  nat_of_ascii c0 = 226%nat /\ nat_of_ascii c1 = 132%nat
  /\ nat_of_ascii c2 = 170%nat.
Proof.
  unfold is_kelvin. intros [[H0 H1]%andb_prop H2]%andb_prop.
  apply Nat.eqb_eq in H0, H1, H2. repeat split; assumption.
Qed.

Lemma plain_word_tail (a : ascii) (w' : string) :
  plain_word (String a w') = true ->
  is_lower a = true /\ Ascii.eqb a "k" = false
  /\ (Ascii.eqb a "i" = true -> w' <> "")
  /\ plain_word w' = true.
Proof.
  cbn [plain_word].
  intros [[[Ha Hk]%andb_prop Hi]%andb_prop Hw]%andb_prop.
  repeat split; try assumption.
  - apply negb_true_iff, Hk.
  - intros Ei ->. rewrite Ei in Hi. discriminate Hi.
Qed.

(** The case distinction [toLowerCase] makes at the head of a string. *)
Lemma toLowerCase_cases (s : string) :
  s = ""
  \/ (exists c0 c1 t,
        s = String c0 (String c1 t) /\ is_dotted_I c0 c1 = true
        /\ toLowerCase s = String "i" (dot_above (toLowerCase t)))
  \/ (exists c0 c1 c2 t,
        s = String c0 (String c1 (String c2 t)) /\ is_kelvin c0 c1 c2 = true
        /\ toLowerCase s = String "k" (toLowerCase t))
  \/ (exists c t,
        s = String c t
        /\ toLowerCase s = String (lower_char c) (toLowerCase t)).
Proof.
  destruct s as [|c0 [|c1 t1]]; [left; reflexivity| |].
  - right. right. right. exists c0, "". split; reflexivity.
  - destruct (is_dotted_I c0 c1) eqn:E.
    + right. left. exists c0, c1, t1. cbn [toLowerCase]. rewrite E.
      repeat split.
    + destruct t1 as [|c2 t2].
      * right. right. right. exists c0, (String c1 "").
        cbn [toLowerCase]. rewrite E. split; reflexivity.
      * destruct (is_kelvin c0 c1 c2) eqn:K.
        -- right. right. left. exists c0, c1, c2, t2.
           cbn [toLowerCase]. rewrite E, K. repeat split.
        -- right. right. right. exists c0, (String c1 (String c2 t2)).
           cbn [toLowerCase]. rewrite E, K. split; reflexivity.
Qed.

Lemma startsWith_lower (s : string) :
  forall w, plain_word w = true ->
            startsWith w (toLowerCase s) = startsWith w (fold_case s).
Proof.
  induction s as [s IH] using string_length_ind. intros [|a w'] Hw;
    [destruct (toLowerCase s), (fold_case s); reflexivity|].
  destruct (plain_word_tail a w' Hw) as (Ha & Hk & Hi & Hw').
  destruct (toLowerCase_cases s)
    as [->|[(c0 & c1 & t & -> & E & ->)|[(c0 & c1 & c2 & t & -> & E & ->)
       |(c & t & -> & ->)]]].
  - reflexivity.
  - destruct (dotted_I_bytes c0 c1 E) as [E0 E1].
    cbn [fold_case]. rewrite (lower_char_high c0) by lia.
    rewrite (startsWith_high a w' c0) by (assumption || lia).
    cbn [startsWith]. destruct (Ascii.eqb a "i") eqn:Ei; [|reflexivity].
    destruct w' as [|b w'']; [exfalso; apply (Hi eq_refl); reflexivity|].
    destruct (plain_word_tail b w'' Hw') as (Hb & _).
    unfold dot_above. rewrite (startsWith_high b w'' (ascii_of_nat 204));
      [reflexivity|exact Hb|rewrite nat_ascii_embedding; lia].
  - destruct (kelvin_bytes c0 c1 c2 E) as (E0 & E1 & E2).
    cbn [fold_case]. rewrite (lower_char_high c0) by lia.
    rewrite (startsWith_high a w' c0) by (assumption || lia).
    cbn [startsWith]. rewrite Hk. reflexivity.
  - cbn [fold_case startsWith]. rewrite (IH t) by (cbn; lia || exact Hw').
    reflexivity.
Qed.

Lemma includes_cons (w : string) (c : ascii) (t : string) :
  includes w (String c t) = startsWith w (String c t) || includes w t.
Proof. reflexivity. Qed.

(** A plain word occurs in the lower-case form of [s] exactly when it
    occurs in [s] with the case of the ASCII letters ignored. *)
Lemma includes_lower (s : string) :
  forall w, plain_word w = true ->
            includes w (toLowerCase s) = includes w (fold_case s).
Proof.
  induction s as [s IH] using string_length_ind. intros w Hw.
  destruct w as [|a w'].
  { destruct (toLowerCase s), (fold_case s); reflexivity. }
  destruct (plain_word_tail a w' Hw) as (Ha & Hk & Hi & Hw').
  pose proof (startsWith_lower s (String a w') Hw) as Hstart.
  destruct (toLowerCase_cases s)
    as [->|[(c0 & c1 & t & -> & E & El)|[(c0 & c1 & c2 & t & -> & E & El)
       |(c & t & -> & El)]]].
  - reflexivity.
  - destruct (dotted_I_bytes c0 c1 E) as [E0 E1].
    rewrite El in *. cbn [fold_case] in *.
    rewrite (lower_char_high c0), (lower_char_high c1) in * by lia.
    rewrite !includes_cons, Hstart. unfold dot_above.
    rewrite !includes_cons.
    rewrite (startsWith_high a w' (ascii_of_nat 204))
      by (assumption || rewrite nat_ascii_embedding; lia).
    rewrite (startsWith_high a w' (ascii_of_nat 135))
      by (assumption || rewrite nat_ascii_embedding; lia).
    rewrite (startsWith_high a w' c1) by (assumption || lia).
    cbn [orb]. rewrite (IH t) by (cbn; lia || exact Hw). reflexivity.
  - destruct (kelvin_bytes c0 c1 c2 E) as (E0 & E1 & E2).
    rewrite El in *. cbn [fold_case] in *.
    rewrite (lower_char_high c0), (lower_char_high c1), (lower_char_high c2)
      in * by lia.
    rewrite !includes_cons, Hstart.
    rewrite (startsWith_high a w' c1) by (assumption || lia).
    rewrite (startsWith_high a w' c2) by (assumption || lia).
    cbn [orb]. rewrite (IH t) by (cbn; lia || exact Hw). reflexivity.
  - rewrite El in *. cbn [fold_case] in *.
    rewrite !includes_cons, Hstart.
    rewrite (IH t) by (cbn; lia || exact Hw). reflexivity.
Qed.

End StrFacts.

(** The two letters outside ASCII that have a letter of ASCII in their
    lower-case form, which a regular expression with the flag [i] does not
    take for that letter; and white space outside ASCII. *)
Example outside_ascii :
  sanitizeVariableName "İcon" = "icon"
  /\ sanitizeVariableName "K2" = "k2"
  /\ Str.includes "background" (Str.toLowerCase "bacKground") = true
  /\ Str.match_alt_i ["background"] "bacKground" = false
  /\ Str.trim "  Brand ﻿" = "Brand"
  /\ Str.replace_spaces "Light   Mode" = "Light-Mode".
Proof. vm_compute. repeat split. Qed.

(** ** Name sanitization *)

Section Sanitize.
Import Str StrFacts.
#[local] Arguments startsWith : simpl never.

Lemma sanitizeVariableName_alnum (s : string) :
  all_chars alnum (sanitizeVariableName s) = true.
Proof.
  unfold sanitizeVariableName.
  repeat apply all_chars_replace_prefix. apply all_alnum_strip.
Qed.

Lemma sanitizeName_alnum (s : string) :
  all_chars alnum (sanitizeName s) = true.
Proof.
  unfold sanitizeName.
  repeat apply all_chars_replace_prefix. apply all_alnum_strip.
Qed.

(** On its own output the sanitizer only strips prefix words. *)
Lemma sanitizeVariableName_on_alnum (t : string) :
  all_chars alnum t = true ->
  sanitizeVariableName t =
  replace_prefix "borderradius"
    (replace_prefix "typography"
      (replace_prefix "spacing" (replace_prefix "color" t))).
Proof.
  intros H. unfold sanitizeVariableName.
  rewrite (toLowerCase_alnum t H), (strip_alnum t H). reflexivity.
Qed.

Lemma sanitizeName_on_alnum (t : string) :
  all_chars alnum t = true ->
  sanitizeName t =
  replace_prefix "typography"
    (replace_prefix "spacing" (replace_prefix "color" t)).
Proof.
  intros H. unfold sanitizeName.
  rewrite (toLowerCase_alnum t H), (strip_alnum t H). reflexivity.
Qed.

Ltac prefix_cases t :=
  unfold starts_with_any, variable_prefix_words, name_prefix_words; simpl;
  destruct (startsWith "color" t) eqn:Hc;
  [|destruct (startsWith "spacing" t) eqn:Hs;
    [|destruct (startsWith "typography" t) eqn:Ht;
      [|destruct (startsWith "borderradius" t) eqn:Hb]]].

Ltac shorter :=
  match goal with
  | |- (String.length (replace_prefix ?w ?s) < _)%nat =>
      first
        [ apply length_replace_prefix_lt; [assumption | simpl; lia]
        | eapply Nat.le_lt_trans; [apply length_replace_prefix_le | shorter] ]
  end.

Lemma strip_variable_prefixes_fixpoint (t : string) :
  replace_prefix "borderradius"
    (replace_prefix "typography"
      (replace_prefix "spacing" (replace_prefix "color" t))) = t
  <-> starts_with_any variable_prefix_words t = false.
Proof.
  prefix_cases t; split; intros H; try discriminate; try reflexivity;
    try (exfalso; apply (f_equal String.length) in H; revert H;
         apply Nat.lt_neq).
  - shorter.
  - rewrite (replace_prefix_absent "color" t Hc). shorter.
  - rewrite (replace_prefix_absent "color" t Hc),
      (replace_prefix_absent "spacing" t Hs). shorter.
  - rewrite (replace_prefix_absent "color" t Hc),
      (replace_prefix_absent "spacing" t Hs),
      (replace_prefix_absent "typography" t Ht). shorter.
  - rewrite (replace_prefix_absent "color" t Hc),
      (replace_prefix_absent "spacing" t Hs),
      (replace_prefix_absent "typography" t Ht),
      (replace_prefix_absent "borderradius" t Hb). reflexivity.
Qed.

Lemma strip_name_prefixes_fixpoint (t : string) :
  replace_prefix "typography"
    (replace_prefix "spacing" (replace_prefix "color" t)) = t
  <-> starts_with_any name_prefix_words t = false.
Proof.
  unfold starts_with_any, name_prefix_words; simpl.
  destruct (startsWith "color" t) eqn:Hc;
  [|destruct (startsWith "spacing" t) eqn:Hs;
    [|destruct (startsWith "typography" t) eqn:Ht]];
  split; intros H; try discriminate; try reflexivity;
    try (exfalso; apply (f_equal String.length) in H; revert H;
         apply Nat.lt_neq).
  - shorter.
  - rewrite (replace_prefix_absent "color" t Hc). shorter.
  - rewrite (replace_prefix_absent "color" t Hc),
      (replace_prefix_absent "spacing" t Hs). shorter.
  - rewrite (replace_prefix_absent "color" t Hc),
      (replace_prefix_absent "spacing" t Hs),
      (replace_prefix_absent "typography" t Ht). reflexivity.
Qed.

(** C2, as stated, fails: sanitizing [Color/Colorful] gives [colorful], and
    sanitizing that again strips a second prefix word and gives [ful].  The
    same happens in [FigmaFileSync.sanitizeName]. *)
Lemma sanitize_twice_differs :
  sanitizeVariableName "Color/Colorful" = "colorful"
  /\ sanitizeVariableName (sanitizeVariableName "Color/Colorful") = "ful"
  /\ sanitizeVariableName (sanitizeVariableName "Color/Colorful")
     <> sanitizeVariableName "Color/Colorful"
  /\ sanitizeName (sanitizeName "Color/Colorful") <> sanitizeName "Color/Colorful".
Proof. repeat split; try reflexivity; vm_compute; discriminate. Qed.

(** C2, amended: the result of sanitization consists of lower-case letters
    and digits only, and sanitizing twice gives the same as sanitizing once
    exactly when that result does not itself begin with one of the prefix
    words the function strips ([color], [spacing], [typography],
    [borderradius] in the plugin; the first three in [FigmaFileSync]). *)
Theorem sanitize_idempotent_iff_prefix_free (name : string) :
  all_chars alnum (sanitizeVariableName name) = true
  /\ (sanitizeVariableName (sanitizeVariableName name) = sanitizeVariableName name
      <-> starts_with_any variable_prefix_words (sanitizeVariableName name) = false)
  /\ all_chars alnum (sanitizeName name) = true
  /\ (sanitizeName (sanitizeName name) = sanitizeName name
      <-> starts_with_any name_prefix_words (sanitizeName name) = false).
Proof.
  pose proof (sanitizeVariableName_alnum name) as Hv.
  pose proof (sanitizeName_alnum name) as Hn.
  repeat split; try assumption.
  - rewrite (sanitizeVariableName_on_alnum _ Hv).
    apply strip_variable_prefixes_fixpoint.
  - rewrite (sanitizeVariableName_on_alnum _ Hv).
    apply strip_variable_prefixes_fixpoint.
  - rewrite (sanitizeName_on_alnum _ Hn). apply strip_name_prefixes_fixpoint.
  - rewrite (sanitizeName_on_alnum _ Hn). apply strip_name_prefixes_fixpoint.
Qed.

Lemma sanitize_idempotent_iff_prefix_free_witness :
  sanitizeVariableName (sanitizeVariableName "Spacing/Large Gap")
  = sanitizeVariableName "Spacing/Large Gap"
  /\ sanitizeName (sanitizeName "Spacing/Large Gap")
     = sanitizeName "Spacing/Large Gap".
Proof.
  destruct (sanitize_idempotent_iff_prefix_free "Spacing/Large Gap")
    as (_ & Hv & _ & Hn).
  split; [apply Hv | apply Hn]; reflexivity.
Defined.

End Sanitize.

(** ** Category classification *)

Section Classification.
Import Str StrFacts.
#[local] Arguments includes : simpl never.
#[local] Arguments toLowerCase : simpl never.
#[local] Arguments fold_case : simpl never.
#[local] Arguments String.append !_ _ / : simpl nomatch.

Lemma match_alt_i_2 (a b name : string) :
  match_alt_i [a; b] name
  = includes a (fold_case name) || includes b (fold_case name).
Proof. unfold match_alt_i; simpl. rewrite orb_false_r. reflexivity. Qed.

Lemma match_alt_i_3 (a b c name : string) :
  match_alt_i [a; b; c] name
  = includes a (fold_case name) || includes b (fold_case name)
    || includes c (fold_case name).
Proof.
  unfold match_alt_i; simpl. rewrite orb_false_r, orb_assoc. reflexivity.
Qed.

(** The words the plugin looks for in the lower-case name of a FLOAT are
    plain, so it finds them exactly where a regular expression with the
    flag [i] does. *)
Lemma determineTokenCategory_float (name : string) :
  determineTokenCategory name "FLOAT" =
  if match_alt_i spacing_words name then spacing
  else if match_alt_i radius_words name then borderRadius
  else if match_alt_i opacity_words name then opacity
  else spacing.
Proof.
  unfold determineTokenCategory, spacing_words, radius_words, opacity_words.
  rewrite match_alt_i_3, !match_alt_i_2.
  rewrite !(includes_lower name) by reflexivity. reflexivity.
Qed.

Lemma determineTokenCategory_string (name : string) :
  determineTokenCategory name "STRING" = typography.
Proof.
  unfold determineTokenCategory. simpl. destruct (_ || _); reflexivity.
Qed.

(** The first segment of the path [createTokenPath] returns is the category
    chosen from the name of the variable. *)
Lemma createTokenPath_category (variable : FigmaVariable)
    (collection : Collection) (mode : Mode) :
  hd "" (split_on "." (createTokenPath variable collection mode))
  = category_name (pathCategory (var_name variable)).
Proof.
  unfold createTokenPath.
  destruct (pathCategory (var_name variable)); cbn; reflexivity.
Qed.

(** C1, as stated, fails.  The Variables-API adapter does not look at the
    type: the COLOR variable [primary] is classified as spacing.  The plugin
    does not use the regex groups: the FLOAT variable [shadow-blur], which
    matches the group [shadow], is classified as spacing. *)
Lemma classification_counterexample :
  var_resolvedType primary_variable = "COLOR"
  /\ pathCategory (var_name primary_variable) = spacing
  /\ createTokenPath primary_variable brand_collection (mkMode "Light")
     = "spacing.brand.light.primary"
  /\ match_alt_i shadow_words "shadow-blur" = true
  /\ determineTokenCategory "shadow-blur" "FLOAT" = spacing.
Proof. repeat split. Qed.

(** C1, amended.  The plugin classifies by type first: a COLOR variable is
    color whatever its name, a STRING variable is typography, a FLOAT
    variable is spacing, borderRadius or opacity by the words
    [spacing|padding|margin], [radius|corner], [opacity|alpha] in its name
    (in that order, spacing otherwise), and any other type is spacing; so
    the FLOAT variables [corner-radius-lg] and [space-lg] are borderRadius
    and spacing.  The Variables-API adapter classifies by the name alone,
    against the regex groups in the order color, typography, borderRadius,
    shadow, opacity, and spacing otherwise; it gives the same two answers
    for [corner-radius-lg] and [space-lg]. *)
Theorem classification_rules :
  (forall name, determineTokenCategory name "COLOR" = color)
  /\ (forall name, determineTokenCategory name "STRING" = typography)
  /\ (forall name,
        determineTokenCategory name "FLOAT" =
        if match_alt_i spacing_words name then spacing
        else if match_alt_i radius_words name then borderRadius
        else if match_alt_i opacity_words name then opacity
        else spacing)
  /\ (forall name type,
        type <> "COLOR" -> type <> "FLOAT" -> type <> "STRING" ->
        determineTokenCategory name type = spacing)
  /\ determineTokenCategory "corner-radius-lg" "FLOAT" = borderRadius
  /\ determineTokenCategory "space-lg" "FLOAT" = spacing
  /\ (forall variable collection mode,
        hd "" (split_on "." (createTokenPath variable collection mode))
        = category_name (pathCategory (var_name variable)))
  /\ (forall name,
        (pathCategory name = color <-> match_alt_i color_words name = true)
        /\ (pathCategory name = typography <->
            match_alt_i color_words name = false
            /\ match_alt_i typography_words name = true)
        /\ (pathCategory name = borderRadius <->
            match_alt_i color_words name = false
            /\ match_alt_i typography_words name = false
            /\ match_alt_i radius_words name = true)
        /\ (pathCategory name = shadow <->
            match_alt_i color_words name = false
            /\ match_alt_i typography_words name = false
            /\ match_alt_i radius_words name = false
            /\ match_alt_i shadow_words name = true)
        /\ (pathCategory name = opacity <->
            match_alt_i color_words name = false
            /\ match_alt_i typography_words name = false
            /\ match_alt_i radius_words name = false
            /\ match_alt_i shadow_words name = false
            /\ match_alt_i opacity_words name = true)
        /\ (pathCategory name = spacing <->
            match_alt_i color_words name = false
            /\ match_alt_i typography_words name = false
            /\ match_alt_i radius_words name = false
            /\ match_alt_i shadow_words name = false
            /\ match_alt_i opacity_words name = false))
  /\ pathCategory "corner-radius-lg" = borderRadius
  /\ pathCategory "space-lg" = spacing.
Proof.
  split; [reflexivity|].
  split; [exact determineTokenCategory_string|].
  split; [exact determineTokenCategory_float|].
  split.
  { intros name type Hc Hf Hs. unfold determineTokenCategory.
    apply String.eqb_neq in Hc, Hf, Hs. rewrite Hc, Hf, Hs. reflexivity. }
  split; [reflexivity|]. split; [reflexivity|].
  split; [exact createTokenPath_category|].
  split; [|split; reflexivity].
  intros name. unfold pathCategory.
  destruct (match_alt_i color_words name), (match_alt_i typography_words name),
    (match_alt_i radius_words name), (match_alt_i shadow_words name),
    (match_alt_i opacity_words name);
    repeat split; intros; try discriminate; try reflexivity;
    repeat match goal with H : _ /\ _ |- _ => destruct H end; discriminate.
Qed.

Lemma classification_rules_witness :
  determineTokenCategory "line-height" "BOOLEAN" = spacing.
Proof.
  destruct classification_rules as (_ & _ & _ & H & _).
  apply H; discriminate.
Defined.

End Classification.

(** ** Colour conversion *)

Section Colours.
Context {rt : JSRuntime}.

Lemma round_half_even_bounds (a b N : Z) :
  (0 < b)%Z -> (0 <= a)%Z -> (a <= N * b)%Z ->
  (0 <= round_half_even a b <= N)%Z.
Proof.
  intros Hb Ha HN. unfold round_half_even.
  pose proof (Z.div_mod a b ltac:(lia)) as Hdiv.
  pose proof (Z.mod_pos_bound a b Hb) as Hmod.
  assert (0 <= a / b)%Z as Hf by (apply Z.div_pos; lia).
  assert (a / b <= N)%Z as HfN by (apply Z.div_le_upper_bound; lia).
  assert (0 < a mod b -> a / b < N)%Z as Hstrict by nia.
  destruct (2 * (a mod b) <? b)%Z eqn:E1; [lia|].
  apply Z.ltb_ge in E1.
  destruct (b <? 2 * (a mod b))%Z; [lia|].
  destruct (Z.even (a / b)); lia.
Qed.

Lemma binade_byte (n d : positive) :
  (Zpos n <= 255 * Zpos d)%Z -> (binade n d <= 8)%Z.
Proof.
  intros H. unfold binade.
  assert (Z.log2 (Zpos n) <= 8 + Z.log2 (Zpos d))%Z as Hlog.
  { rewrite <- (Z.log2_mul_pow2 (Zpos d) 8) by lia.
    apply Z.log2_le_mono. change (2 ^ 8)%Z with 256%Z. lia. }
  destruct (_ <? _)%Z; lia.
Qed.

(** The double nearest to a number between 0 and 255 lies between 0 and
    255. *)
Lemma nearest_double_byte (x : Q) :
  (0 <= x)%Q -> (x <= 255)%Q ->
  (0 <= nearest_double x)%Q /\ (nearest_double x <= 255)%Q.
Proof.
  destruct x as [[|n|n] d]; unfold nearest_double; cbn [Qnum Qden];
    intros H0 H255.
  - split; [apply Qle_refl|discriminate].
  - unfold nearest_positive.
    assert (Zpos n <= 255 * Zpos d)%Z as Hn.
    { unfold Qle in H255. cbn in H255. lia. }
    pose proof (binade_byte n d Hn) as Hb.
    set (q := Z.max (binade n d - 52) (-1074)).
    assert (q < 0)%Z as Hq by lia.
    rewrite (Z.max_l 0 q), (Z.max_r 0 (- q)) by lia.
    assert (0 < 2 ^ (- q))%Z as Hpow by (apply Z.pow_pos_nonneg; lia).
    change (2 ^ 0)%Z with 1%Z. rewrite !Z.mul_1_r.
    destruct (round_half_even_bounds (Zpos n * 2 ^ (- q)) (Zpos d)
                (255 * 2 ^ (- q)) ltac:(lia) ltac:(lia) ltac:(nia))
      as [Hm0 Hm255].
    rewrite !Qred_correct. unfold Qle. cbn [Qnum Qden].
    rewrite Z2Pos.id by exact Hpow. split; lia.
  - exfalso. unfold Qle in H0. cbn in H0. lia.
Qed.

(** The product of a channel and 255 is finite. *)
Lemma multiply_unit_interval (x : Q) :
  unit_interval x ->
  multiply x 255 = Finite (nearest_double (x * 255))
  /\ (0 <= nearest_double (x * 255))%Q
  /\ (nearest_double (x * 255) <= 255)%Q.
Proof.
  intros [H0 H1].
  destruct (nearest_double_byte (x * 255)) as [Hlo Hhi]; [lra|lra|].
  split; [|split; assumption].
  unfold multiply, to_double.
  assert (inject_Z (2 ^ 1024) > 255)%Q as Hbig by reflexivity.
  assert (inject_Z (- 2 ^ 1024) < 0)%Q as Hsmall by reflexivity.
  destruct (Qle_bool (inject_Z (2 ^ 1024)) _) eqn:E1.
  { apply Qle_bool_iff in E1. lra. }
  destruct (Qle_bool _ (inject_Z (- 2 ^ 1024))) eqn:E2.
  { apply Qle_bool_iff in E2. lra. }
  reflexivity.
Qed.

Lemma Math_round_unit_interval (x : Q) :
  unit_interval x -> (0 <= Math_round (nearest_double (x * 255)) <= 255)%Z.
Proof.
  intros H. destruct (multiply_unit_interval x H) as (_ & H0 & H1).
  unfold Math_round. split.
  - apply (Qfloor_resp_le (1 # 2)). lra.
  - apply (Qfloor_resp_le _ (511 # 2)). lra.
Qed.

(** [Math.round] gives the nearest integer, the upper one of two. *)
Lemma Math_round_nearest (x : Q) :
  (inject_Z (Math_round x) - (1 # 2) <= x)%Q
  /\ (x < inject_Z (Math_round x) + (1 # 2))%Q.
Proof.
  unfold Math_round.
  pose proof (Qfloor_le (x + (1 # 2))) as Hle.
  pose proof (Qlt_floor (x + (1 # 2))) as Hlt.
  rewrite inject_Z_plus in Hlt. change (inject_Z 1) with 1%Q in Hlt.
  split; lra.
Qed.

Lemma byte_cases (P : Z -> bool) :
  forallb (fun k => P (Z.of_nat k)) (seq 0 256) = true ->
  forall n, (0 <= n <= 255)%Z -> P n = true.
Proof.
  intros H n Hn. rewrite forallb_forall in H.
  rewrite <- (Z2Nat.id n) by lia. apply H, in_seq. lia.
Qed.

(** A byte printed in radix 16 and padded to two characters is its two
    hexadecimal digits. *)
Lemma padStart_toString16 (n : Z) :
  (0 <= n <= 255)%Z ->
  padStart 2 "0" (int_toString16 n) = two_hex_digits n.
Proof.
  intros Hn. apply String.eqb_eq.
  apply (byte_cases (fun n => String.eqb (padStart 2 "0" (int_toString16 n))
                                (two_hex_digits n))); [|exact Hn].
  vm_compute. reflexivity.
Qed.

Lemma round_toString_byte (n : Z) :
  (0 <= n <= 255)%Z -> round_toString n = int_toString n.
Proof.
  intros Hn. unfold round_toString.
  destruct (Z.leb_spec (Z.abs n) (2 ^ 53)) as [_|H]; [reflexivity|].
  exfalso. assert (2 ^ 53 > 255)%Z by reflexivity. lia.
Qed.

Lemma round_toString16_byte (n : Z) :
  (0 <= n <= 255)%Z -> round_toString16 n = int_toString16 n.
Proof.
  intros Hn. unfold round_toString16.
  destruct (Z.leb_spec (Z.abs n) (2 ^ 53)) as [_|H]; [reflexivity|].
  exfalso. assert (2 ^ 53 > 255)%Z by reflexivity. lia.
Qed.

Lemma toHex_unit_interval (x : Q) :
  unit_interval x ->
  toHex x = two_hex_digits (Math_round (nearest_double (x * 255))).
Proof.
  intros H. unfold toHex, rounded_scaled.
  rewrite (proj1 (multiply_unit_interval x H)).
  rewrite round_toString16_byte by (apply Math_round_unit_interval, H).
  apply padStart_toString16, Math_round_unit_interval, H.
Qed.

Lemma rounded_scaled_unit_interval (x : Q) :
  unit_interval x ->
  rounded_scaled round_toString x
  = int_toString (Math_round (nearest_double (x * 255))).
Proof.
  intros H. unfold rounded_scaled.
  rewrite (proj1 (multiply_unit_interval x H)).
  apply round_toString_byte, Math_round_unit_interval, H.
Qed.

Lemma Qltb_lt (x y : Q) : Qltb x y = true <-> (x < y)%Q.
Proof. unfold Qltb, Qlt. apply Z.ltb_lt. Qed.

Lemma Qltb_ge (x y : Q) : Qltb x y = false <-> (y <= x)%Q.
Proof. unfold Qltb, Qle. apply Z.ltb_ge. Qed.

(** A channel whose exact product with 255 lies below one half: the
    double product is one half. *)
Example multiply_rounds :
  ((282578800148737 # 144115188075855872) * 255 < 1 # 2)%Q
  /\ multiply (282578800148737 # 144115188075855872) 255 = Finite (1 # 2).
Proof. split; reflexivity. Qed.

(** Numbers as the runtime of the examples prints them. *)
Example double_toString_examples :
  double_toString (1 # 4) = "0.25"
  /\ double_toString (3602879701896397 # 36028797018963968) = "0.1"
  /\ double_toString (- (3 # 2)) = "-1.5"
  /\ double_toString (inject_Z (2 ^ 60)) = "1152921504606847000"
  /\ double_toString (inject_Z (10 ^ 21)) = "1e+21"
  /\ double_toString (nearest_double (1 # 10000000)) = "1e-7"
  /\ double_toString (nearest_double (123456 # 100000000000)) = "0.00000123456".
Proof. vm_compute. repeat split. Qed.

(** The two adapters convert a colour in the same way. *)
Lemma FigmaSync_colorToHex_eq (color : VariableValue) :
  FigmaSync_colorToHex color = colorToHex color.
Proof. reflexivity. Qed.

(** C3.  In the plugin and in the Variables-API adapter, a colour with
    channels in [0, 1] and alpha 1 (or no alpha, which defaults to 1)
    converts to [#] followed by the two hexadecimal digits of each channel
    scaled by 255 and rounded.  The scaled channel is the double product of
    the channel and 255, which lies in [0, 255]; the rounded value is the
    integer nearest to it, the upper one of two, and lies in 0..255. *)
Theorem colorToHex_opaque (c : RGBA) :
  valid_channels c ->
  match alpha c with Some a => (a == 1)%Q | None => True end ->
  let R := Math_round (nearest_double (red c * 255)) in
  let G := Math_round (nearest_double (green c * 255)) in
  let B := Math_round (nearest_double (blue c * 255)) in
  colorToHex (ColorValue c)
  = JStr ("#" ++ two_hex_digits R ++ two_hex_digits G ++ two_hex_digits B)
  /\ FigmaSync_colorToHex (ColorValue c) = colorToHex (ColorValue c)
  /\ multiply (red c) 255 = Finite (nearest_double (red c * 255))
  /\ multiply (green c) 255 = Finite (nearest_double (green c * 255))
  /\ multiply (blue c) 255 = Finite (nearest_double (blue c * 255))
  /\ (0 <= R <= 255)%Z /\ (0 <= G <= 255)%Z /\ (0 <= B <= 255)%Z
  /\ (inject_Z R - (1 # 2) <= nearest_double (red c * 255) < inject_Z R + (1 # 2))%Q
  /\ (inject_Z G - (1 # 2) <= nearest_double (green c * 255) < inject_Z G + (1 # 2))%Q
  /\ (inject_Z B - (1 # 2) <= nearest_double (blue c * 255) < inject_Z B + (1 # 2))%Q.
Proof.
  intros (Hr & Hg & Hb) Ha R G B.
  split; [|split; [reflexivity|]].
  - unfold colorToHex.
    assert (Qltb match alpha c with Some a => a | None => 1%Q end 1 = false) as ->.
    { apply Qltb_ge. destruct (alpha c); [rewrite Ha|]; lra. }
    rewrite !toHex_unit_interval by assumption. reflexivity.
  - repeat split;
      try (apply multiply_unit_interval; assumption);
      try (apply Math_round_unit_interval; assumption);
      apply Math_round_nearest.
Qed.

(** C4.  In the plugin and in the Variables-API adapter, a colour with
    channels in [0, 1] and alpha below 1 converts to [rgba(R, G, B, A)],
    where R, G, B are the channels scaled by 255 (the double product) and
    rounded to the nearest integer, integers in 0..255 printed in decimal,
    and A is the printed form of the alpha value itself. *)
Theorem colorToHex_translucent (c : RGBA) (a : Q) :
  valid_channels c ->
  alpha c = Some a ->
  (a < 1)%Q ->
  let R := Math_round (nearest_double (red c * 255)) in
  let G := Math_round (nearest_double (green c * 255)) in
  let B := Math_round (nearest_double (blue c * 255)) in
  colorToHex (ColorValue c)
  = JStr ("rgba(" ++ int_toString R ++ ", " ++ int_toString G ++ ", "
                  ++ int_toString B ++ ", " ++ num_toString a ++ ")")
  /\ FigmaSync_colorToHex (ColorValue c) = colorToHex (ColorValue c)
  /\ multiply (red c) 255 = Finite (nearest_double (red c * 255))
  /\ multiply (green c) 255 = Finite (nearest_double (green c * 255))
  /\ multiply (blue c) 255 = Finite (nearest_double (blue c * 255))
  /\ (0 <= R <= 255)%Z /\ (0 <= G <= 255)%Z /\ (0 <= B <= 255)%Z
  /\ (inject_Z R - (1 # 2) <= nearest_double (red c * 255) < inject_Z R + (1 # 2))%Q
  /\ (inject_Z G - (1 # 2) <= nearest_double (green c * 255) < inject_Z G + (1 # 2))%Q
  /\ (inject_Z B - (1 # 2) <= nearest_double (blue c * 255) < inject_Z B + (1 # 2))%Q
  /\ (Qis_int a = false -> num_toString a = Number_toString a).
Proof.
  intros (Hr & Hg & Hb) Ha Hlt R G B.
  split; [|split; [reflexivity|]].
  - unfold colorToHex. rewrite Ha.
    apply Qltb_lt in Hlt. rewrite Hlt.
    rewrite !rounded_scaled_unit_interval by assumption. reflexivity.
  - repeat split;
      try (apply multiply_unit_interval; assumption);
      try (apply Math_round_unit_interval; assumption);
      try apply Math_round_nearest.
    intros Hi. unfold num_toString. rewrite Hi. reflexivity.
Qed.

End Colours.

(** The examples of C3: black and white, mid grey (127.5 is rounded up to
    128), and a channel whose exact product with 255 lies below one half
    while the double product is one half, which is rounded to 1. *)
Lemma colorToHex_opaque_witness :
  @colorToHex example_runtime (ColorValue (mkRGBA 0 0 0 (Some 1%Q))) = JStr "#000000"
  /\ @colorToHex example_runtime (ColorValue (mkRGBA 1 1 1 (Some 1%Q))) = JStr "#ffffff"
  /\ @colorToHex example_runtime
       (ColorValue (mkRGBA (1 # 2) (1 # 2) (1 # 2) (Some 1%Q))) = JStr "#808080"
  /\ @colorToHex example_runtime
       (ColorValue (mkRGBA (282578800148737 # 144115188075855872) 0 0 None))
     = JStr "#010000".
Proof.
  split; [|split; [|split]].
  - refine (proj1 (@colorToHex_opaque example_runtime (mkRGBA 0 0 0 (Some 1%Q)) _ _)).
    + repeat split; simpl; lra.
    + simpl. reflexivity.
  - refine (proj1 (@colorToHex_opaque example_runtime (mkRGBA 1 1 1 (Some 1%Q)) _ _)).
    + repeat split; simpl; lra.
    + simpl. reflexivity.
  - refine (proj1 (@colorToHex_opaque example_runtime
                     (mkRGBA (1 # 2) (1 # 2) (1 # 2) (Some 1%Q)) _ _)).
    + repeat split; simpl; lra.
    + simpl. reflexivity.
  - refine (proj1 (@colorToHex_opaque example_runtime
                     (mkRGBA (282578800148737 # 144115188075855872) 0 0 None)
                     _ _)).
    + repeat split; simpl; lra.
    + exact I.
Defined.

Lemma colorToHex_translucent_witness :
  @colorToHex example_runtime (ColorValue (mkRGBA (1 # 2) 0 1 (Some (1 # 4))))
  = JStr "rgba(128, 0, 255, 0.25)"
  /\ @colorToHex example_runtime
       (ColorValue (mkRGBA (282578800148737 # 144115188075855872) 0 0
                      (Some (1 # 2))))
     = JStr "rgba(1, 0, 0, 0.5)".
Proof.
  split.
  - refine (proj1 (@colorToHex_translucent example_runtime
                     (mkRGBA (1 # 2) 0 1 (Some (1 # 4))) (1 # 4) _ _ _)).
    + repeat split; simpl; lra.
    + reflexivity.
    + reflexivity.
  - refine (proj1 (@colorToHex_translucent example_runtime
                     (mkRGBA (282578800148737 # 144115188075855872) 0 0
                        (Some (1 # 2))) (1 # 2) _ _ _)).
    + repeat split; simpl; lra.
    + reflexivity.
    + reflexivity.
Defined.

(** ** The two adapters compared *)

Section Adapters.
Context {rt : JSRuntime}.
Import Str.
#[local] Arguments includes : simpl never.
#[local] Arguments toLowerCase : simpl never.

(** C5, as stated, fails: for the COLOR variable [primary] the plugin
    chooses color and the Variables-API adapter chooses spacing. *)
Lemma adapters_classify_differently :
  determineTokenCategory (var_name primary_variable)
    (var_resolvedType primary_variable) = color
  /\ pathCategory (var_name primary_variable) = spacing
  /\ determineTokenCategory (var_name primary_variable)
       (var_resolvedType primary_variable)
     <> pathCategory (var_name primary_variable).
Proof. repeat split. discriminate. Qed.

(** C5, amended.  For every variable whose type is COLOR, FLOAT, STRING or
    BOOLEAN the plugin's value transform gives the same result as the
    Variables-API adapter's.  The categories are chosen by different rules
    (type first in the plugin, name only in the Variables-API adapter); they
    coincide for a COLOR variable whose name matches the color group, for a
    STRING variable whose name matches the typography group and not the
    color group, and for a FLOAT variable whose name matches none of the
    color, typography and shadow groups nor [spacing|padding|margin]. *)
Theorem adapters_agree_on_declared_types :
  (forall type value,
     In type ["COLOR"; "FLOAT"; "STRING"; "BOOLEAN"] ->
     transformVariableValue type value = transformValue type value)
  /\ (forall name,
        match_alt_i color_words name = true ->
        determineTokenCategory name "COLOR" = pathCategory name)
  /\ (forall name,
        match_alt_i color_words name = false ->
        match_alt_i typography_words name = true ->
        determineTokenCategory name "STRING" = pathCategory name)
  /\ (forall name,
        match_alt_i color_words name = false ->
        match_alt_i typography_words name = false ->
        match_alt_i shadow_words name = false ->
        match_alt_i spacing_words name = false ->
        determineTokenCategory name "FLOAT" = pathCategory name).
Proof.
  split; [|split; [|split]].
  - intros type value [<- | [<- | [<- | [<- | []]]]]; reflexivity.
  - intros name Hc. unfold pathCategory. rewrite Hc. reflexivity.
  - intros name Hc Ht. unfold pathCategory. rewrite Hc, Ht.
    apply determineTokenCategory_string.
  - intros name Hc Ht Hs Hsp.
    rewrite determineTokenCategory_float, Hsp. unfold pathCategory. rewrite Hc, Ht, Hs.
    destruct (match_alt_i radius_words name); reflexivity.
Qed.

End Adapters.

Lemma adapters_agree_on_declared_types_witness :
  @transformVariableValue example_runtime "FLOAT" (NumberValue 8)
  = @transformValue example_runtime "FLOAT" (NumberValue 8)
  /\ determineTokenCategory "corner-radius-lg" "FLOAT"
     = pathCategory "corner-radius-lg".
Proof.
  destruct (@adapters_agree_on_declared_types example_runtime)
    as (Hvalue & _ & _ & Hfloat).
  split.
  - apply Hvalue. simpl. auto.
  - apply Hfloat; reflexivity.
Defined.

(** ** Objects *)

Section Objects.

Lemma obj_get_set_eq (o : obj) (k : string) (v : jsval) :
  obj_get (obj_set o k v) k = Some v.
Proof.
  induction o as [|[k' v'] r IH]; simpl.
  - rewrite String.eqb_refl. reflexivity.
  - destruct (String.eqb k' k) eqn:E; simpl; rewrite E; [reflexivity|exact IH].
Qed.

Lemma obj_get_set_ne (o : obj) (k k' : string) (v : jsval) :
  k <> k' -> obj_get (obj_set o k v) k' = obj_get o k'.
Proof.
  intros Hne. induction o as [|[k0 v0] r IH]; simpl.
  - apply String.eqb_neq in Hne. rewrite Hne. reflexivity.
  - destruct (String.eqb k0 k) eqn:E; simpl.
    + apply String.eqb_eq in E. subst k0.
      apply String.eqb_neq in Hne. rewrite Hne. reflexivity.
    + rewrite IH. reflexivity.
Qed.

Lemma obj_keys_set (o : obj) (k : string) (v : jsval) (x : string) :
  In x (obj_keys (obj_set o k v)) <-> x = k \/ In x (obj_keys o).
Proof.
  unfold obj_keys. induction o as [|[k0 v0] r IH]; simpl.
  - intuition congruence.
  - destruct (String.eqb k0 k) eqn:E; simpl.
    + apply String.eqb_eq in E. subst k0. intuition congruence.
    + rewrite IH. intuition congruence.
Qed.

Lemma obj_set_NoDup (o : obj) (k : string) (v : jsval) :
  List.NoDup (obj_keys o) -> List.NoDup (obj_keys (obj_set o k v)).
Proof.
  induction o as [|[k0 v0] r IH]; simpl; intros H.
  - constructor; [intros []|constructor].
  - inversion H as [|? ? Hnotin Hr]; subst.
    destruct (String.eqb k0 k) eqn:E; simpl.
    + constructor; assumption.
    + constructor; [|apply IH, Hr].
      intros Hin. apply obj_keys_set in Hin as [->|Hin].
      * rewrite String.eqb_refl in E. discriminate.
      * apply Hnotin, Hin.
Qed.

Lemma obj_set_forallb (P : string * jsval -> bool) (o : obj) (k : string)
    (v : jsval) :
  (forall k', P (k', v) = true) ->
  forallb P o = true -> forallb P (obj_set o k v) = true.
Proof.
  intros Hv. induction o as [|[k0 v0] r IH]; simpl.
  - intros _. rewrite Hv. reflexivity.
  - intros [H0 Hr]%andb_prop.
    destruct (String.eqb k0 k); simpl.
    + rewrite Hv, Hr. reflexivity.
    + rewrite H0, (IH Hr). reflexivity.
Qed.

Lemma tokens_only_set (inner : obj) (name : string) (entry : jsval) :
  token_shape entry = true ->
  tokens_only inner -> tokens_only (obj_set inner name entry).
Proof.
  intros He [Hnd Hall]. split.
  - apply obj_set_NoDup, Hnd.
  - apply obj_set_forallb; [intros; exact He | exact Hall].
Qed.

Lemma Category_eqb_eq (c c' : Category) : Category_eqb c c' = true <-> c = c'.
Proof. destruct c, c'; simpl; split; intros; congruence. Qed.

Lemma Category_eqb_refl (c : Category) : Category_eqb c c = true.
Proof. destruct c; reflexivity. Qed.

Lemma obj_get_slots (f : Category -> obj) (c : Category) :
  obj_get (slots f) (category_name c) = Some (JObj (f c)).
Proof. destruct c; reflexivity. Qed.

Lemma obj_set_slots (f : Category -> obj) (c : Category) (inner : obj) :
  obj_set (slots f) (category_name c) (JObj inner)
  = slots (with_category f c inner).
Proof. destruct c; reflexivity. Qed.

Lemma token_lookup_slots (f : Category -> obj) (c : Category) (name : string) :
  token_lookup (slots f) (category_name c) name = obj_get (f c) name.
Proof. unfold token_lookup. rewrite obj_get_slots. reflexivity. Qed.

Lemma set_token_slots (f : Category -> obj) (c : Category) (name : string)
    (entry : jsval) :
  set_token (slots f) (category_name c) name entry
  = slots (with_category f c (obj_set (f c) name entry)).
Proof. unfold set_token. rewrite obj_get_slots. apply obj_set_slots. Qed.

Lemma with_category_same (f : Category -> obj) (c : Category) (inner : obj) :
  with_category f c inner c = inner.
Proof. unfold with_category. rewrite Category_eqb_refl. reflexivity. Qed.

Lemma with_category_other (f : Category -> obj) (c c' : Category) (inner : obj) :
  c <> c' -> with_category f c inner c' = f c'.
Proof.
  intros H. unfold with_category.
  destruct (Category_eqb c c') eqn:E; [|reflexivity].
  apply Category_eqb_eq in E. contradiction.
Qed.

Lemma empty_tokens_slots : empty_tokens = slots (fun _ => []).
Proof. reflexivity. Qed.

End Objects.

(** ** Plugin: what the transform stores *)

Section PluginFacts.
Context {rt : JSRuntime}.

Lemma fold_left_preserves {A B : Type} (P : A -> Prop) (step : A -> B -> A)
    (l : list B) (init : A) :
  P init -> (forall acc x, P acc -> P (step acc x)) -> P (fold_left step l init).
Proof.
  intros H0 Hstep. revert init H0.
  induction l as [|x r IH]; simpl; intros init H0; [exact H0|].
  apply IH, Hstep, H0.
Qed.

Lemma process_mode_slots (name : string) (category : Category)
    (variable : FigmaVariable) (f : Category -> obj)
    (entry : string * VariableValue) :
  process_mode name category variable (slots f) entry
  = slots (mode_contents name category variable f entry).
Proof.
  unfold process_mode, mode_contents.
  destruct (is_null _); [reflexivity|apply set_token_slots].
Qed.

Lemma process_variable_slots (f : Category -> obj) (variable : FigmaVariable) :
  process_variable (slots f) variable = slots (variable_contents f variable).
Proof.
  unfold process_variable, variable_contents.
  generalize (sanitizeVariableName (var_name variable)) as name.
  generalize (determineTokenCategory (var_name variable)
                (var_resolvedType variable)) as category.
  intros category name. revert f.
  induction (var_valuesByMode variable) as [|e r IH]; intros f; simpl.
  - reflexivity.
  - rewrite process_mode_slots. apply IH.
Qed.

(** The token object the plugin builds always has the six categories. *)
Lemma transformVariablesToTokens_slots (variables : list FigmaVariable) :
  transformVariablesToTokens variables = slots (contents variables).
Proof.
  unfold transformVariablesToTokens, contents. rewrite empty_tokens_slots.
  generalize (fun _ : Category => @nil (string * jsval)) as f.
  induction variables as [|v r IH]; intros f; simpl.
  - reflexivity.
  - rewrite process_variable_slots. apply IH.
Qed.

Lemma token_entry_shape (category : Category) (variable : FigmaVariable)
    (value : jsval) :
  token_shape (token_entry category variable value) = true.
Proof. reflexivity. Qed.

Lemma mode_contents_tokens_only (name : string) (category : Category)
    (variable : FigmaVariable) (f : Category -> obj)
    (entry : string * VariableValue) :
  (forall c, tokens_only (f c)) ->
  forall c, tokens_only (mode_contents name category variable f entry c).
Proof.
  intros Hf c. unfold mode_contents.
  destruct (is_null _); [apply Hf|].
  unfold with_category. destruct (Category_eqb category c); [|apply Hf].
  apply tokens_only_set; [apply token_entry_shape | apply Hf].
Qed.

Lemma contents_tokens_only (variables : list FigmaVariable) (c : Category) :
  tokens_only (contents variables c).
Proof.
  revert c. unfold contents.
  apply (fold_left_preserves (fun f => forall c, tokens_only (f c))).
  - intros c. split; [constructor | reflexivity].
  - intros f v Hf. unfold variable_contents.
    apply (fold_left_preserves (fun f => forall c, tokens_only (f c)));
      [exact Hf|].
    intros g e Hg. apply mode_contents_tokens_only, Hg.
Qed.

(** A write to another category or another name leaves an entry alone. *)
Lemma mode_contents_other (name : string) (category : Category)
    (variable : FigmaVariable) (f : Category -> obj)
    (entry : string * VariableValue) (c : Category) (n : string) :
  category <> c \/ name <> n ->
  obj_get (mode_contents name category variable f entry c) n = obj_get (f c) n.
Proof.
  intros Hother. unfold mode_contents.
  destruct (is_null _); [reflexivity|].
  unfold with_category. destruct (Category_eqb category c) eqn:E; [|reflexivity].
  apply Category_eqb_eq in E. subst c.
  destruct Hother as [H|H]; [contradiction|].
  apply obj_get_set_ne, H.
Qed.

Lemma variable_contents_other (f : Category -> obj) (variable : FigmaVariable)
    (c : Category) (n : string) :
  determineTokenCategory (var_name variable) (var_resolvedType variable) <> c
  \/ sanitizeVariableName (var_name variable) <> n ->
  obj_get (variable_contents f variable c) n = obj_get (f c) n.
Proof.
  intros Hother. unfold variable_contents.
  apply (fold_left_preserves (fun g => obj_get (g c) n = obj_get (f c) n));
    [reflexivity|].
  intros g e Hg. rewrite mode_contents_other; assumption.
Qed.

(** After the last mode of a variable is processed, the entry holds the
    value of that mode. *)
Lemma variable_contents_last (f : Category -> obj) (variable : FigmaVariable)
    (earlier : list (string * VariableValue)) (modeId : string)
    (value : VariableValue) :
  var_valuesByMode variable = (earlier ++ [(modeId, value)])%list ->
  transformVariableValue (var_resolvedType variable) value <> JNull ->
  let category :=
    determineTokenCategory (var_name variable) (var_resolvedType variable) in
  obj_get (variable_contents f variable category)
    (sanitizeVariableName (var_name variable))
  = Some (token_entry category variable
            (transformVariableValue (var_resolvedType variable) value)).
Proof.
  intros Hmodes Hvalue category. unfold variable_contents.
  rewrite Hmodes, fold_left_app. simpl.
  unfold mode_contents at 1. simpl.
  destruct (transformVariableValue (var_resolvedType variable) value) eqn:E;
    try contradiction; simpl;
    fold category; rewrite with_category_same; apply obj_get_set_eq.
Qed.

(** C10, amended.  In the token object the plugin builds, a mode is
    written to [tokens[category][name]] when its converted value is not
    [null], with the category of the variable and its sanitized name.  The
    entry of a variable whose last mode is written holds the converted
    value of that mode, unless a later variable with the same category and
    the same sanitized name overwrites it: earlier modes and earlier
    variables with that category and name are overwritten, nothing is
    merged, and no name occurs twice in a category. *)
Theorem last_write_wins (before after : list FigmaVariable)
    (variable : FigmaVariable) (earlier : list (string * VariableValue))
    (modeId : string) (value : VariableValue) :
  var_valuesByMode variable = (earlier ++ [(modeId, value)])%list ->
  transformVariableValue (var_resolvedType variable) value <> JNull ->
  (forall later, In later after ->
     determineTokenCategory (var_name later) (var_resolvedType later)
     = determineTokenCategory (var_name variable) (var_resolvedType variable) ->
     sanitizeVariableName (var_name later)
     <> sanitizeVariableName (var_name variable)) ->
  let tokens := transformVariablesToTokens (before ++ variable :: after) in
  let category :=
    determineTokenCategory (var_name variable) (var_resolvedType variable) in
  token_lookup tokens (category_name category)
    (sanitizeVariableName (var_name variable))
  = Some (token_entry category variable
            (transformVariableValue (var_resolvedType variable) value))
  /\ (forall c inner,
        obj_get tokens (category_name c) = Some (JObj inner) ->
        List.NoDup (obj_keys inner)).
Proof.
  intros Hmodes Hvalue Hafter tokens category. subst tokens. split.
  - rewrite transformVariablesToTokens_slots, token_lookup_slots.
    unfold contents. rewrite fold_left_app. simpl.
    generalize (fold_left variable_contents before (fun _ => [])) as f.
    intros f.
    transitivity (obj_get (variable_contents f variable category)
                    (sanitizeVariableName (var_name variable))).
    + generalize (variable_contents f variable) as g.
      induction after as [|u r IH]; intros g; simpl; [reflexivity|].
      rewrite IH by (intros; apply Hafter; [right|]; assumption).
      apply variable_contents_other.
      destruct (Category_eqb
                  (determineTokenCategory (var_name u) (var_resolvedType u))
                  category) eqn:E.
      * right. apply Category_eqb_eq in E.
        apply Hafter; [left; reflexivity | exact E].
      * left. intros Heq. apply Category_eqb_eq in Heq. congruence.
    + apply (variable_contents_last f variable earlier modeId value);
        assumption.
  - intros c inner. rewrite transformVariablesToTokens_slots, obj_get_slots.
    intros [= <-]. apply contents_tokens_only.
Qed.

End PluginFacts.

(** C10, as stated, fails.  Two variables whose names sanitize to the same
    string do not always produce a single token: the entry is chosen by the
    category as well.  The COLOR variable [primary] and the FLOAT variable
    [Primary] both sanitize to [primary], and the store holds a token for
    each, the first under [color] and the second under [spacing]; the later
    variable has not replaced the earlier one. *)
Lemma colliding_names_two_tokens :
  var_name plain_primary <> var_name primary_size
  /\ sanitizeVariableName (var_name plain_primary)
     = sanitizeVariableName (var_name primary_size)
  /\ token_lookup
       (@transformVariablesToTokens example_runtime [plain_primary; primary_size])
       "color" "primary"
     = Some (JObj [("value", JStr "#0000ff"); ("type", JStr "color");
                   ("variableId", JStr "key-b");
                   ("originalName", JStr "primary");
                   ("resolvedType", JStr "COLOR")])
  /\ token_lookup
       (@transformVariablesToTokens example_runtime [plain_primary; primary_size])
       "spacing" "primary"
     = Some (JObj [("value", JNum 16); ("type", JStr "spacing");
                   ("variableId", JStr "key-c");
                   ("originalName", JStr "Primary");
                   ("resolvedType", JStr "FLOAT")]).
Proof.
  split; [discriminate|]. split; [reflexivity|]. split; vm_compute; reflexivity.
Qed.

Lemma last_write_wins_witness :
  token_lookup
    (@transformVariablesToTokens example_runtime
       [brand_primary; plain_primary; space_lg])
    "color" "primary"
  = Some (JObj [("value", JStr "#0000ff"); ("type", JStr "color");
                ("variableId", JStr "key-b"); ("originalName", JStr "primary");
                ("resolvedType", JStr "COLOR")]).
Proof.
  refine (proj1 (@last_write_wins example_runtime [brand_primary] [space_lg]
                   plain_primary [("1:0", ColorValue (mkRGBA 1 0 0 None))]
                   "1:1" (ColorValue (mkRGBA 0 0 1 None)) _ _ _)).
  - reflexivity.
  - discriminate.
  - intros later [<- | []] Hcategory. discriminate Hcategory.
Defined.

(** ** Variables-API adapter: what the transform stores *)

Section ApiFacts.
Context {rt : JSRuntime}.
Import Str.
#[local] Arguments toLowerCase : simpl never.
#[local] Arguments replace_spaces : simpl never.
#[local] Arguments String.append !_ _ / : simpl nomatch.

Lemma split_on_nonempty (sep : ascii) (s : string) : split_on sep s <> [].
Proof.
  destruct s as [|c t]; simpl; [discriminate|].
  destruct (Ascii.eqb c sep); [discriminate|].
  destruct (split_on sep t); discriminate.
Qed.

Lemma length_split_on (sep : ascii) (s : string) :
  List.length (split_on sep s) = S (count sep s).
Proof.
  induction s as [|c t IH]; simpl; [reflexivity|].
  destruct (Ascii.eqb c sep); simpl; [rewrite IH; reflexivity|].
  destruct (split_on sep t) eqn:E; [destruct (split_on_nonempty _ _ E)|].
  simpl in *. exact IH.
Qed.

Lemma count_append (c : ascii) (s t : string) :
  count c (s ++ t) = (count c s + count c t)%nat.
Proof.
  induction s as [|a s IH]; simpl; [reflexivity|]. rewrite IH. lia.
Qed.

Lemma createTokenPath_split (variable : FigmaVariable) (collection : Collection)
    (mode : Mode) :
  exists rest,
    split_on "." (createTokenPath variable collection mode)
    = category_name (pathCategory (var_name variable)) :: rest
    /\ (3 <= List.length rest)%nat.
Proof.
  unfold createTokenPath.
  set (tail := replace_spaces (toLowerCase (coll_name collection)) ++ "."
               ++ replace_spaces (toLowerCase (mode_name mode)) ++ "."
               ++ replace_spaces (toLowerCase (var_name variable))).
  exists (split_on "." tail). split.
  - destruct (pathCategory (var_name variable)); cbn; reflexivity.
  - rewrite length_split_on. unfold tail.
    rewrite !count_append. simpl. lia.
Qed.

Lemma setNested_deeper (current : jsval) (k k' : string) (rest : list string)
    (value : jsval) :
  setNested current (k :: k' :: rest) value =
  match current with
  | JObj fields =>
      match obj_get fields k with
      | Some child =>
          let* child' :=
            setNested (if truthy child then child else JObj []) (k' :: rest)
              value in
          Ok (JObj (obj_set fields k child'))
      | None =>
          if inherited_key k then Unmodelled
          else let* child' := setNested (JObj []) (k' :: rest) value in
               Ok (JObj (obj_set fields k child'))
      end
  | JUndefined | JNull => Throw "Cannot read properties of undefined"
  | JBool _ | JNum _ | JNaN | JStr _ => Unmodelled
  end.
Proof. reflexivity. Qed.

Lemma setNested_object (fields : obj) (keys : list string) (value r : jsval) :
  setNested (JObj fields) keys value = Ok r -> is_object r = true.
Proof.
  destruct keys as [|k [|k' rest]].
  - simpl. intros [= <-]. reflexivity.
  - simpl. destruct (String.eqb k "__proto__"); [discriminate|].
    intros [= <-]. reflexivity.
  - rewrite setNested_deeper.
    destruct (obj_get fields k) as [child|].
    + destruct (setNested _ (k' :: rest) value); simpl; try discriminate.
      intros [= <-]. reflexivity.
    + destruct (inherited_key k); [discriminate|].
      destruct (setNested _ (k' :: rest) value); simpl; try discriminate.
      intros [= <-]. reflexivity.
Qed.

(** After a write something is stored under every key of the path. *)
Lemma setNested_has_path (keys : list string) (current value r : jsval) :
  keys <> [] ->
  setNested current keys value = Ok r ->
  exists o, r = JObj o /\ has_path o keys = true.
Proof.
  revert current r.
  induction keys as [|k [|k' rest] IH]; intros current r Hne.
  - contradiction.
  - simpl. unfold assign.
    destruct current; try (intros; discriminate);
      try (destruct (String.eqb _ "__proto__"); try destruct (string_own_key _ _);
           intros; discriminate).
    destruct (String.eqb k "__proto__"); [discriminate|].
    intros [= <-]. eexists. split; [reflexivity|].
    simpl. rewrite obj_get_set_eq. destruct value; reflexivity.
  - rewrite setNested_deeper. destruct current; try (intros; discriminate).
    assert (forall child,
              (let* child' := setNested child (k' :: rest) value in
               Ok (JObj (obj_set fields k child'))) = Ok r ->
              exists o, r = JObj o /\ has_path o (k :: k' :: rest) = true)
      as Hchild.
    { intros child.
      destruct (setNested child (k' :: rest) value) as [child'| |] eqn:E;
        simpl; try discriminate.
      intros [= <-].
      destruct (IH child child' ltac:(discriminate) E) as (o' & -> & Ho').
      eexists. split; [reflexivity|].
      cbn [has_path]. rewrite obj_get_set_eq. exact Ho'. }
    destruct (obj_get fields k) as [child|]; [apply Hchild|].
    destruct (inherited_key k); [discriminate|apply Hchild].
Qed.

Lemma setNestedValue_has_path (tokens : obj) (path : string) (value : jsval)
    (tokens' : obj) :
  setNestedValue tokens path value = Ok tokens' ->
  has_path tokens' (split_on "." path) = true.
Proof.
  unfold setNestedValue.
  destruct (setNested _ _ _) as [r| |] eqn:E; simpl; try discriminate.
  destruct (setNested_has_path _ _ _ _ (split_on_nonempty _ _) E)
    as (o & -> & Ho).
  intros [= <-]. exact Ho.
Qed.

Lemma setNestedValue_slots (f : Category -> obj) (path : string) (value : jsval)
    (c : Category) (k : string) (ks : list string) (tokens : obj) :
  split_on "." path = category_name c :: k :: ks ->
  setNestedValue (slots f) path value = Ok tokens ->
  exists inner, tokens = slots (with_category f c inner).
Proof.
  intros Hsplit. unfold setNestedValue. rewrite Hsplit.
  rewrite setNested_deeper, obj_get_slots. cbn [truthy].
  destruct (setNested (JObj (f c)) (k :: ks) value) as [child| |] eqn:E;
    try discriminate.
  apply setNested_object in E. destruct child; try discriminate.
  cbn [bind]. rewrite obj_set_slots. intros [= <-]. eexists. reflexivity.
Qed.

Lemma forEach_preserves {A S : Type} (P : S -> Prop)
    (body : S -> A -> result S) (l : list A) (s s' : S) :
  P s ->
  (forall s a s', P s -> body s a = Ok s' -> P s') ->
  forEach body l s = Ok s' -> P s'.
Proof.
  intros H0 Hstep. revert s H0.
  induction l as [|a r IH]; simpl; intros s H0.
  - intros [= <-]. exact H0.
  - destruct (body s a) as [s1| |] eqn:E; simpl; try discriminate.
    apply IH, (Hstep s a s1 H0 E).
Qed.

Lemma api_process_mode_slots (this : FigmaSync) (variable : FigmaVariable)
    (collection : Collection) (tokens tokens' : obj)
    (entry : string * VariableValue) :
  six_objects tokens ->
  api_process_mode this variable collection tokens entry = Ok tokens' ->
  six_objects tokens'.
Proof.
  intros [f ->]. unfold api_process_mode.
  destruct (assoc_get _ _) as [mode|];
    [|destruct (inherited_key _); discriminate].
  destruct (_ && _); [intros [= <-]; exists f; reflexivity|].
  destruct (String.eqb _ ""); [intros [= <-]; exists f; reflexivity|].
  destruct (is_null _); [intros [= <-]; exists f; reflexivity|].
  destruct (createTokenPath_split variable collection mode)
    as ([|k ks] & Hsplit & Hlen); [simpl in Hlen; lia|].
  intros H. destruct (setNestedValue_slots _ _ _ _ _ _ _ Hsplit H) as [inner ->].
  eexists. reflexivity.
Qed.

(** Whenever the transform returns, the token object has the six
    categories, each holding an object. *)
Lemma transformToStyleDictionary_slots (this : FigmaSync) (meta : Meta)
    (values : list (string * FigmaVariable)) (tokens : obj) :
  transformToStyleDictionary this meta values = Ok tokens ->
  six_objects tokens.
Proof.
  unfold transformToStyleDictionary.
  apply forEach_preserves.
  - exists (fun _ => []). reflexivity.
  - intros s [id variable] s' Hs. unfold api_process_variable. simpl.
    destruct (assoc_get _ _) as [collection|];
      [|destruct (inherited_key _); discriminate].
    destruct (_ && _); [intros [= <-]; exact Hs|].
    apply forEach_preserves; [exact Hs|].
    intros t e t' Ht. apply api_process_mode_slots, Ht.
Qed.

End ApiFacts.

(** ** The shape of the token store *)

Section StoreShape.
Context {rt : JSRuntime}.

Lemma colors_from_styles_tokens (colors : obj) (l : list (string * Style)) :
  tokens_only colors -> tokens_only (colors_from_styles colors l).
Proof.
  intros H. unfold colors_from_styles.
  apply (fold_left_preserves tokens_only); [exact H|].
  intros acc e Hacc. destruct (String.eqb _ _); [|exact Hacc].
  apply tokens_only_set; [reflexivity|exact Hacc].
Qed.

Lemma colors_from_components_tokens (colors : obj)
    (l : list (string * Component)) :
  tokens_only colors -> tokens_only (colors_from_components colors l).
Proof.
  intros H. unfold colors_from_components.
  apply (fold_left_preserves tokens_only); [exact H|].
  intros acc e Hacc. destruct (_ || _); [|exact Hacc].
  apply tokens_only_set; [reflexivity|exact Hacc].
Qed.

Lemma plugin_store_shape (now : string) (f : Category -> obj) :
  (forall c, tokens_only (f c)) ->
  store_shape (plugin_store now (slots f)) = true
  /\ obj_keys (plugin_store now (slots f))
     = "$metadata" :: map category_name all_categories.
Proof.
  intros Hf. split; [|reflexivity].
  cbn. rewrite (proj2 (Hf color)), (proj2 (Hf typography)),
    (proj2 (Hf spacing)), (proj2 (Hf borderRadius)), (proj2 (Hf shadow)),
    (proj2 (Hf opacity)). reflexivity.
Qed.

Lemma file_store_shape (now : string) (fileData : FileData) :
  store_shape (file_store now (extractTokensFromFile fileData)) = true.
Proof.
  unfold extractTokensFromFile.
  set (c0 := match styles fileData with
             | Some l => colors_from_styles [] l
             | None => []
             end).
  set (c1 := match components fileData with
             | Some l => colors_from_components c0 l
             | None => c0
             end).
  assert (tokens_only c0) as H0.
  { unfold c0. destruct (styles fileData).
    - apply colors_from_styles_tokens. split; [constructor|reflexivity].
    - split; [constructor|reflexivity]. }
  assert (tokens_only c1) as H1.
  { unfold c1. destruct (components fileData); [|exact H0].
    apply colors_from_components_tokens, H0. }
  destruct (Nat.eqb _ 0); cbn; [reflexivity|].
  rewrite (proj2 H1). reflexivity.
Qed.

Lemma api_store_shape (now : string) (f : Category -> obj) :
  nested_store_shape (api_store now (slots f)) = true
  /\ obj_keys (api_store now (slots f))
     = "$metadata" :: map category_name all_categories.
Proof. split; reflexivity. Qed.

End StoreShape.

(** C6, as stated, fails for the Variables-API adapter: for the one FLOAT
    variable [space-lg] of collection [Brand], mode [Light], the category
    [spacing] of the store does not map token names to tokens; its one key
    is the collection name, and what it holds has neither a [value] nor a
    [type] field. *)
Lemma api_store_not_declared_shape :
  exists tokens brand,
    @transformToStyleDictionary example_runtime all_collections brand_meta
      [("VariableID:1:2", space_lg)] = Ok tokens
    /\ token_lookup tokens "spacing" "brand" = Some (JObj brand)
    /\ obj_keys brand = ["light"]
    /\ token_shape (JObj brand) = false
    /\ store_shape (api_store "2025-10-19T13:06:59.013Z" tokens) = false.
Proof.
  eexists. eexists. split; [vm_compute; reflexivity|].
  repeat split.
Qed.

(** C6, amended.  The store the plugin uploads and the store
    [FigmaFileSync] writes have the declared shape: a [$metadata] object,
    and every other key a category that maps token names directly to
    objects with at least the fields [value] and [type]; the plugin's store
    has all six categories.  The store the Variables-API adapter writes has
    a [$metadata] object and the six categories, each holding an object, but
    a token is not stored directly under its category: a write stores it
    under every segment of its path, which has at least three more segments
    after the category (collection, mode, variable name). *)
Theorem token_store_shapes {rt : JSRuntime} :
  (forall now variables,
     store_shape (plugin_store now (transformVariablesToTokens variables)) = true
     /\ obj_keys (plugin_store now (transformVariablesToTokens variables))
        = "$metadata" :: map category_name all_categories)
  /\ (forall now fileData,
        store_shape (file_store now (extractTokensFromFile fileData)) = true)
  /\ (forall this meta values tokens now,
        transformToStyleDictionary this meta values = Ok tokens ->
        nested_store_shape (api_store now tokens) = true
        /\ obj_keys (api_store now tokens)
           = "$metadata" :: map category_name all_categories)
  /\ (forall variable collection mode,
        exists rest,
          Str.split_on "." (createTokenPath variable collection mode)
          = category_name (pathCategory (var_name variable)) :: rest
          /\ (3 <= List.length rest)%nat)
  /\ (forall tokens path value tokens',
        setNestedValue tokens path value = Ok tokens' ->
        has_path tokens' (Str.split_on "." path) = true).
Proof.
  split; [|split; [|split; [|split]]]; [| | | |exact setNestedValue_has_path].
  - intros now variables. rewrite transformVariablesToTokens_slots.
    apply plugin_store_shape, contents_tokens_only.
  - exact file_store_shape.
  - intros this meta values tokens now H.
    destruct (transformToStyleDictionary_slots _ _ _ _ H) as [f ->].
    apply api_store_shape.
  - exact createTokenPath_split.
Qed.

Lemma token_store_shapes_witness :
  nested_store_shape
    (api_store "2025-10-19T13:06:59.013Z"
       (slots (with_category (fun _ => []) spacing
                 [("brand",
                   JObj [("light", JObj [("space-lg", JNum 8)])])])))
  = true.
Proof.
  refine (proj1 (proj1 (proj2 (proj2 (@token_store_shapes example_runtime)))
                   all_collections brand_meta [("VariableID:1:2", space_lg)]
                   _ "2025-10-19T13:06:59.013Z" _)).
  vm_compute. reflexivity.
Defined.

(** ** Webhook listener *)

Section WebhookFacts.
Variable Machine : Type.
Variable exec : string -> Machine -> (string + string) * Machine.


End WebhookFacts.


(** When the pull fails the regeneration is not started. *)
Example figma_webhook_pull_fails :
  figma_webhook unit pull_fails "2025-10-19T13:06:59.013Z"
    tokens_updated_body tt
  = (mkResponse 500
       (JObj [("success", JBool false);
              ("error", JStr "Command failed: git pull origin main")]),
     (tt, [pull_command])).
Proof. reflexivity. Qed.

(** ** Missing credentials *)

Section Credentials.
Context {rt : JSRuntime}.

(** C8.  When [FIGMA_ACCESS_TOKEN] or [FIGMA_FILE_KEY] is not set (absent
    or empty), the script ends with exit status 1 after printing two lines
    that name the missing variables; it makes no request and writes no
    file. *)
Theorem missing_credentials_exit (env : gmap string string) (w : World) :
  unset (env !! "FIGMA_ACCESS_TOKEN") = true
  \/ unset (env !! "FIGMA_FILE_KEY") = true ->
  FigmaSync_main env w
  = ([ConsoleError "❌ Missing required environment variables:";
      ConsoleError
        "   FIGMA_ACCESS_TOKEN and FIGMA_FILE_KEY must be set in .env file"],
     Exit 1)
  /\ forallb is_console_error (fst (FigmaSync_main env w)) = true
  /\ snd (FigmaSync_main env w) <> Exit 0.
Proof.
  intros H.
  assert (FigmaSync_main env w
          = ([ConsoleError "❌ Missing required environment variables:";
              ConsoleError
                "   FIGMA_ACCESS_TOKEN and FIGMA_FILE_KEY must be set in .env file"],
             Exit 1)) as E.
  { unfold FigmaSync_main, FigmaSync_constructor.
    assert (unset (env !! "FIGMA_ACCESS_TOKEN")
            || unset (env !! "FIGMA_FILE_KEY") = true) as ->.
    { destruct H as [-> | ->]; [reflexivity | apply orb_true_r]. }
    reflexivity. }
  rewrite E. repeat split. discriminate.
Qed.

(** With both variables set the first thing the script does is the request:
    the guard of the constructor is what keeps it from the network. *)
Lemma credentials_then_request (env : gmap string string) (w : World)
    (token key : string) :
  env !! "FIGMA_ACCESS_TOKEN" = Some token -> token <> "" ->
  env !! "FIGMA_FILE_KEY" = Some key -> key <> "" ->
  hd_error (fst (FigmaSync_main env w))
  = Some (HttpGet (FIGMA_API_BASE ++ "/files/" ++ key ++ "/variables/local")
            token).
Proof.
  intros Ht Hne Hk Hke.
  unfold FigmaSync_main, FigmaSync_constructor. rewrite Ht, Hk. simpl unset.
  apply String.eqb_neq in Hne, Hke. rewrite Hne, Hke. simpl.
  unfold pbind, ret, run, fetchVariables, pbind, emit. simpl.
  destruct (http_get w _ _) as [message|data]; simpl.
  - reflexivity.
  - destruct (transformToStyleDictionary _ _ _); simpl;
      unfold saveTokens, pbind, emit, ret, leave_model;
      destruct (tokens_dir_exists w); reflexivity.
Qed.

End Credentials.

Lemma missing_credentials_exit_witness :
  snd (@FigmaSync_main example_runtime
         ({["FIGMA_FILE_KEY" := "FILEKEY"]} : gmap string string) offline_world)
  = Exit 1.
Proof.
  refine (f_equal snd
            (proj1 (@missing_credentials_exit example_runtime
                      {["FIGMA_FILE_KEY" := "FILEKEY"]} offline_world _))).
  left. reflexivity.
Defined.

(** ** Renderer *)

Section RendererFacts.
Context {rt : JSRuntime}.

Lemma append_assoc (s t u : string) : (s ++ t) ++ u = s ++ t ++ u.
Proof.
  induction s as [|c s IH]; [reflexivity|].
  change (String c ((s ++ t) ++ u) = String c (s ++ t ++ u)).
  rewrite IH. reflexivity.
Qed.

(** C9.  For the store of the scenario the colour file has the line that
    binds [primary] to [Color(hex: "#007AFF")] and the spacing file has the
    line that binds [small] to [8]. *)
Theorem scenario_rendering (timestamp : string) :
  exists colors_file spacing_file,
    generateColors scenario_store timestamp = Ok colors_file
    /\ has_line colors_file
         ("    static let primary = Color(hex: " ++ Str.dq ++ "#007AFF"
            ++ Str.dq ++ ")")
    /\ generateSpacing scenario_store timestamp = Ok spacing_file
    /\ has_line spacing_file "    static let small: CGFloat = 8".
Proof.
  eexists. eexists. split; [reflexivity|]. split; [|split; [reflexivity|]].
  - right.
    exists ("//
//  Colors.swift
//  Design System
//
//  ⚠️  AUTO-GENERATED FILE - DO NOT EDIT MANUALLY
//  Generated from Figma Variables via Plugin
//  Last updated: " ++ timestamp ++ "
//

import SwiftUI

extension Color {"), ("}" ++ Str.nl).
    unfold colors_header. rewrite !append_assoc. reflexivity.
  - right.
    exists ("//
//  Spacing.swift
//  Design System
//
//  ⚠️  AUTO-GENERATED FILE - DO NOT EDIT MANUALLY
//  Generated from Figma Variables via Plugin
//  Last updated: " ++ timestamp ++ "
//

import SwiftUI

struct Spacing {"), ("}" ++ Str.nl).
    unfold spacing_header. rewrite !append_assoc. reflexivity.
Qed.

End RendererFacts.

(** * Further properties of the code *)

(** ** [FigmaSync.setNestedValue] as an update of a tree *)

Section NestedWrites.

Lemma get_path_primitive (v : jsval) (k : string) (ks : list string) :
  is_object v = false -> get_path v (k :: ks) = None.
Proof. destruct v; simpl; intros; try reflexivity; discriminate. Qed.

Lemma truthy_false_primitive (v : jsval) : truthy v = false -> is_object v = false.
Proof. destruct v; simpl; intros; try reflexivity; discriminate. Qed.

Lemma setNested_get_path (keys : list string) (current value r : jsval) :
  keys <> [] ->
  setNested current keys value = Ok r ->
  get_path r keys = Some value.
Proof.
  revert current r.
  induction keys as [|k [|k' rest] IH]; intros current r Hne.
  - contradiction.
  - simpl. unfold assign.
    destruct current; try (intros; discriminate);
      try (destruct (String.eqb _ "__proto__"); try destruct (string_own_key _ _);
           intros; discriminate).
    destruct (String.eqb k "__proto__"); [discriminate|].
    intros [= <-]. simpl. rewrite obj_get_set_eq. reflexivity.
  - rewrite setNested_deeper. destruct current; try (intros; discriminate).
    assert (forall child,
              (let* child' := setNested child (k' :: rest) value in
               Ok (JObj (obj_set fields k child'))) = Ok r ->
              get_path r (k :: k' :: rest) = Some value) as Hchild.
    { intros child.
      destruct (setNested child (k' :: rest) value) as [child'| |] eqn:E;
        simpl; try discriminate.
      intros [= <-]. cbn [get_path]. rewrite obj_get_set_eq.
      apply (IH child child'); [discriminate|exact E]. }
    destruct (obj_get fields k) as [child|]; [apply Hchild|].
    destruct (inherited_key k); [discriminate|apply Hchild].
Qed.

(** X1.  Round trip of [setNestedValue]: after a write that returns, reading
    the store along the segments of the path gives the value written. *)
Theorem setNestedValue_then_read (tokens : obj) (path : string) (value : jsval)
    (tokens' : obj) :
  setNestedValue tokens path value = Ok tokens' ->
  get_path (JObj tokens') (Str.split_on "." path) = Some value.
Proof.
  unfold setNestedValue.
  destruct (setNested _ _ _) as [r| |] eqn:E; simpl; try discriminate.
  pose proof (setNested_get_path _ _ _ _ (split_on_nonempty _ _) E) as H.
  destruct r; try discriminate. intros [= <-]. exact H.
Qed.

Lemma setNested_frame (p : list string) :
  forall (current value r : jsval) (k k' : string) (rest rest' : list string),
    k <> k' ->
    setNested current (p ++ k :: rest)%list value = Ok r ->
    get_path r (p ++ k' :: rest')%list = get_path current (p ++ k' :: rest')%list.
Proof.
  induction p as [|q p IH]; intros current value r k k' rest rest' Hne.
  - simpl app. destruct rest as [|k2 rest].
    + simpl. unfold assign.
    destruct current; try (intros; discriminate);
      try (destruct (String.eqb _ "__proto__"); try destruct (string_own_key _ _);
           intros; discriminate).
      destruct (String.eqb k "__proto__"); [discriminate|].
      intros [= <-]. simpl. rewrite (obj_get_set_ne _ _ _ _ Hne). reflexivity.
    + rewrite setNested_deeper. destruct current; try (intros; discriminate).
      assert (forall child,
                (let* child' := setNested child (k2 :: rest) value in
                 Ok (JObj (obj_set fields k child'))) = Ok r ->
                get_path r (k' :: rest') = get_path (JObj fields) (k' :: rest'))
        as Hchild.
      { intros child.
        destruct (setNested child (k2 :: rest) value) as [child'| |];
          simpl; try discriminate.
        intros [= <-]. rewrite (obj_get_set_ne _ _ _ _ Hne). reflexivity. }
      destruct (obj_get fields k) as [child|]; [apply Hchild|].
      destruct (inherited_key k); [discriminate|apply Hchild].
  - change ((q :: p) ++ k :: rest)%list with (q :: (p ++ k :: rest))%list.
    change ((q :: p) ++ k' :: rest')%list with (q :: (p ++ k' :: rest'))%list.
    destruct (p ++ k :: rest)%list as [|k1 tail] eqn:Etail;
      [destruct p; discriminate|].
    rewrite setNested_deeper. destruct current; try (intros; discriminate).
    assert (forall child0 child,
              get_path child0 (p ++ k' :: rest')%list
              = get_path child (p ++ k' :: rest')%list ->
              (let* child' := setNested child0 (k1 :: tail) value in
               Ok (JObj (obj_set fields q child'))) = Ok r ->
              get_path r (q :: p ++ k' :: rest')%list
              = get_path child (p ++ k' :: rest')%list) as Hchild.
    { intros child0 child Hsame.
      destruct (setNested child0 (k1 :: tail) value) as [child'| |] eqn:E;
        simpl; try discriminate.
      intros [= <-]. rewrite obj_get_set_eq, <- Hsame.
      rewrite <- Etail in E. apply (IH _ _ _ _ _ _ _ Hne E). }
    cbn [get_path].
    destruct (obj_get fields q) as [child|].
    + apply Hchild. destruct (truthy child) eqn:Et; [reflexivity|].
      destruct (p ++ k' :: rest')%list as [|x xs] eqn:Ex;
        [destruct p; discriminate|].
      rewrite (get_path_primitive child) by (apply truthy_false_primitive, Et).
      reflexivity.
    + destruct (inherited_key q); [discriminate|].
      intros H.
      assert (get_path (JObj []) (p ++ k' :: rest')%list = None) as Hnone.
      { destruct (p ++ k' :: rest')%list eqn:Ex; [destruct p; discriminate|].
        reflexivity. }
      destruct (setNested (JObj []) (k1 :: tail) value) as [child'| |] eqn:E;
        simpl in H; try discriminate.
      injection H as <-. rewrite obj_get_set_eq.
      rewrite <- Etail in E. rewrite (IH _ _ _ _ _ _ _ Hne E). exact Hnone.
Qed.

(** X2.  A write leaves every other branch of the store alone: a path that
    parts from the written one at some segment reads the same before and
    after. *)
Theorem setNestedValue_frame (tokens : obj) (path : string) (value : jsval)
    (tokens' : obj) (common : list string) (k k' : string)
    (rest rest' : list string) :
  Str.split_on "." path = (common ++ k :: rest)%list ->
  k <> k' ->
  setNestedValue tokens path value = Ok tokens' ->
  get_path (JObj tokens') (common ++ k' :: rest')%list
  = get_path (JObj tokens) (common ++ k' :: rest')%list.
Proof.
  intros Hsplit Hne. unfold setNestedValue. rewrite Hsplit.
  destruct (setNested _ _ _) as [r| |] eqn:E; simpl; try discriminate.
  pose proof (setNested_frame _ _ _ _ _ _ _ rest' Hne E) as H.
  destruct r; try discriminate. intros [= <-]. exact H.
Qed.

Lemma setNested_through_value (keys : list string) :
  forall (current leaf value : jsval) (k : string),
    keys <> [] ->
    k <> "__proto__" ->
    get_path current keys = Some leaf ->
    is_primitive leaf = true ->
    truthy leaf = true ->
    exists message, setNested current (keys ++ [k])%list value = Throw message.
Proof.
  induction keys as [|k0 [|k1 ks] IH];
    intros current leaf value k Hne Hk Hget Hprim Ht.
  - contradiction.
  - simpl app. rewrite setNested_deeper.
    simpl in Hget. destruct current; try discriminate.
    destruct (obj_get fields k0) as [child|]; [|discriminate].
    injection Hget as ->. rewrite Ht. simpl.
    apply String.eqb_neq in Hk.
    destruct leaf; try discriminate; simpl; rewrite Hk;
      try destruct (string_own_key _ _); eexists; reflexivity.
  - change ((k0 :: k1 :: ks) ++ [k])%list with (k0 :: ((k1 :: ks) ++ [k]))%list.
    destruct ((k1 :: ks) ++ [k])%list as [|x xs] eqn:Ex; [discriminate|].
    rewrite setNested_deeper.
    cbn [get_path] in Hget. destruct current; try discriminate.
    destruct (obj_get fields k0) as [child|]; [|discriminate].
    assert (truthy child = true) as Hc.
    { destruct child; try (simpl in Hget; discriminate). reflexivity. }
    rewrite Hc, <- Ex.
    destruct (IH child leaf value k ltac:(discriminate) Hk Hget Hprim Ht)
      as [message ->].
    exists message. reflexivity.
Qed.

(** X3.  A path that extends, by one segment other than [__proto__], a
    path at which the store holds a truthy primitive (a non-empty string, a
    number other than 0, [true]) cannot be written: the assignment throws
    and no store is returned.  (The segment [__proto__] is excluded: an
    assignment to it reaches the setter that a primitive inherits, which
    does not throw; the model leaves that run out.) *)
Theorem setNestedValue_through_value (tokens : obj) (path : string)
    (keys : list string) (k : string) (leaf value : jsval) :
  Str.split_on "." path = (keys ++ [k])%list ->
  keys <> [] ->
  k <> "__proto__" ->
  get_path (JObj tokens) keys = Some leaf ->
  is_primitive leaf = true ->
  truthy leaf = true ->
  exists message, setNestedValue tokens path value = Throw message.
Proof.
  intros Hsplit Hne Hk Hget Hprim Ht. unfold setNestedValue. rewrite Hsplit.
  destruct (setNested_through_value keys _ leaf value k Hne Hk Hget Hprim Ht)
    as [message ->].
  exists message. reflexivity.
Qed.

Lemma setNested_over_falsy (keys : list string) :
  forall (current leaf value : jsval) (k : string),
    keys <> [] ->
    k <> "__proto__" ->
    get_path current keys = Some leaf ->
    truthy leaf = false ->
    exists fields,
      setNested current (keys ++ [k])%list value = Ok (JObj fields)
      /\ get_path (JObj fields) keys = Some (JObj [(k, value)]).
Proof.
  induction keys as [|k0 [|k1 ks] IH];
    intros current leaf value k Hne Hk Hget Hf.
  - contradiction.
  - simpl app. rewrite setNested_deeper.
    simpl in Hget. destruct current; try discriminate.
    destruct (obj_get fields k0) as [child|]; [|discriminate].
    injection Hget as ->. rewrite Hf. simpl.
    apply String.eqb_neq in Hk. rewrite Hk. simpl.
    eexists. split; [reflexivity|]. simpl. rewrite obj_get_set_eq. reflexivity.
  - change ((k0 :: k1 :: ks) ++ [k])%list with (k0 :: ((k1 :: ks) ++ [k]))%list.
    destruct ((k1 :: ks) ++ [k])%list as [|x xs] eqn:Ex; [discriminate|].
    rewrite setNested_deeper.
    cbn [get_path] in Hget. destruct current; try discriminate.
    destruct (obj_get fields k0) as [child|]; [|discriminate].
    assert (truthy child = true) as Hc.
    { destruct child; try (simpl in Hget; discriminate). reflexivity. }
    rewrite Hc, <- Ex.
    destruct (IH child leaf value k ltac:(discriminate) Hk Hget Hf)
      as (fields' & -> & Hread).
    simpl. eexists. split; [reflexivity|].
    cbn [get_path]. rewrite obj_get_set_eq. exact Hread.
Qed.

(** X4.  A path that extends, by one segment, a path at which the store
    holds a falsy value (0, the empty string, [false], NaN, [null]) is
    written without an error, and the falsy value is replaced by an object
    that holds only the new segment: the earlier token is lost. *)
Theorem setNestedValue_over_falsy (tokens : obj) (path : string)
    (keys : list string) (k : string) (leaf value : jsval) :
  Str.split_on "." path = (keys ++ [k])%list ->
  keys <> [] ->
  k <> "__proto__" ->
  get_path (JObj tokens) keys = Some leaf ->
  truthy leaf = false ->
  exists tokens',
    setNestedValue tokens path value = Ok tokens'
    /\ get_path (JObj tokens') keys = Some (JObj [(k, value)]).
Proof.
  intros Hsplit Hne Hk Hget Hf. unfold setNestedValue. rewrite Hsplit.
  destruct (setNested_over_falsy keys _ leaf value k Hne Hk Hget Hf)
    as (fields & -> & Hread).
  simpl. eexists. split; [reflexivity|exact Hread].
Qed.

End NestedWrites.

Lemma setNestedValue_then_read_witness :
  exists tokens',
    setNestedValue empty_tokens "spacing.brand.light.space-lg" (JNum 8)
    = Ok tokens'
    /\ get_path (JObj tokens') ["spacing"; "brand"; "light"; "space-lg"]
       = Some (JNum 8).
Proof.
  eexists. split; [vm_compute; reflexivity|].
  refine (setNestedValue_then_read empty_tokens "spacing.brand.light.space-lg"
            (JNum 8) _ _).
  vm_compute. reflexivity.
Defined.

Lemma setNestedValue_frame_witness :
  get_path
    (JObj (slots (with_category
                    (with_category (fun _ => []) spacing
                       [("brand", JObj [("light", JObj [("sm", JNum 4)])])])
                    spacing
                    [("brand",
                      JObj [("light", JObj [("sm", JNum 4)]);
                            ("dark", JObj [("sm", JNum 6)])])])))
    ["spacing"; "brand"; "light"; "sm"]
  = Some (JNum 4).
Proof.
  refine (eq_trans
            (setNestedValue_frame
               (slots (with_category (fun _ => []) spacing
                         [("brand", JObj [("light", JObj [("sm", JNum 4)])])]))
               "spacing.brand.dark.sm" (JNum 6) _
               ["spacing"; "brand"] "dark" "light" ["sm"] ["sm"] _ _ _) _).
  - reflexivity.
  - discriminate.
  - vm_compute. reflexivity.
  - reflexivity.
Defined.

Lemma setNestedValue_through_value_witness :
  exists message,
    setNestedValue
      (slots (with_category (fun _ => []) spacing
                [("brand", JObj [("light", JObj [("gap", JNum 8)])])]))
      "spacing.brand.light.gap.lg" (JNum 16)
    = Throw message.
Proof.
  refine (setNestedValue_through_value _ "spacing.brand.light.gap.lg"
            ["spacing"; "brand"; "light"; "gap"] "lg" (JNum 8) (JNum 16)
            _ _ _ _ _ _); try reflexivity; discriminate.
Defined.

Lemma setNestedValue_over_falsy_witness :
  exists tokens',
    setNestedValue
      (slots (with_category (fun _ => []) spacing
                [("brand", JObj [("light", JObj [("gap", JNum 0)])])]))
      "spacing.brand.light.gap.lg" (JNum 16)
    = Ok tokens'
    /\ get_path (JObj tokens') ["spacing"; "brand"; "light"; "gap"]
       = Some (JObj [("lg", JNum 16)]).
Proof.
  refine (setNestedValue_over_falsy _ "spacing.brand.light.gap.lg"
            ["spacing"; "brand"; "light"; "gap"] "lg" (JNum 0) (JNum 16)
            _ _ _ _ _); try reflexivity; discriminate.
Defined.

(** ** The Variables-API script as a whole *)

Section WholeRun.
Context {rt : JSRuntime}.

(** X5.  The script writes the token file exactly when it ends with status
    0; it makes at most one request and at most one write, and a run that
    ends otherwise leaves the file system untouched. *)
Theorem FigmaSync_writes_iff_success (env : gmap string string) (w : World) :
  (snd (FigmaSync_main env w) = Exit 0
   <-> existsb is_write (fst (FigmaSync_main env w)) = true)
  /\ (List.length (List.filter is_write (fst (FigmaSync_main env w))) <= 1)%nat
  /\ (List.length (List.filter is_request (fst (FigmaSync_main env w))) <= 1)%nat
  /\ (snd (FigmaSync_main env w) <> Exit 0 ->
      forallb (fun e => is_console_error e || is_request e)
        (fst (FigmaSync_main env w)) = true).
Proof.
  unfold FigmaSync_main, FigmaSync_constructor.
  destruct (unset (env !! "FIGMA_ACCESS_TOKEN") || unset (env !! "FIGMA_FILE_KEY")).
  - simpl. repeat split; try discriminate; try lia; reflexivity.
  - unfold pbind, ret, run, fetchVariables, pbind, emit. simpl.
    destruct (http_get w _ _) as [message|data]; simpl.
    + repeat split; try discriminate; try lia; reflexivity.
    + destruct (transformToStyleDictionary _ _ _); simpl;
        unfold saveTokens, pbind, emit, ret, leave_model, process_exit;
        destruct (tokens_dir_exists w); simpl;
        repeat split; try discriminate; try lia; try reflexivity;
        intros; try contradiction; try congruence.
Qed.

Lemma forEach_filter {A S : Type} (body : S -> A -> result S)
    (keep : A -> bool) (l : list A) (s : S) :
  (forall s a, keep a = false -> body s a = Ok s) ->
  forEach body (List.filter keep l) s = forEach body l s.
Proof.
  intros Hskip. revert s. induction l as [|a r IH]; intros s; simpl.
  - reflexivity.
  - destruct (keep a) eqn:E; simpl.
    + destruct (body s a); simpl; [apply IH|reflexivity|reflexivity].
    + rewrite (Hskip s a E). simpl. apply IH.
Qed.

(** X6.  Filtering: the variables of a collection that is not listed, and
    the modes that are not listed, contribute nothing; the transform gives
    the same result, or the same error, as on the input without them. *)
Theorem transformToStyleDictionary_filters (this : FigmaSync) (meta : Meta)
    (values : list (string * FigmaVariable)) :
  transformToStyleDictionary this meta values
  = transformToStyleDictionary this meta
      (List.filter (passes_collections this meta) values)
  /\ (forall variable collection entries tokens,
        forEach (api_process_mode this variable collection) entries tokens
        = forEach (api_process_mode this variable collection)
            (List.filter (passes_modes this collection) entries) tokens).
Proof.
  split.
  - unfold transformToStyleDictionary. symmetry. apply forEach_filter.
    intros s [id variable]. unfold passes_collections, api_process_variable.
    simpl. destruct (assoc_get _ _) as [collection|]; [|discriminate].
    intros H. apply orb_false_elim in H as [H1 H2]. rewrite H1, H2.
    reflexivity.
  - intros variable collection entries tokens. symmetry.
    apply forEach_filter.
    intros s [modeId value]. unfold passes_modes, api_process_mode. simpl.
    destruct (assoc_get _ _) as [mode|]; [|discriminate].
    intros H. apply orb_false_elim in H as [H1 H2]. rewrite H1, H2.
    reflexivity.
Qed.

End WholeRun.

(** ** Lists of names from the environment *)

Section CommaLists.
Import Str StrFacts.

Lemma split_on_no_separator (sep : ascii) (s x : string) :
  In x (split_on sep s) -> count sep x = 0%nat.
Proof.
  revert x. induction s as [|c t IH]; simpl; intros x.
  - intros [<-|[]]. reflexivity.
  - destruct (Ascii.eqb c sep) eqn:E.
    + intros [<-|H]; [reflexivity|apply IH, H].
    + destruct (split_on sep t) as [|h r] eqn:Es.
      * intros [<-|[]]. simpl. rewrite E. reflexivity.
      * intros [<-|H].
        -- simpl. rewrite E. apply IH. left. reflexivity.
        -- apply IH. right. exact H.
Qed.

Lemma space_length_bound (s : string) :
  (space_length s <= String.length s)%nat.
Proof.
  destruct s as [|c0 [|c1 [|c2 t2]]]; cbn;
    repeat match goal with |- context [if ?b then _ else _] => destruct b end;
    lia.
Qed.

Lemma space_length_head (c : ascii) (t : string) :
  space_length (String c t) = 0%nat -> is_space c = false.
Proof.
  cbn. destruct (is_space c); [discriminate|reflexivity].
Qed.

(** What a string begins with is what it begins with when more follows. *)
Lemma space_length_app (s w : string) (k : nat) :
  space_length s = S k -> space_length (s ++ w) = S k.
Proof.
  intros H. destruct s as [|c0 t0]; [discriminate H|].
  change (String c0 t0 ++ w) with (String c0 (t0 ++ w)).
  unfold space_length in *. cbv beta iota in *.
  destruct (is_space c0); [exact H|].
  destruct t0 as [|c1 t1]; [discriminate H|].
  change (String c1 t1 ++ w) with (String c1 (t1 ++ w)). cbv beta iota in *.
  destruct (is_space2 c0 c1); [exact H|].
  destruct t1 as [|c2 t2]; [discriminate H|exact H].
Qed.

Lemma drop_app (n : nat) (s w : string) :
  (n <= String.length s)%nat -> drop n (s ++ w) = drop n s ++ w.
Proof.
  revert s. induction n as [|n IH]; intros [|c t] H; cbn in *;
    try reflexivity; try lia.
  apply IH. lia.
Qed.

Lemma trim_start_step (s : string) :
  trim_start s
  = match space_length s with
    | O => s
    | S k => trim_start (drop (S k) s)
    end.
Proof.
  destruct s as [|c0 t0]; [reflexivity|].
  unfold space_length. cbn [trim_start].
  destruct (is_space c0); [reflexivity|].
  destruct t0 as [|c1 t1]; [reflexivity|].
  destruct (is_space2 c0 c1); [reflexivity|].
  destruct t1 as [|c2 t2]; [reflexivity|].
  destruct (is_space3 c0 c1 c2); reflexivity.
Qed.

Lemma only_space_step (c : ascii) (t : string) :
  only_space (String c t)
  = match space_length (String c t) with
    | O => false
    | S k => only_space (drop (S k) (String c t))
    end.
Proof.
  unfold space_length. cbn [only_space].
  destruct (is_space c); [reflexivity|].
  destruct t as [|c1 t1]; [reflexivity|].
  destruct (is_space2 c c1); [reflexivity|].
  destruct t1 as [|c2 t2]; [reflexivity|].
  destruct (is_space3 c c1 c2); reflexivity.
Qed.

Lemma replace_spaces_step (b : bool) (c : ascii) (t : string) :
  replace_spaces_from b (String c t)
  = match space_length (String c t) with
    | O => String c (replace_spaces_from false t)
    | S k => hyphen b (replace_spaces_from true (drop (S k) (String c t)))
    end.
Proof.
  unfold space_length. cbn [replace_spaces_from].
  destruct (is_space c); [reflexivity|].
  destruct t as [|c1 t1]; [reflexivity|].
  destruct (is_space2 c c1); [reflexivity|].
  destruct t1 as [|c2 t2]; [reflexivity|].
  destruct (is_space3 c c1 c2); reflexivity.
Qed.

Lemma length_drop_space (s : string) (k : nat) :
  space_length s = S k ->
  (String.length (drop (S k) s) < String.length s)%nat.
Proof.
  intros H. pose proof (space_length_bound s). rewrite length_drop. lia.
Qed.

(** What [trimStart] returns begins with no white space. *)
Lemma trim_start_head (s : string) : space_length (trim_start s) = 0%nat.
Proof.
  induction s as [s IH] using string_length_ind.
  rewrite trim_start_step. destruct (space_length s) as [|k] eqn:E;
    [exact E|].
  apply IH, length_drop_space, E.
Qed.

Lemma trim_start_fixed (s : string) :
  space_length s = 0%nat -> trim_start s = s.
Proof. intros H. rewrite trim_start_step, H. reflexivity. Qed.

(** [trimEnd] removes a last part that consists of white space. *)
Lemma trim_end_rest (s : string) :
  exists w, s = trim_end s ++ w /\ only_space w = true.
Proof.
  induction s as [|c t (w & Ht & Hw)].
  - exists "". split; reflexivity.
  - cbn [trim_end]. destruct (only_space (String c t)) eqn:E.
    + exists (String c t). split; [reflexivity|exact E].
    + exists w. split; [|exact Hw].
      change (String c (trim_end t) ++ w) with (String c (trim_end t ++ w)).
      rewrite <- Ht. reflexivity.
Qed.

Lemma only_space_app (a b : string) :
  only_space a = true -> only_space (a ++ b) = only_space b.
Proof.
  induction a as [a IH] using string_length_ind.
  destruct a as [|c t]; [reflexivity|].
  rewrite only_space_step.
  destruct (space_length (String c t)) as [|k] eqn:E; [discriminate|].
  intros H.
  change (String c t ++ b) with (String c (t ++ b)).
  rewrite only_space_step.
  change (String c (t ++ b)) with (String c t ++ b).
  rewrite (space_length_app _ b k E).
  pose proof (space_length_bound (String c t)) as Hb.
  rewrite drop_app by lia.
  apply IH; [apply length_drop_space, E|exact H].
Qed.

Lemma trim_end_idempotent (s : string) : trim_end (trim_end s) = trim_end s.
Proof.
  induction s as [|c t IH]; [reflexivity|].
  cbn [trim_end]. destruct (only_space (String c t)) eqn:E; [reflexivity|].
  cbn [trim_end]. rewrite IH.
  destruct (only_space (String c (trim_end t))) eqn:E'; [|reflexivity].
  exfalso. destruct (trim_end_rest t) as (w & Ht & Hw).
  rewrite Ht in E.
  change (String c (trim_end t ++ w)) with (String c (trim_end t) ++ w) in E.
  rewrite (only_space_app _ w E'), Hw in E. discriminate E.
Qed.

Lemma trim_end_head (s : string) :
  space_length s = 0%nat -> space_length (trim_end s) = 0%nat.
Proof.
  intros H. destruct (space_length (trim_end s)) as [|k] eqn:E; [reflexivity|].
  exfalso. destruct (trim_end_rest s) as (w & Hs & _).
  rewrite Hs, (space_length_app _ w k E) in H. discriminate H.
Qed.

Lemma trim_idempotent (s : string) : trim (trim s) = trim s.
Proof.
  unfold trim.
  rewrite (trim_start_fixed (trim_end (trim_start s)))
    by apply trim_end_head, trim_start_head.
  apply trim_end_idempotent.
Qed.

Lemma count_drop (sep : ascii) (n : nat) (s : string) :
  count sep s = 0%nat -> count sep (drop n s) = 0%nat.
Proof.
  revert s. induction n as [|n IH]; intros [|c t]; cbn; auto.
  intros H. apply IH. lia.
Qed.

Lemma count_trim_start (sep : ascii) (s : string) :
  count sep s = 0%nat -> count sep (trim_start s) = 0%nat.
Proof.
  induction s as [s IH] using string_length_ind. intros H.
  rewrite trim_start_step. destruct (space_length s) as [|k] eqn:E;
    [exact H|].
  apply IH; [apply length_drop_space, E|apply count_drop, H].
Qed.

Lemma count_trim_end (sep : ascii) (s : string) :
  count sep s = 0%nat -> count sep (trim_end s) = 0%nat.
Proof.
  induction s as [|c t IH]; [reflexivity|].
  intros H. cbn [trim_end]. destruct (only_space (String c t)); [reflexivity|].
  cbn in *. rewrite IH by lia. lia.
Qed.

(** The names of a list variable: the trimmed pieces that are not empty. *)
Lemma In_comma_list (s x : string) :
  In x (comma_list (Some s))
  <-> x <> "" /\ exists y, trim y = x /\ In y (split_on "," s).
Proof.
  unfold comma_list.
  rewrite <- list_elem_of_In, list_elem_of_filter, list_elem_of_In, in_map_iff.
  split.
  - intros [Hne Hy]. split; [|exact Hy].
    intros E. rewrite E in Hne. exact Hne.
  - intros [Hne Hy]. split; [|exact Hy].
    apply String.eqb_neq in Hne. rewrite Hne. exact I.
Qed.

(** X7.  Every name read from [FIGMA_COLLECTIONS] or [FIGMA_MODES] is
    non-empty, has no white space at either end and contains no comma. *)
Theorem comma_list_names (s x : string) :
  In x (comma_list (Some s)) ->
  x <> "" /\ trim x = x /\ count "," x = 0%nat.
Proof.
  rewrite In_comma_list.
  intros [Hne (y & <- & Hy)]. split; [exact Hne|split].
  - apply trim_idempotent.
  - unfold trim. apply count_trim_end, count_trim_start.
    apply (split_on_no_separator _ s), Hy.
Qed.

Lemma trim_start_blank (s : string) :
  all_chars is_space s = true -> trim_start s = "".
Proof.
  induction s as [|c t IH]; simpl; [reflexivity|].
  intros [Hc Ht]%andb_prop. rewrite Hc. apply IH, Ht.
Qed.

Lemma split_on_comma_blank (s x : string) :
  all_chars blank_or_comma s = true ->
  In x (split_on "," s) -> all_chars is_space x = true.
Proof.
  revert x. induction s as [|c t IH]; simpl; intros x.
  - intros _ [<-|[]]. reflexivity.
  - intros [Hc Ht]%andb_prop.
    destruct (Ascii.eqb c ",") eqn:E.
    + intros [<-|H]; [reflexivity|apply IH; assumption].
    + assert (is_space c = true) as Hs.
      { unfold blank_or_comma in Hc. rewrite E, orb_false_r in Hc. exact Hc. }
      destruct (split_on "," t) as [|h r] eqn:Es.
      * intros [<-|[]]. simpl. rewrite Hs. reflexivity.
      * intros [<-|H].
        -- simpl. rewrite Hs. apply IH; [exact Ht|left; reflexivity].
        -- apply IH; [exact Ht|right; exact H].
Qed.

(** X8.  A list variable that holds only commas and white space (or is
    empty, or is not set) names nothing, which switches the filter off:
    every collection then passes. *)
Theorem comma_list_blank (s : string) (this : FigmaSync) (meta : Meta)
    (entry : string * FigmaVariable) :
  all_chars blank_or_comma s = true ->
  comma_list (Some s) = []
  /\ (collections this = comma_list (Some s) ->
      passes_collections this meta entry = true).
Proof.
  intros Hs.
  assert (comma_list (Some s) = []) as E.
  { destruct (comma_list (Some s)) as [|x r] eqn:El; [reflexivity|].
    assert (In x (comma_list (Some s))) as Hx by (rewrite El; left; reflexivity).
    apply In_comma_list in Hx as [Hne (y & <- & Hy)].
    exfalso. apply Hne. unfold trim.
    rewrite (trim_start_blank y) by (apply (split_on_comma_blank s); assumption).
    reflexivity. }
  split; [exact E|].
  intros Hc. unfold passes_collections. rewrite Hc, E.
  destruct (assoc_get _ _); reflexivity.
Qed.

Lemma all_chars_append (p : ascii -> bool) (s t : string) :
  all_chars p (s ++ t) = all_chars p s && all_chars p t.
Proof.
  induction s as [|c s IH]; [reflexivity|].
  change (all_chars p (String c (s ++ t)) = all_chars p (String c s) && all_chars p t).
  simpl. rewrite IH, andb_assoc. reflexivity.
Qed.

Lemma replace_spaces_from_no_space (b : bool) (s : string) :
  all_chars not_space (replace_spaces_from b s) = true.
Proof.
  revert b. induction s as [s IH] using string_length_ind. intros b.
  destruct s as [|c t]; [reflexivity|].
  rewrite replace_spaces_step.
  destruct (space_length (String c t)) as [|k] eqn:E.
  - cbn [all_chars]. unfold not_space at 1.
    rewrite (space_length_head c t E). apply IH. cbn. lia.
  - pose proof (IH _ (length_drop_space _ k E) true) as H.
    destruct b; cbn [hyphen all_chars]; exact H.
Qed.

(** X9.  The path [createTokenPath] builds contains no white space,
    whatever the names of the collection, the mode and the variable. *)
Theorem createTokenPath_no_space (variable : FigmaVariable)
    (collection : Collection) (mode : Mode) :
  all_chars not_space (createTokenPath variable collection mode) = true.
Proof.
  unfold createTokenPath, replace_spaces.
  rewrite !all_chars_append, !replace_spaces_from_no_space.
  destruct (pathCategory (var_name variable)); reflexivity.
Qed.

End CommaLists.

Lemma comma_list_names_witness :
  "Brand" <> "" /\ Str.trim "Brand" = "Brand" /\ Str.count "," "Brand" = 0%nat.
Proof.
  refine (comma_list_names " Brand , ,Marketing" "Brand" _).
  vm_compute. left. reflexivity.
Defined.

Lemma comma_list_blank_witness : comma_list (Some " , ,, ") = [].
Proof.
  refine (proj1 (comma_list_blank " , ,, " all_collections brand_meta
                   ("VariableID:1:2", space_lg) _)).
  reflexivity.
Defined.

(** A run that succeeds: one request, the directory made, one write. *)
Example FigmaSync_main_online :
  exists content,
    @FigmaSync_main example_runtime brand_env online_world
    = ([HttpGet "https://api.figma.com/v1/files/FILEKEY/variables/local"
          "figd_token";
        MkDir "../tokens";
        WriteFile "../tokens/figma-tokens.json" content],
       Exit 0)
    /\ get_path content ["spacing"; "brand"; "light"; "space-lg"]
       = Some (JNum 8).
Proof. eexists. split; vm_compute; reflexivity. Qed.

(** ** Renderer: the generators *)

Section GeneratorFacts.
Context {rt : JSRuntime}.
#[local] Arguments String.append !_ _ / : simpl nomatch.

Lemma forEach_lines (line : string * jsval -> result string) (entries : obj)
    (init : string) :
  forEach (fun output entry => let* l := line entry in Ok (output ++ l))
    entries init
  = let* ls := lines_of line entries in Ok (init ++ join ls).
Proof.
  revert init. induction entries as [|e r IH]; intros init.
  - cbn [forEach lines_of bind join]. f_equal.
    induction init as [|c s IHs]; [reflexivity|]. cbn. rewrite <- IHs. reflexivity.
  - cbn [forEach lines_of]. destruct (line e) as [l| |]; cbn [bind]; try reflexivity.
    rewrite IH. destruct (lines_of line r) as [ls| |]; cbn [bind join];
      try reflexivity.
    rewrite append_assoc. reflexivity.
Qed.











Lemma nothing_to_render_entries (tokens : obj) (category : string) :
  nothing_to_render tokens category -> category_entries tokens category = [].
Proof.
  unfold nothing_to_render, category_entries.
  destruct (obj_get tokens category) as [[| | | | |[|]|[|]]|];
    intros H; try reflexivity; contradiction.
Qed.

(** X11.  A category with nothing to iterate over (it is missing, or it
    holds [null], a boolean, a number, the empty string or an object
    without properties) is not an error: each generator returns its header
    followed by the closing brace, a declaration block with no entries.
    (A string that is not empty is iterated character by character and is
    not such a category.) *)
Theorem empty_category_renders (tokens : obj) (timestamp : string) :
  (nothing_to_render tokens "color" ->
   generateColors tokens timestamp
   = Ok (colors_header timestamp ++ "}" ++ Str.nl))
  /\ (nothing_to_render tokens "typography" ->
      generateTypography tokens timestamp
      = Ok (typography_header timestamp ++ "}" ++ Str.nl))
  /\ (nothing_to_render tokens "spacing" ->
      generateSpacing tokens timestamp
      = Ok (spacing_header timestamp ++ "}" ++ Str.nl))
  /\ (nothing_to_render tokens "borderRadius" ->
      generateBorderRadius tokens timestamp
      = Ok (borderRadius_header timestamp ++ "}" ++ Str.nl))
  /\ (nothing_to_render tokens "shadow" ->
      generateShadows tokens timestamp
      = Ok (shadows_header timestamp ++ "}" ++ Str.nl)).
Proof.
  repeat split; intros H; apply nothing_to_render_entries in H;
    [unfold generateColors | unfold generateTypography | unfold generateSpacing
    | unfold generateBorderRadius | unfold generateShadows];
    rewrite H; reflexivity.
Qed.

End GeneratorFacts.


Lemma empty_category_renders_witness :
  @generateShadows example_runtime scenario_store "2025-10-19T13:06:59.013Z"
  = Ok (@shadows_header "2025-10-19T13:06:59.013Z" ++ "}" ++ Str.nl).
Proof.
  refine (proj2 (proj2 (proj2 (proj2
            (@empty_category_renders example_runtime scenario_store
               "2025-10-19T13:06:59.013Z")))) _).
  exact I.
Defined.

(** ** Renderer: the scripts *)

Section ScriptFacts.
Context {rt : JSRuntime}.

Ltac run_script :=
  unfold pbind, lift, uncaught, ret, emit, process_exit, leave_model,
    write_files, pbind, emit, ret; cbn.

(** X12.  The renderer scripts write either all five files, in the order
    Colors, Typography, Spacing, BorderRadius, Shadows, or none of them:
    every generator has run before the first file is written.  A run that
    ends with status 0 has written the five files; without a token file
    the script prints one line and ends with status 1. *)
Theorem renderer_writes_all_or_nothing (w : RenderWorld) :
  (written_paths (fst (PluginSync_main w)) = []
   \/ written_paths (fst (PluginSync_main w)) = generated_files)
  /\ (snd (PluginSync_main w) = Exit 0 ->
      written_paths (fst (PluginSync_main w)) = generated_files)
  /\ (written_paths (fst (Swift_main w)) = []
      \/ written_paths (fst (Swift_main w)) = generated_files)
  /\ (snd (Swift_main w) = Exit 0 <->
      written_paths (fst (Swift_main w)) = generated_files)
  /\ (tokens_file w = None ->
      PluginSync_main w
      = ([ConsoleError
            "❌ No tokens file found. Make sure the Figma plugin has exported tokens."],
         Exit 1)
      /\ Swift_main w
         = ([ConsoleError "❌ No tokens file found. Run sync-file first."],
            Exit 1)).
Proof.
  assert (written_paths (fst (PluginSync_main w)) = []
          \/ (written_paths (fst (PluginSync_main w)) = generated_files)) as HP.
  { unfold PluginSync_main, PluginSync_loadTokens, PluginSync_generateAll.
    destruct (tokens_file w) as [[message|v]|]; [left; reflexivity| |left; reflexivity].
    destruct (output_dir_exists w); run_script;
      (destruct (tokens_properties v) as [tokens| |]; run_script;
       [|left; reflexivity|left; reflexivity];
       destruct (generateColors tokens _); run_script;
       [|left; reflexivity|left; reflexivity];
       destruct (generateTypography tokens _); run_script;
       [|left; reflexivity|left; reflexivity];
       destruct (generateSpacing tokens _); run_script;
       [|left; reflexivity|left; reflexivity];
       destruct (generateBorderRadius tokens _); run_script;
       [|left; reflexivity|left; reflexivity];
       destruct (generateShadows tokens _); run_script;
       [|left; reflexivity|left; reflexivity];
       destruct (summary_throws v); right; reflexivity). }
  assert (snd (PluginSync_main w) = Exit 0 ->
          written_paths (fst (PluginSync_main w)) = generated_files) as HP0.
  { unfold PluginSync_main, PluginSync_loadTokens, PluginSync_generateAll.
    destruct (tokens_file w) as [[message|v]|]; [discriminate| |discriminate].
    destruct (output_dir_exists w); run_script;
      (destruct (tokens_properties v) as [tokens| |]; run_script;
       [|discriminate|discriminate];
       destruct (generateColors tokens _); run_script;
       [|discriminate|discriminate];
       destruct (generateTypography tokens _); run_script;
       [|discriminate|discriminate];
       destruct (generateSpacing tokens _); run_script;
       [|discriminate|discriminate];
       destruct (generateBorderRadius tokens _); run_script;
       [|discriminate|discriminate];
       destruct (generateShadows tokens _); run_script;
       [|discriminate|discriminate];
       destruct (summary_throws v); intros; reflexivity). }
  assert ((written_paths (fst (Swift_main w)) = []
           /\ snd (Swift_main w) <> Exit 0)
          \/ (written_paths (fst (Swift_main w)) = generated_files
              /\ snd (Swift_main w) = Exit 0)) as HS.
  { unfold Swift_main, Swift_loadTokens, Swift_generateAll.
    destruct (tokens_file w) as [[message|v]|];
      [left; split; [reflexivity|discriminate]
      | |left; split; [reflexivity|discriminate]].
    destruct (output_dir_exists w); run_script;
      (destruct (tokens_properties v) as [tokens| |]; run_script;
       [|left; split; [reflexivity|discriminate]
        |left; split; [reflexivity|discriminate]];
       destruct (Swift_generateColors tokens _); run_script;
       [|left; split; [reflexivity|discriminate]
        |left; split; [reflexivity|discriminate]];
       destruct (Swift_generateTypography tokens _); run_script;
       [|left; split; [reflexivity|discriminate]
        |left; split; [reflexivity|discriminate]];
       destruct (Swift_generateSpacing tokens _); run_script;
       [|left; split; [reflexivity|discriminate]
        |left; split; [reflexivity|discriminate]];
       destruct (Swift_generateBorderRadius tokens _); run_script;
       [|left; split; [reflexivity|discriminate]
        |left; split; [reflexivity|discriminate]];
       destruct (Swift_generateShadows tokens _); run_script;
       [|left; split; [reflexivity|discriminate]
        |left; split; [reflexivity|discriminate]];
       right; split; reflexivity). }
  split; [exact HP|]. split; [exact HP0|].
  split; [destruct HS as [[H _]|[H _]]; [left|right]; exact H|].
  split.
  - destruct HS as [[H1 H2]|[H1 H2]]; split; intros H; try assumption;
      try contradiction.
    rewrite H1 in H. discriminate.
  - intros Hnone. unfold PluginSync_main, PluginSync_loadTokens, Swift_main,
      Swift_loadTokens. rewrite Hnone. split; reflexivity.
Qed.

End ScriptFacts.

Lemma renderer_writes_all_or_nothing_witness :
  written_paths (fst (@PluginSync_main example_runtime scenario_world))
  = generated_files.
Proof.
  refine (proj1 (proj2 (@renderer_writes_all_or_nothing example_runtime
                          scenario_world)) _).
  reflexivity.
Defined.

(** ** From the plugin's export to the generated files *)

Section PluginToRenderer.
Context {rt : JSRuntime}.

Lemma obj_set_In (o : obj) (k : string) (v : jsval) (n : string) (e : jsval) :
  In (n, e) (obj_set o k v) -> (n = k /\ e = v) \/ In (n, e) o.
Proof.
  induction o as [|[k0 v0] r IH]; simpl.
  - intros [[= <- <-]|[]]. left. split; reflexivity.
  - destruct (String.eqb k0 k) eqn:E.
    + apply String.eqb_eq in E. subst k0.
      intros [[= <- <-]|H]; [left; split; reflexivity|right; right; exact H].
    + intros [H|H]; [right; left; exact H|].
      destruct (IH H) as [H'|H']; [left; exact H'|right; right; exact H'].
Qed.

Lemma obj_get_In (o : obj) (k : string) (v : jsval) :
  obj_get o k = Some v -> In (k, v) o.
Proof.
  induction o as [|[k0 v0] r IH]; simpl; [discriminate|].
  destruct (String.eqb k0 k) eqn:E.
  - apply String.eqb_eq in E. subst k0. intros [= <-]. left. reflexivity.
  - intros H. right. apply IH, H.
Qed.

Lemma fold_left_In_preserves {A B : Type} (P : A -> Prop) (step : A -> B -> A)
    (l : list B) (init : A) :
  P init -> (forall acc x, In x l -> P acc -> P (step acc x)) ->
  P (fold_left step l init).
Proof.
  revert init. induction l as [|x r IH]; simpl; intros init H0 Hstep;
    [exact H0|].
  apply IH.
  - apply Hstep; [left; reflexivity|exact H0].
  - intros acc y Hy. apply Hstep. right. exact Hy.
Qed.

Lemma contents_from_variable (variables : list FigmaVariable) (c : Category)
    (name : string) (entry : jsval) :
  In (name, entry) (contents variables c) ->
  from_variable variables c name entry.
Proof.
  revert c name entry. unfold contents.
  apply (fold_left_In_preserves
           (fun f => forall c name entry,
                In (name, entry) (f c) -> from_variable variables c name entry)).
  - intros c name entry [].
  - intros f variable Hv Hf. unfold variable_contents.
    apply (fold_left_In_preserves
             (fun f => forall c name entry,
                  In (name, entry) (f c) ->
                  from_variable variables c name entry)); [exact Hf|].
    intros g [modeId value] Hm Hg c name entry. unfold mode_contents.
    cbn [snd].
    destruct (is_null (transformVariableValue _ value)) eqn:En; [apply Hg|].
    unfold with_category.
    destruct (Category_eqb _ c) eqn:Ec; [|apply Hg].
    apply Category_eqb_eq in Ec.
    intros Hin. apply obj_set_In in Hin as [[-> ->]|Hin].
    + exists variable, modeId, value. rewrite <- Ec.
      repeat split; try assumption; try reflexivity.
      intros E. rewrite E in En. discriminate.
    + rewrite <- Ec in *. apply Hg, Hin.
Qed.

Lemma determineTokenCategory_color (name type : string) :
  determineTokenCategory name type = color <-> type = "COLOR".
Proof.
  unfold determineTokenCategory.
  destruct (String.eqb type "COLOR") eqn:Ec.
  - apply String.eqb_eq in Ec. tauto.
  - apply String.eqb_neq in Ec.
    destruct (String.eqb type "FLOAT");
      [|destruct (String.eqb type "STRING")];
      repeat match goal with |- context [if ?b then _ else _] => destruct b end;
      split; intros; try discriminate; contradiction.
Qed.

Lemma determineTokenCategory_typography (name type : string) :
  determineTokenCategory name type = typography <-> type = "STRING".
Proof.
  unfold determineTokenCategory.
  destruct (String.eqb type "COLOR") eqn:Ec.
  - apply String.eqb_eq in Ec. subst. split; discriminate.
  - destruct (String.eqb type "FLOAT") eqn:Ef.
    + apply String.eqb_eq in Ef. subst.
      repeat match goal with |- context [if ?b then _ else _] => destruct b end;
        split; discriminate.
    + destruct (String.eqb type "STRING") eqn:Es.
      * apply String.eqb_eq in Es.
        repeat match goal with |- context [if ?b then _ else _] => destruct b end;
          tauto.
      * apply String.eqb_neq in Es. split; [discriminate|contradiction].
Qed.

Lemma determineTokenCategory_not_shadow (name type : string) :
  determineTokenCategory name type <> shadow.
Proof.
  unfold determineTokenCategory.
  repeat match goal with |- context [if ?b then _ else _] => destruct b end;
    discriminate.
Qed.

(** X13.  Every token of the plugin's store comes from a variable: it is
    the entry built for one mode of one input variable with that category
    and that sanitized name.  So its [type] field is its category, a token
    is in [color] exactly when its variable is a COLOR, in [typography]
    exactly when it is a STRING, and no token is ever in [shadow]. *)
Theorem plugin_token_provenance (variables : list FigmaVariable) (c : Category)
    (name : string) (entry : jsval) :
  token_lookup (transformVariablesToTokens variables) (category_name c) name
  = Some entry ->
  exists variable modeId value,
    In variable variables
    /\ In (modeId, value) (var_valuesByMode variable)
    /\ sanitizeVariableName (var_name variable) = name
    /\ determineTokenCategory (var_name variable) (var_resolvedType variable) = c
    /\ entry = token_entry c variable
                 (transformVariableValue (var_resolvedType variable) value)
    /\ (c = color <-> var_resolvedType variable = "COLOR")
    /\ (c = typography <-> var_resolvedType variable = "STRING")
    /\ c <> shadow.
Proof.
  rewrite transformVariablesToTokens_slots, token_lookup_slots.
  intros H. apply obj_get_In, contents_from_variable in H.
  destruct H as (variable & modeId & value & Hv & Hm & Hc & Hn & _ & He).
  exists variable, modeId, value.
  repeat split; try assumption.
  - intros ->. apply determineTokenCategory_color in Hc. exact Hc.
  - intros E. rewrite <- Hc. apply determineTokenCategory_color. exact E.
  - intros ->. apply determineTokenCategory_typography in Hc. exact Hc.
  - intros E. rewrite <- Hc. apply determineTokenCategory_typography. exact E.
  - intros ->. apply (determineTokenCategory_not_shadow _ _ Hc).
Qed.

End PluginToRenderer.

Lemma plugin_token_provenance_witness :
  exists variable,
    In variable [brand_primary; plain_primary; space_lg]
    /\ sanitizeVariableName (var_name variable) = "primary"
    /\ var_resolvedType variable = "COLOR".
Proof.
  destruct (@plugin_token_provenance example_runtime
              [brand_primary; plain_primary; space_lg] color "primary" _
              eq_refl)
    as (variable & _ & _ & Hin & _ & Hname & _ & _ & Hcolor & _).
  exists variable. repeat split; try assumption. apply Hcolor. reflexivity.
Defined.

Section PluginExportRenders.
Context {rt : JSRuntime}.

Lemma In_roundtrip_fields (inner : obj) (k : string) (e' : jsval) :
  In (k, e') (roundtrip_fields inner) ->
  exists e, In (k, e) inner /\ e' = json_roundtrip e.
Proof.
  unfold roundtrip_fields. rewrite filter_In, in_map_iff.
  intros [([k0 e] & [= <- <-] & Hin) _]. exists e. split; [exact Hin|reflexivity].
Qed.

Lemma lines_of_total (line : string * jsval -> result string) (entries : obj) :
  (forall e, In e entries -> exists l, line e = Ok l) ->
  exists ls, lines_of line entries = Ok ls.
Proof.
  induction entries as [|e r IH]; intros H; [exists []; reflexivity|].
  destruct (H e (or_introl eq_refl)) as [l Hl].
  destruct IH as [ls Hls]; [intros x Hx; apply H; right; exact Hx|].
  exists (l :: ls). cbn [lines_of]. rewrite Hl, Hls. reflexivity.
Qed.

Lemma forEach_total (line : string * jsval -> result string) (entries : obj)
    (init : string) :
  (forall e, In e entries -> exists l, line e = Ok l) ->
  exists out,
    forEach (fun output entry => let* l := line entry in Ok (output ++ l))
      entries init = Ok out.
Proof.
  intros H. rewrite forEach_lines.
  destruct (lines_of_total line entries H) as [ls ->]. eexists. reflexivity.
Qed.

Lemma transformVariableValue_defined (type : string) (value : VariableValue) :
  is_undefined (json_roundtrip (transformVariableValue type value)) = false.
Proof.
  unfold transformVariableValue, colorToHex, parseFloat, Boolean.
  destruct (String.eqb type "COLOR"); [|destruct (String.eqb type "FLOAT");
    [|destruct (String.eqb type "STRING");
      [|destruct (String.eqb type "BOOLEAN")]]];
    destruct value as [b|x|s|c|id]; cbn; try reflexivity.
  - destruct (Qltb _ _); reflexivity.
  - destruct (parseFloat_string s); reflexivity.
Qed.

Lemma json_roundtrip_token_entry (c : Category) (variable : FigmaVariable)
    (tv : jsval) :
  is_undefined (json_roundtrip tv) = false ->
  json_roundtrip (token_entry c variable tv)
  = JObj [("value", json_roundtrip tv);
          ("type", JStr (category_name c));
          ("variableId", JStr (var_key variable));
          ("originalName", JStr (var_name variable));
          ("resolvedType", JStr (var_resolvedType variable))].
Proof. intros H. unfold token_entry. cbn. rewrite H. reflexivity. Qed.

Lemma file_tokens_plugin_store (now : string) (f : Category -> obj) :
  file_tokens (plugin_store now (slots f))
  = [("$metadata",
      JObj [("generatedAt", JStr now);
            ("source", JStr "figma-plugin");
            ("method", JStr "variables-api");
            ("note", JStr "Generated from Figma Variables API via plugin")]);
     ("color", JObj (roundtrip_fields (f color)));
     ("typography", JObj (roundtrip_fields (f typography)));
     ("spacing", JObj (roundtrip_fields (f spacing)));
     ("borderRadius", JObj (roundtrip_fields (f borderRadius)));
     ("shadow", JObj (roundtrip_fields (f shadow)));
     ("opacity", JObj (roundtrip_fields (f opacity)))].
Proof. reflexivity. Qed.

(** A token that went through the file is still an object with the value
    the plugin stored, up to the file's spelling of NaN. *)
Lemma exported_entry (variables : list FigmaVariable) (c : Category)
    (k : string) (e' : jsval) :
  In (k, e') (roundtrip_fields (contents variables c)) ->
  exists variable value fields,
    determineTokenCategory (var_name variable) (var_resolvedType variable) = c
    /\ transformVariableValue (var_resolvedType variable) value <> JNull
    /\ e' = JObj fields
    /\ obj_get fields "value"
       = Some (json_roundtrip
                 (transformVariableValue (var_resolvedType variable) value)).
Proof.
  intros H. apply In_roundtrip_fields in H as (e & Hin & ->).
  apply contents_from_variable in Hin
    as (variable & modeId & value & _ & _ & Hc & _ & Hnn & ->).
  exists variable, value. eexists. split; [exact Hc|]. split; [exact Hnn|].
  rewrite json_roundtrip_token_entry by apply transformVariableValue_defined.
  split; reflexivity.
Qed.

Lemma exported_colors_render (variables : list FigmaVariable) (e : string * jsval) :
  In e (roundtrip_fields (contents variables color)) ->
  exists l, color_line e = Ok l.
Proof.
  destruct e as [k e']. intros H.
  apply exported_entry in H as (variable & value & fields & Hc & Hnn & -> & Hv).
  apply determineTokenCategory_color in Hc. rewrite Hc in *.
  unfold color_line. cbn [fst snd token_value]. rewrite Hv. cbn [bind].
  change (transformVariableValue "COLOR" value) with (colorToHex value) in *.
  unfold colorToHex in *.
  destruct value; try contradiction;
    try (destruct (Qltb _ _)); cbn; eexists; reflexivity.
Qed.

Lemma exported_typography_renders (variables : list FigmaVariable)
    (e : string * jsval) :
  In e (roundtrip_fields (contents variables typography)) ->
  exists l, typography_line e = Ok l.
Proof.
  destruct e as [k e']. intros H.
  apply exported_entry in H as (variable & value & fields & Hc & Hnn & -> & Hv).
  apply determineTokenCategory_typography in Hc. rewrite Hc in *.
  unfold typography_line. cbn [fst snd token_value]. rewrite Hv. cbn [bind].
  change (transformVariableValue "STRING" value) with (value_of value).
  destruct value as [b|x|s|[r g b [a|]]|id]; cbn; eexists; reflexivity.
Qed.

(** No value the plugin stores has a property [toString]: each can be
    printed by a template. *)
Lemma exported_value_prints (type : string) (value : VariableValue) :
  exists text,
    template (json_roundtrip (transformVariableValue type value)) = Ok text.
Proof.
  unfold transformVariableValue, colorToHex, parseFloat, Boolean.
  destruct (String.eqb type "COLOR"); [|destruct (String.eqb type "FLOAT");
    [|destruct (String.eqb type "STRING");
      [|destruct (String.eqb type "BOOLEAN")]]];
    destruct value as [b|x|s|[r g b [a|]]|id]; cbn;
    try (destruct (Qltb _ _)); try (destruct (parseFloat_string s));
    eexists; reflexivity.
Qed.

Lemma exported_numbers_render (variables : list FigmaVariable) (c : Category)
    (e : string * jsval) :
  In e (roundtrip_fields (contents variables c)) ->
  exists l, spacing_line e = Ok l.
Proof.
  destruct e as [k e']. intros H.
  apply exported_entry in H as (variable & value & fields & _ & _ & -> & Hv).
  unfold spacing_line. cbn [fst snd token_value]. rewrite Hv. cbn [bind].
  destruct (exported_value_prints (var_resolvedType variable) value)
    as [text ->].
  eexists. reflexivity.
Qed.

Lemma exported_shadows_empty (variables : list FigmaVariable) :
  roundtrip_fields (contents variables shadow) = [].
Proof.
  destruct (roundtrip_fields (contents variables shadow)) as [|[k e'] r] eqn:E;
    [reflexivity|].
  assert (In (k, e') (roundtrip_fields (contents variables shadow))) as H
    by (rewrite E; left; reflexivity).
  apply exported_entry in H as (variable & value & fields & Hc & _).
  destruct (determineTokenCategory_not_shadow _ _ Hc).
Qed.

Lemma PluginSync_generateAll_ok (w : RenderWorld) (v : jsval) (tokens : obj)
    (colors fonts gaps radii shadows : string) (t : list Event) :
  tokens_properties v = Ok tokens ->
  generateColors tokens (render_clock w 0) = Ok colors ->
  generateTypography tokens (render_clock w 1) = Ok fonts ->
  generateSpacing tokens (render_clock w 2) = Ok gaps ->
  generateBorderRadius tokens (render_clock w 3) = Ok radii ->
  generateShadows tokens (render_clock w 4) = Ok shadows ->
  summary_throws v = false ->
  PluginSync_generateAll w v t
  = ((t ++ (if output_dir_exists w then [] else [MkDir OUTPUT_DIR])
        ++ [WriteFile "../DesignSystem/Tokens/Colors.swift" (JStr colors);
            WriteFile "../DesignSystem/Tokens/Typography.swift" (JStr fonts);
            WriteFile "../DesignSystem/Tokens/Spacing.swift" (JStr gaps);
            WriteFile "../DesignSystem/Tokens/BorderRadius.swift" (JStr radii);
            WriteFile "../DesignSystem/Tokens/Shadows.swift" (JStr shadows)])%list,
     inl tt).
Proof.
  intros Htokens Hc Hf Hg Hr Hs Hsum. unfold PluginSync_generateAll.
  rewrite Htokens, Hsum.
  unfold pbind, lift, ret, emit, write_files.
  cbn -[generateColors generateTypography generateSpacing generateBorderRadius
        generateShadows].
  destruct (output_dir_exists w);
    cbn -[generateColors generateTypography generateSpacing generateBorderRadius
          generateShadows];
    rewrite Hc, Hf, Hg, Hr, Hs; cbn; rewrite <- ?app_assoc; cbn;
    try rewrite app_nil_r; reflexivity.
Qed.

(** X14.  Whatever the variables, the renderer accepts the plugin's export:
    run on the file the plugin uploaded, [sync-plugin.js] writes the five
    files and ends with status 0, and the shadows file declares no shadow. *)
Theorem plugin_export_renders (now : string) (variables : list FigmaVariable)
    (dir_exists : bool) (clock : nat -> string) :
  snd (PluginSync_main (exported_world now variables dir_exists clock)) = Exit 0
  /\ written_paths
       (fst (PluginSync_main (exported_world now variables dir_exists clock)))
     = generated_files
  /\ In (WriteFile "../DesignSystem/Tokens/Shadows.swift"
           (JStr (shadows_header (clock 4) ++ "}" ++ Str.nl)))
       (fst (PluginSync_main (exported_world now variables dir_exists clock))).
Proof.
  set (store := plugin_store now (slots (contents variables))).
  destruct (forEach_total color_line
              (category_entries (file_tokens store) "color")
              (colors_header (clock 0)) (exported_colors_render variables))
    as [colors Hcolors].
  destruct (forEach_total typography_line
              (category_entries (file_tokens store) "typography")
              (typography_header (clock 1))
              (exported_typography_renders variables))
    as [fonts Hfonts].
  destruct (forEach_total spacing_line
              (category_entries (file_tokens store) "spacing")
              (spacing_header (clock 2))
              (exported_numbers_render variables spacing))
    as [gaps Hgaps].
  destruct (forEach_total spacing_line
              (category_entries (file_tokens store) "borderRadius")
              (borderRadius_header (clock 3))
              (exported_numbers_render variables borderRadius))
    as [radii Hradii].
  assert (generateShadows (file_tokens store) (clock 4)
          = Ok (shadows_header (clock 4) ++ "}" ++ Str.nl)) as Hshadows.
  { unfold generateShadows.
    change (category_entries (file_tokens store) "shadow")
      with (roundtrip_fields (contents variables shadow)).
    rewrite exported_shadows_empty. reflexivity. }
  assert (PluginSync_main (exported_world now variables dir_exists clock)
          = (((if dir_exists then [] else [MkDir OUTPUT_DIR])
                ++ [WriteFile "../DesignSystem/Tokens/Colors.swift"
                      (JStr (colors ++ "}" ++ Str.nl));
                    WriteFile "../DesignSystem/Tokens/Typography.swift"
                      (JStr (fonts ++ "}" ++ Str.nl));
                    WriteFile "../DesignSystem/Tokens/Spacing.swift"
                      (JStr (gaps ++ "}" ++ Str.nl));
                    WriteFile "../DesignSystem/Tokens/BorderRadius.swift"
                      (JStr (radii ++ "}" ++ Str.nl));
                    WriteFile "../DesignSystem/Tokens/Shadows.swift"
                      (JStr (shadows_header (clock 4) ++ "}" ++ Str.nl))])%list,
             Exit 0)) as E.
  { unfold PluginSync_main, PluginSync_loadTokens, exported_world.
    cbn [tokens_file]. rewrite transformVariablesToTokens_slots.
    fold store. unfold pbind at 1. unfold ret at 1.
    rewrite (PluginSync_generateAll_ok _ (json_roundtrip (JObj store))
               (file_tokens store) (colors ++ "}" ++ Str.nl)
               (fonts ++ "}" ++ Str.nl) (gaps ++ "}" ++ Str.nl)
               (radii ++ "}" ++ Str.nl)
               (shadows_header (clock 4) ++ "}" ++ Str.nl)).
    - reflexivity.
    - reflexivity.
    - unfold generateColors. cbn [render_clock]. rewrite Hcolors. reflexivity.
    - unfold generateTypography. cbn [render_clock]. rewrite Hfonts. reflexivity.
    - unfold generateSpacing. cbn [render_clock]. rewrite Hgaps. reflexivity.
    - unfold generateBorderRadius. cbn [render_clock]. rewrite Hradii.
      reflexivity.
    - exact Hshadows.
    - reflexivity. }
  rewrite E. destruct dir_exists; cbn; repeat split; auto 10.
Qed.

End PluginExportRenders.

(** ** From the Variables-API store to the renderer *)

Section ApiToRenderer.
Context {rt : JSRuntime}.

Lemma forallb_obj_get (P : string * jsval -> bool) (o : obj) (k : string)
    (v : jsval) :
  forallb P o = true -> obj_get o k = Some v -> P (k, v) = true.
Proof.
  induction o as [|[k0 v0] r IH]; simpl; [discriminate|].
  intros [H0 Hr]%andb_prop. destruct (String.eqb k0 k) eqn:E.
  - apply String.eqb_eq in E. subst k0. intros [= <-]. exact H0.
  - apply IH, Hr.
Qed.

Lemma setNested_keeps_nesting (inner : obj) (k1 k2 k3 : string)
    (rest : list string) (value r : jsval) :
  nested_twice inner = true ->
  setNested (JObj inner) (k1 :: k2 :: k3 :: rest) value = Ok r ->
  exists inner', r = JObj inner' /\ nested_twice inner' = true.
Proof.
  intros Hinv. rewrite setNested_deeper.
  assert (forall m,
            forallb (fun kv' => is_object (snd kv')) m = true ->
            (let* child' := setNested (JObj m) (k2 :: k3 :: rest) value in
             Ok (JObj (obj_set inner k1 child'))) = Ok r ->
            exists inner', r = JObj inner' /\ nested_twice inner' = true)
    as Hlevel.
  { intros m Hm. rewrite setNested_deeper.
    assert (forall c2,
              is_object c2 = true ->
              (let* child' :=
                 (let* leaf := setNested c2 (k3 :: rest) value in
                  Ok (JObj (obj_set m k2 leaf))) in
               Ok (JObj (obj_set inner k1 child'))) = Ok r ->
              exists inner', r = JObj inner' /\ nested_twice inner' = true)
      as Hmode.
    { intros c2 Hc2. destruct c2 as [| | | | | |fields2]; try discriminate.
      destruct (setNested (JObj fields2) (k3 :: rest) value) as [leaf| |] eqn:E;
        cbn [bind]; try discriminate.
      intros [= <-]. eexists. split; [reflexivity|].
      apply setNested_object in E.
      unfold nested_twice. apply obj_set_forallb; [|exact Hinv].
      intros k'. cbn [snd]. apply obj_set_forallb; [|exact Hm].
      intros k''. exact E. }
    destruct (obj_get m k2) as [c2|] eqn:E2.
    - pose proof (forallb_obj_get _ _ _ _ Hm E2) as Hc2. cbn [snd] in Hc2.
      destruct c2; try discriminate. cbn [truthy]. apply Hmode. reflexivity.
    - destruct (inherited_key k2); [discriminate|]. apply Hmode. reflexivity. }
  destruct (obj_get inner k1) as [c1|] eqn:E1.
  - pose proof (forallb_obj_get _ _ _ _ Hinv E1) as Hc1. cbn [snd] in Hc1.
    destruct c1; try discriminate. cbn [truthy]. apply Hlevel, Hc1.
  - destruct (inherited_key k1); [discriminate|]. apply Hlevel. reflexivity.
Qed.

Lemma with_category_nested (f : Category -> obj) (c : Category) (inner : obj) :
  (forall c', nested_twice (f c') = true) ->
  nested_twice inner = true ->
  forall c', nested_twice (with_category f c inner c') = true.
Proof.
  intros Hf Hinner c'. unfold with_category.
  destruct (Category_eqb c c'); [exact Hinner|apply Hf].
Qed.

(** Whenever the transform returns, every category nests its tokens under
    two levels of objects at least. *)
Lemma transformToStyleDictionary_nested (this : FigmaSync) (meta : Meta)
    (values : list (string * FigmaVariable)) (tokens : obj) :
  transformToStyleDictionary this meta values = Ok tokens ->
  exists f, tokens = slots f /\ forall c, nested_twice (f c) = true.
Proof.
  unfold transformToStyleDictionary.
  apply (forEach_preserves
           (fun tokens => exists f, tokens = slots f
                                    /\ forall c, nested_twice (f c) = true)).
  - exists (fun _ => []). split; [reflexivity|]. intros c. reflexivity.
  - intros s [id variable] s' Hs. unfold api_process_variable. simpl.
    destruct (assoc_get _ _) as [collection|];
      [|destruct (inherited_key _); discriminate].
    destruct (_ && _); [intros [= <-]; exact Hs|].
    apply (forEach_preserves
             (fun tokens => exists f, tokens = slots f
                                      /\ forall c, nested_twice (f c) = true));
      [exact Hs|].
    clear Hs. intros t entry t' (f & -> & Hf). unfold api_process_mode.
    destruct (assoc_get _ _) as [mode|];
      [|destruct (inherited_key _); discriminate].
    destruct (_ && _); [intros [= <-]; exists f; split; [reflexivity|exact Hf]|].
    destruct (String.eqb _ "");
      [intros [= <-]; exists f; split; [reflexivity|exact Hf]|].
    destruct (is_null _);
      [intros [= <-]; exists f; split; [reflexivity|exact Hf]|].
    destruct (createTokenPath_split variable collection mode)
      as ([|k1 [|k2 [|k3 rest]]] & Hsplit & Hlen); try (simpl in Hlen; lia).
    unfold setNestedValue. rewrite Hsplit.
    rewrite setNested_deeper, obj_get_slots. cbn [truthy].
    destruct (setNested (JObj (f _)) (k1 :: k2 :: k3 :: rest) _)
      as [r| |] eqn:E; cbn [bind]; try discriminate.
    destruct (setNested_keeps_nesting _ _ _ _ _ _ _ (Hf _) E)
      as (inner' & -> & Hinner').
    rewrite obj_set_slots. intros [= <-].
    eexists. split; [reflexivity|].
    apply with_category_nested; assumption.
Qed.

Lemma nested_color_line_throws (k : string) (m : obj) :
  forallb (fun kv' => is_object (snd kv')) m = true ->
  exists message, color_line (k, json_roundtrip (JObj m)) = Throw message.
Proof.
  intros Hm. unfold color_line. cbn [fst snd json_roundtrip token_value].
  fold (roundtrip_fields m).
  destruct (obj_get (roundtrip_fields m) "value") as [x|] eqn:E.
  - apply obj_get_In, In_roundtrip_fields in E as (e & Hin & ->).
    assert (is_object e = true) as He.
    { rewrite forallb_forall in Hm. apply (Hm ("value", e) Hin). }
    destruct e; try discriminate. cbn. eexists. reflexivity.
  - cbn. eexists. reflexivity.
Qed.

(** X15.  The renderer cannot read the store of the Variables-API adapter:
    as soon as that store holds one colour, [generateColors] throws on the
    written file, and [sync-plugin.js] ends with status 1 without writing
    a file. *)
Theorem synced_store_does_not_render (this : FigmaSync) (meta : Meta)
    (values : list (string * FigmaVariable)) (tokens : obj) (now : string)
    (dir_exists : bool) (clock : nat -> string) :
  transformToStyleDictionary this meta values = Ok tokens ->
  category_entries tokens "color" <> [] ->
  (exists message,
     generateColors (file_tokens (api_store now tokens)) (clock 0)
     = Throw message)
  /\ snd (PluginSync_main (synced_world now tokens dir_exists clock)) = Exit 1
  /\ written_paths (fst (PluginSync_main (synced_world now tokens dir_exists clock)))
     = [].
Proof.
  intros Hrun Hcolor.
  destruct (transformToStyleDictionary_nested _ _ _ _ Hrun) as (f & -> & Hf).
  change (category_entries (slots f) "color") with (f color) in Hcolor.
  assert (exists message,
            generateColors (file_tokens (api_store now (slots f))) (clock 0)
            = Throw message) as [message Hthrow].
  { unfold generateColors.
    change (category_entries (file_tokens (api_store now (slots f))) "color")
      with (roundtrip_fields (f color)).
    specialize (Hf color). destruct (f color) as [|[k e] r]; [contradiction|].
    unfold nested_twice in Hf. cbn [forallb snd] in Hf.
    apply andb_prop in Hf as [He _]. destruct e as [| | | | | |m]; try discriminate.
    destruct (nested_color_line_throws k m He) as [message Hline].
    exists message. unfold roundtrip_fields. cbn [List.map List.filter fst snd].
    change (is_undefined (json_roundtrip (JObj m))) with false. cbn [negb].
    cbn [forEach]. rewrite Hline. reflexivity. }
  split; [exists message; exact Hthrow|].
  unfold PluginSync_main, PluginSync_loadTokens, PluginSync_generateAll,
    synced_world.
  cbn [tokens_file output_dir_exists render_clock].
  change (json_roundtrip (JObj (api_store now (slots f))))
    with (JObj (file_tokens (api_store now (slots f)))).
  unfold pbind, lift, ret, emit, uncaught, process_exit.
  cbn -[generateColors file_tokens api_store].
  destruct dir_exists; cbn -[generateColors file_tokens api_store];
    rewrite Hthrow; cbn; split; reflexivity.
Qed.

End ApiToRenderer.

Lemma synced_store_does_not_render_witness :
  snd (@PluginSync_main example_runtime
         (synced_world "2025-10-19T13:06:59.013Z"
            (slots (with_category (fun _ => []) color
                      [("brand",
                        JObj [("light",
                               JObj [("surface-color", JStr "#ffffff")])])]))
            true (fun _ => "2025-10-19T13:07:00.000Z")))
  = Exit 1.
Proof.
  refine (proj1 (proj2 (@synced_store_does_not_render example_runtime
                          all_collections brand_meta
                          [("VariableID:1:3", surface_color)] _
                          "2025-10-19T13:06:59.013Z" true
                          (fun _ => "2025-10-19T13:07:00.000Z") _ _))).
  - vm_compute. reflexivity.
  - discriminate.
Defined.

(** ** From the file-content adapter to the generated files *)

Section FileToRenderer.
Context {rt : JSRuntime}.
#[local] Arguments String.append !_ _ / : simpl nomatch.

(** X16.  Whatever the Figma file contains, the spacing, typography and
    border-radius files that [SwiftTokenGenerator] generates from the store
    of [FigmaFileSync] are the same fixed texts; for spacing and typography
    they are the files kept in the repository, up to the time stamp. *)
Theorem file_sync_renders_defaults (fileData : FileData) (now timestamp : string) :
  let tokens := file_tokens (file_store now (extractTokensFromFile fileData)) in
  Swift_generateSpacing tokens timestamp
  = Ok (banner "Spacing.swift" "Style Dictionary" timestamp
          ++ Spacing_swift_body)
  /\ Swift_generateTypography tokens timestamp
     = Ok (banner "Typography.swift" "Style Dictionary" timestamp
             ++ Typography_swift_body)
  /\ Swift_generateBorderRadius tokens timestamp
     = Ok (banner "BorderRadius.swift" "Style Dictionary" timestamp
             ++ BorderRadius_swift_body).
Proof.
  unfold extractTokensFromFile.
  set (colors := if Nat.eqb _ 0 then default_colors else _).
  cbv zeta.
  unfold Swift_generateSpacing, Swift_generateTypography,
    Swift_generateBorderRadius.
  rewrite !forEach_lines.
  repeat match goal with
         | |- context [lines_of ?line ?entries] =>
             let r := eval vm_compute in (lines_of line entries) in
             change (lines_of line entries) with r
         end.
  repeat split; cbn -[banner]; rewrite !append_assoc; reflexivity.
Qed.

(** X17.  A translucent colour does not reach the colour file as a colour:
    the plugin stores it as [rgba(...)], and the renderer, which puts [#]
    before any value that does not start with one, declares it as
    [Color(hex: "#rgba(...)")]. *)
Theorem translucent_colour_line (c : RGBA) (a : Q) (name : string)
    (variable : FigmaVariable) :
  alpha c = Some a ->
  (a < 1)%Q ->
  exists body,
    transformVariableValue "COLOR" (ColorValue c) = JStr ("rgba(" ++ body)
    /\ color_line
         (name,
          json_roundtrip
            (token_entry color variable
               (transformVariableValue "COLOR" (ColorValue c))))
       = Ok ("    static let " ++ toSwiftName name ++ " = Color(hex: "
               ++ Str.dq ++ "#rgba(" ++ body ++ Str.dq ++ ")" ++ Str.nl).
Proof.
  intros Ha Hlt.
  change (transformVariableValue "COLOR" (ColorValue c))
    with (colorToHex (ColorValue c)).
  unfold colorToHex. rewrite Ha. apply Qltb_lt in Hlt. rewrite Hlt.
  eexists. split; [reflexivity|]. reflexivity.
Qed.

End FileToRenderer.

Lemma translucent_colour_line_witness :
  @color_line
    ("overlay",
     json_roundtrip
       (token_entry color plain_primary
          (@transformVariableValue example_runtime "COLOR"
             (ColorValue (mkRGBA 0 0 0 (Some (1 # 2)))))))
  = Ok ("    static let overlay = Color(hex: " ++ Str.dq
          ++ "#rgba(0, 0, 0, 0.5)" ++ Str.dq ++ ")" ++ Str.nl).
Proof.
  destruct (@translucent_colour_line example_runtime
              (mkRGBA 0 0 0 (Some (1 # 2))) (1 # 2) "overlay" plain_primary
              eq_refl eq_refl) as (body & Hbody & Hline).
  vm_compute in Hbody. injection Hbody as Hb. subst body. exact Hline.
Defined.

(** ** The enhanced file-content adapter *)

Section EnhancedFacts.
Context {rt : JSRuntime}.
#[local] Arguments Str.includes : simpl never.

Lemma includes_empty (s : string) : Str.includes "" s = true.
Proof. destruct s; reflexivity. Qed.

Lemma startsWith_refl (s : string) : Str.startsWith s s = true.
Proof.
  induction s as [|c t IH]; simpl; [reflexivity|].
  rewrite Ascii.eqb_refl. exact IH.
Qed.

Lemma includes_refl (s : string) : Str.includes s s = true.
Proof.
  destruct s as [|c t]; [reflexivity|].
  unfold Str.includes. fold Str.includes.
  rewrite startsWith_refl. reflexivity.
Qed.

Lemma assoc_get_In {A : Type} (l : list (string * A)) (k : string) (v : A) :
  assoc_get l k = Some v -> In (k, v) l.
Proof.
  induction l as [|[k0 v0] r IH]; simpl; [discriminate|].
  destruct (String.eqb k0 k) eqn:E.
  - apply String.eqb_eq in E. subst k0. intros [= <-]. left. reflexivity.
  - intros H. right. apply IH, H.
Qed.

Lemma first_partial_match_None (n : string) (m : ColorMap) :
  first_partial_match n m = None
  <-> forall key value, In (key, value) m ->
        Str.includes key n = false /\ Str.includes n key = false.
Proof.
  induction m as [|[k v] r IH]; simpl.
  - split; [intros _ key value []|reflexivity].
  - destruct (Str.includes k n || Str.includes n k) eqn:E.
    + split; [discriminate|].
      intros H. destruct (H k v (or_introl eq_refl)) as [H1 H2].
      rewrite H1, H2 in E. discriminate.
    + apply orb_false_elim in E. rewrite IH. split.
      * intros H key value [[= <- <-]|Hin]; [exact E|apply (H _ _ Hin)].
      * intros H key value Hin. apply (H key value). right. exact Hin.
Qed.

Lemma first_partial_match_Some (n : string) (m : ColorMap) (v : string) :
  first_partial_match n m = Some v ->
  exists key, In (key, v) m
              /\ (Str.includes key n = true \/ Str.includes n key = true).
Proof.
  induction m as [|[k v0] r IH]; simpl; [discriminate|].
  destruct (Str.includes k n || Str.includes n k) eqn:E.
  - intros [= <-]. exists k. split; [left; reflexivity|].
    apply orb_prop in E. exact E.
  - intros H. destruct (IH H) as (key & Hin & Hk).
    exists key. split; [right; exact Hin|exact Hk].
Qed.

(** X18.  [findMatchingColor] finds no colour exactly when no key of the
    map contains the normalised style name or is contained in it; a colour
    it returns is stored under such a key.  A style name without a letter
    or a digit is contained in every key, so it takes a colour from every
    map that is not empty: the one stored under the empty key if there is
    one, the first of the map otherwise. *)
Theorem findMatchingColor_matches (styleName : string) (colorMap : ColorMap) :
  (findMatchingColor styleName colorMap = None
   <-> forall key value, In (key, value) colorMap ->
         Str.includes key (normalize styleName) = false
         /\ Str.includes (normalize styleName) key = false)
  /\ (forall value,
        findMatchingColor styleName colorMap = Some value ->
        exists key,
          In (key, value) colorMap
          /\ (Str.includes key (normalize styleName) = true
              \/ Str.includes (normalize styleName) key = true))
  /\ (normalize styleName = "" ->
      forall key value rest,
        colorMap = (key, value) :: rest ->
        findMatchingColor styleName colorMap
        = Some match assoc_get colorMap "" with
               | Some exact => exact
               | None => value
               end).
Proof.
  unfold findMatchingColor. cbv zeta. split; [split|split].
  - destruct (assoc_get colorMap (normalize styleName)) as [v|] eqn:E;
      [discriminate|].
    intros H. apply first_partial_match_None, H.
  - destruct (assoc_get colorMap (normalize styleName)) as [v|] eqn:E.
    + intros H. apply assoc_get_In in E.
      destruct (H _ _ E) as [H1 _]. rewrite includes_refl in H1. discriminate.
    + apply first_partial_match_None.
  - intros value.
    destruct (assoc_get colorMap (normalize styleName)) as [v|] eqn:E.
    + intros [= <-]. exists (normalize styleName).
      split; [apply assoc_get_In, E|left; apply includes_refl].
    + apply first_partial_match_Some.
  - intros Hn key value rest ->. rewrite Hn.
    destruct (assoc_get ((key, value) :: rest) "") as [v|]; [reflexivity|].
    simpl. rewrite includes_empty, orb_true_r. reflexivity.
Qed.

Lemma fold_left_id {A B : Type} (step : A -> B -> A) (l : list B) (a : A) :
  (forall a x, step a x = a) -> fold_left step l a = a.
Proof.
  intros H. induction l as [|x r IH]; simpl; [reflexivity|].
  rewrite H. exact IH.
Qed.

Lemma fold_left_map_ext {A B C : Type} (f : A -> B -> A) (g : A -> C -> A)
    (h : C -> B)
    (l : list C) (a : A) :
  (forall a x, f a (h x) = g a x) ->
  fold_left f (map h l) a = fold_left g l a.
Proof.
  intros H. revert a. induction l as [|x r IH]; simpl; intros a;
    [reflexivity|].
  rewrite H. apply IH.
Qed.

Lemma extractColorsFromNode_deep (node : Node) (colorMap : ColorMap)
    (depth : nat) :
  (3 < depth)%nat -> extractColorsFromNode node colorMap depth = colorMap.
Proof.
  intros H. destruct node. simpl.
  apply Nat.ltb_lt in H. rewrite H. reflexivity.
Qed.

Lemma extractColorsFromNode_prune (n depth : nat) :
  (depth + n = 3)%nat ->
  forall node colorMap,
    extractColorsFromNode (prune n node) colorMap depth
    = extractColorsFromNode node colorMap depth.
Proof.
  revert depth. induction n as [|n IH]; intros depth Hd node colorMap;
    destruct node as [name fills children]; simpl.
  - destruct (3 <? depth)%nat; [reflexivity|].
    destruct children as [children|]; [|reflexivity].
    symmetry. apply fold_left_id.
    intros a x. apply extractColorsFromNode_deep. lia.
  - destruct (3 <? depth)%nat; [reflexivity|].
    destruct children as [children|]; [|reflexivity].
    simpl. apply fold_left_map_ext.
    intros a x. apply IH. lia.
Qed.

(** X19.  Only the document, its children, their children and the children
    of those are searched for colours: the map collected from a document is
    the one collected from the document cut off three levels below its
    root, and a call at a depth above 3 leaves the map as it is. *)
Theorem extractColorsFromNode_depth_limit (node : Node) (colorMap : ColorMap) :
  extractColorsFromNode node colorMap 0
  = extractColorsFromNode (prune 3 node) colorMap 0
  /\ (forall depth, (3 < depth)%nat ->
        extractColorsFromNode node colorMap depth = colorMap).
Proof.
  split.
  - symmetry. apply extractColorsFromNode_prune. reflexivity.
  - intros depth. apply extractColorsFromNode_deep.
Qed.

Lemma add_colors_get (l : list (string * string)) (colors : obj)
    (name : string) (token : jsval) :
  obj_get
    (fold_left
       (fun colors entry => obj_set colors (fst entry) (color_token (snd entry)))
       l colors) name = Some token ->
  (exists hex, In (name, hex) l /\ token = color_token hex)
  \/ obj_get colors name = Some token.
Proof.
  revert colors. induction l as [|[k hex] r IH]; simpl; intros colors H.
  - right. exact H.
  - destruct (IH _ H) as [(hex' & Hin & ->)|Hget].
    + left. exists hex'. split; [right; exact Hin|reflexivity].
    + destruct (String.eqb k name) eqn:E.
      * apply String.eqb_eq in E. subst k.
        rewrite obj_get_set_eq in Hget. injection Hget as <-.
        left. exists hex. split; [left; reflexivity|reflexivity].
      * apply String.eqb_neq in E.
        rewrite obj_get_set_ne in Hget by exact E. right. exact Hget.
Qed.

Lemma update_color_fst (colorMap : ColorMap) (entry : string * jsval) :
  fst (update_color colorMap entry) = fst entry.
Proof.
  destruct entry as [name token]. unfold update_color.
  destruct token; try reflexivity.
  destruct (obj_get fields "originalName") as [[]|]; try reflexivity.
  destruct (findMatchingColor s colorMap); [|reflexivity].
  destruct (String.eqb s0 ""); reflexivity.
Qed.

Lemma obj_get_map_update (colorMap : ColorMap) (colors : obj) (name : string)
    (token : jsval) :
  obj_get (map (update_color colorMap) colors) name = Some token ->
  exists token0,
    obj_get colors name = Some token0
    /\ update_color colorMap (name, token0) = (name, token).
Proof.
  induction colors as [|[k v] r IH]; [discriminate|].
  change (map (update_color colorMap) ((k, v) :: r))
    with (update_color colorMap (k, v) :: map (update_color colorMap) r).
  pose proof (update_color_fst colorMap (k, v)) as Hk.
  destruct (update_color colorMap (k, v)) as [k' v'] eqn:E.
  simpl in Hk. subst k'. cbn [obj_get].
  destruct (String.eqb k name) eqn:En.
  - apply String.eqb_eq in En. subst k. intros [= Hv]. subst v'.
    exists v. split; [reflexivity|exact E].
  - exact IH.
Qed.

Lemma enhanced_colors_from_styles_get (l : list (string * Style))
    (name : string) (token : jsval) :
  obj_get (enhanced_colors_from_styles [] l) name = Some token ->
  exists styleId style,
    In (styleId, style) l
    /\ styleType style = "FILL"
    /\ sanitizeName_enhanced (style_name style) = name
    /\ token = style_token "#007AFF" styleId (style_name style).
Proof.
  unfold enhanced_colors_from_styles. revert name token.
  apply (fold_left_In_preserves
           (fun colors => forall name token,
              obj_get colors name = Some token ->
              exists styleId style,
                In (styleId, style) l
                /\ styleType style = "FILL"
                /\ sanitizeName_enhanced (style_name style) = name
                /\ token = style_token "#007AFF" styleId (style_name style))).
  - intros name token H. discriminate H.
  - intros colors [styleId style] Hin Hacc name token. simpl.
    destruct (String.eqb (styleType style) "FILL") eqn:Et; [|apply Hacc].
    apply String.eqb_eq in Et.
    destruct (String.eqb (sanitizeName_enhanced (style_name style)) name) eqn:E.
    + apply String.eqb_eq in E. subst name. rewrite obj_get_set_eq.
      intros [= <-]. exists styleId, style. repeat split; assumption.
    + apply String.eqb_neq in E. rewrite obj_get_set_ne by exact E.
      apply Hacc.
Qed.

(** X20.  Where the colours of the enhanced adapter come from.  The eight
    built-in colours are always in the colour category with their fixed
    values, whatever the file holds, so a style whose sanitized name is
    one of theirs is overwritten.  Every other colour token is the token of
    a FILL style of the file, stored under the sanitized style name with
    the style's id and name, and its value is either the colour that
    [findMatchingColor] finds for the style name among the colours of the
    document or, failing that, [#007AFF]. *)
Theorem enhanced_colors_provenance (fileData : EnhancedFileData) :
  (forall name hex,
     In (name, hex) actualColors ->
     obj_get (enhanced_colors fileData) name = Some (color_token hex))
  /\ (forall name token,
        obj_get (enhanced_colors fileData) name = Some token ->
        (exists hex, In (name, hex) actualColors /\ token = color_token hex)
        \/ (exists styles styleId style value,
              enhanced_styles fileData = Some styles
              /\ In (styleId, style) styles
              /\ styleType style = "FILL"
              /\ sanitizeName_enhanced (style_name style) = name
              /\ token = style_token value styleId (style_name style)
              /\ match
                   findMatchingColor (style_name style)
                     (extractColorsFromNode (document fileData) [] 0)
                 with
                 | Some matchingColor =>
                     value = if String.eqb matchingColor "" then "#007AFF"
                             else matchingColor
                 | None => value = "#007AFF"
                 end)).
Proof.
  unfold enhanced_colors. cbv zeta. split.
  - intros name hex Hin. unfold add_actual_colors, actualColors in *.
    simpl fold_left. simpl in Hin.
    repeat (destruct Hin as [[= <- <-]|Hin];
            [repeat (rewrite obj_get_set_ne by discriminate);
             apply obj_get_set_eq|]).
    destruct Hin.
  - intros name token H.
    apply add_colors_get in H as [H|H]; [left; exact H|right].
    apply obj_get_map_update in H as (token0 & Hget & Hup).
    destruct (enhanced_styles fileData) as [styles|]; [|discriminate Hget].
    apply enhanced_colors_from_styles_get in Hget
      as (styleId & style & Hin & Ht & Hn & ->).
    unfold update_color, style_token in Hup.
    cbn [obj_get String.eqb Ascii.eqb Bool.eqb] in Hup.
    destruct (findMatchingColor (style_name style)
                (extractColorsFromNode (document fileData) [] 0))
      as [matchingColor|] eqn:Ef.
    + exists styles, styleId, style,
        (if String.eqb matchingColor "" then "#007AFF" else matchingColor).
      rewrite Ef. repeat split; try assumption.
      destruct (String.eqb matchingColor ""); injection Hup as <-; reflexivity.
    + exists styles, styleId, style, "#007AFF".
      rewrite Ef. repeat split; try assumption.
      injection Hup as <-. reflexivity.
Qed.

End EnhancedFacts.

(** ** The plugin's message handlers *)

Section HandlerFacts.
Context {rt : JSRuntime}.
#[local] Arguments String.append !_ _ / : simpl nomatch.

Lemma existing_sha_run (w : PluginWorld) (url authorization : string) :
  exists existingSha,
    existing_sha w url authorization
    = ([FetchGet url authorization], Returns existingSha)
    /\ forall now encodedContent,
         commit_data now encodedContent existingSha
         = sent_commit_data now encodedContent (fetch_get w url authorization).
Proof.
  unfold existing_sha, sent_commit_data, reply_sha, commit_data.
  destruct (fetch_get w url authorization) as [[ok statusText body]|error];
    cbn; [destruct ok; cbn; [destruct body as [existingData|error]; cbn|]|].
  - destruct existingData; cbn;
      try (eexists; split; [reflexivity|intros; reflexivity]).
    destruct (obj_get fields "sha") as [sha|]; cbn.
    + exists sha. split; [reflexivity|].
      intros now encodedContent. destruct (truthy sha); reflexivity.
    + eexists. split; [reflexivity|intros; reflexivity].
  - eexists. split; [reflexivity|intros; reflexivity].
  - eexists. split; [reflexivity|intros; reflexivity].
  - eexists. split; [reflexivity|intros; reflexivity].
Qed.

Lemma commitToGitHub_run (w : PluginWorld) (githubToken repoOwner repoName : jsval)
    (tokens : obj) :
  let url := contents_url repoOwner repoName in
  let authorization := authorization_header githubToken in
  match btoa_stringify w (plugin_store (toISOString w 0) tokens) with
  | Throws error =>
      commitToGitHub w githubToken repoOwner repoName tokens
      = ([FetchGet url authorization], Throws error)
  | Returns encodedContent =>
      let commitData :=
        sent_commit_data (toISOString w 1) encodedContent
          (fetch_get w url authorization) in
      exists r,
        commitToGitHub w githubToken repoOwner repoName tokens
        = ([FetchGet url authorization; FetchPut url authorization commitData],
           r)
        /\ (r = Returns tt
            <-> commit_confirmed (fetch_put w url authorization commitData)
                = true)
  end.
Proof.
  intros url authorization. unfold commitToGitHub. fold url authorization.
  destruct (existing_sha_run w url authorization) as (existingSha & E & Hdata).
  rewrite E. cbn [and_then await].
  destruct (btoa_stringify w _) as [encodedContent|error]; [|reflexivity].
  rewrite Hdata. cbv zeta. unfold commit_confirmed.
  set (commitData := sent_commit_data _ _ _).
  destruct (fetch_put w url authorization commitData)
    as [[ok statusText body]|error]; cbn.
  - destruct ok; cbn.
    + destruct body as [result|error]; cbn.
      * destruct result; cbn;
          try (eexists; split; [reflexivity|split; discriminate]).
        destruct (obj_get fields "commit") as [commit|]; cbn;
          [|eexists; split; [reflexivity|split; discriminate]].
        destruct commit; cbn; eexists;
          (split; [reflexivity|split; try discriminate; reflexivity]).
      * eexists. split; [reflexivity|split; discriminate].
    + destruct body as [errorData|error]; cbn.
      * destruct errorData; cbn; eexists;
          (split; [reflexivity|split; discriminate]).
      * eexists. split; [reflexivity|split; discriminate].
  - eexists. split; [reflexivity|split; discriminate].
Qed.

Lemma handleExportToGitHub_run (w : PluginWorld)
    (githubToken repoOwner repoName : jsval) :
  let url := contents_url repoOwner repoName in
  let authorization := authorization_header githubToken in
  let start :=
    [PostMessage (loading "Exporting to GitHub..."); GetLocalVariables] in
  match getLocalVariablesAsync w with
  | Throws error =>
      handleExportToGitHub w githubToken repoOwner repoName
      = ((start
          ++ [PostMessage
                (export_error
                   (JStr ("GitHub export failed: " ++ caught_message error)))])%list,
         Returns tt)
  | Returns variables =>
      match
        btoa_stringify w
          (plugin_store (toISOString w 0) (transformVariablesToTokens variables))
      with
      | Throws error =>
          handleExportToGitHub w githubToken repoOwner repoName
          = ((start
              ++ [FetchGet url authorization;
                  PostMessage
                    (export_error
                       (JStr ("GitHub export failed: "
                                ++ caught_message error)))])%list,
             Returns tt)
      | Returns encodedContent =>
          let commitData :=
            sent_commit_data (toISOString w 1) encodedContent
              (fetch_get w url authorization) in
          exists final,
            handleExportToGitHub w githubToken repoOwner repoName
            = ((start
                ++ [FetchGet url authorization;
                    FetchPut url authorization commitData;
                    PostMessage final])%list,
               Returns tt)
            /\ (commit_confirmed (fetch_put w url authorization commitData)
                = true ->
                final = export_success (List.length variables))
            /\ (commit_confirmed (fetch_put w url authorization commitData)
                = false ->
                exists text,
                  final
                  = export_error (JStr ("GitHub export failed: " ++ text)))
      end
  end.
Proof.
  intros url authorization start. unfold handleExportToGitHub.
  destruct (getLocalVariablesAsync w) as [variables|error]; [|reflexivity].
  cbn [and_then cause await app].
  pose proof (commitToGitHub_run w githubToken repoOwner repoName
                (transformVariablesToTokens variables)) as Hrun.
  cbv zeta in Hrun. fold url authorization in Hrun.
  destruct (btoa_stringify w _) as [encodedContent|error].
  - destruct Hrun as (r & -> & Hr). cbv zeta.
    destruct r as [[]|error]; cbn.
    + eexists. split; [reflexivity|split].
      * reflexivity.
      * intros H. exfalso.
        apply (eq_true_false_abs _ (proj1 Hr eq_refl) H).
    + eexists. split; [reflexivity|split].
      * intros H. pose proof (proj2 Hr H) as Hret. discriminate Hret.
      * intros _. eexists. reflexivity.
  - rewrite Hrun. reflexivity.
Qed.

Lemma handleGetVariables_run (w : PluginWorld) :
  handleGetVariables w
  = ([PostMessage (loading "Loading variables..."); GetLocalVariables;
      PostMessage
        match getLocalVariablesAsync w with
        | Returns variables =>
            variables_loaded (List.length variables)
              (transformVariablesToTokens variables)
        | Throws error =>
            export_error
              (JStr ("Failed to load variables: " ++ caught_message error))
        end],
     Returns tt).
Proof.
  unfold handleGetVariables.
  destruct (getLocalVariablesAsync w); reflexivity.
Qed.


(** X22.  The protocol of the message handler.  It never rejects.  It posts
    nothing (a message of an unknown type), or one export error (an export
    without complete credentials, which touches neither the Figma API nor
    the network), or a loading message followed by exactly one message that
    ends the loading state.  A request is made only for an export with
    complete credentials whose variables could be read, and at most one
    commit is sent. *)
Theorem onmessage_protocol (w : PluginWorld) (msg : obj) :
  snd (onmessage w msg) = Returns tt
  /\ (posted (fst (onmessage w msg)) = []
      \/ (posted (fst (onmessage w msg))
          = [export_error (JStr "Missing GitHub credentials")]
          /\ fst (onmessage w msg)
             = [PostMessage (export_error (JStr "Missing GitHub credentials"))]
          /\ msg_type msg = Some "export-to-github"
          /\ credentials_missing msg = true)
      \/ (exists text final type,
            posted (fst (onmessage w msg)) = [loading text; final]
            /\ msg_type final = Some type
            /\ In type final_types))
  /\ (existsb is_fetch (fst (onmessage w msg)) = true ->
      msg_type msg = Some "export-to-github"
      /\ credentials_missing msg = false
      /\ exists variables, getLocalVariablesAsync w = Returns variables)
  /\ (List.length (List.filter is_put (fst (onmessage w msg))) <= 1)%nat.
Proof.
  unfold onmessage.
  destruct (msg_type msg) as [type|] eqn:Htype; cbn [try_catch finish];
    [|repeat split; try (left; reflexivity); try discriminate; cbn; lia].
  destruct (String.eqb type "get-variables") eqn:Eget.
  - rewrite handleGetVariables_run. cbn [try_catch fst snd].
    split; [reflexivity|split; [|split; [discriminate|cbn; lia]]].
    right. right.
    destruct (getLocalVariablesAsync w) as [variables|error];
      eexists _, _, _; (split; [reflexivity|split; [reflexivity|]]);
      cbn; tauto.
  - destruct (String.eqb type "export-to-github") eqn:Eexport;
      [|cbn; repeat split; try (left; reflexivity); try discriminate; lia].
    apply String.eqb_eq in Eexport. subst type.
    destruct (credentials_missing msg) eqn:Hcred.
    + cbn. split; [reflexivity|split; [|split; [discriminate|lia]]].
      right. left. repeat split; reflexivity.
    + pose proof (handleExportToGitHub_run w (field msg "githubToken")
                    (field msg "repoOwner") (field msg "repoName")) as Hrun.
      cbv zeta in Hrun.
      destruct (getLocalVariablesAsync w) as [variables|error].
      * destruct (btoa_stringify w _) as [encodedContent|error].
        -- destruct Hrun as (final & -> & Hyes & Hno).
           cbn [try_catch fst snd app].
           split; [reflexivity|split; [|split; [|cbn; lia]]].
           ++ right. right.
              destruct (commit_confirmed
                          (fetch_put w _ _
                             (sent_commit_data (toISOString w 1) encodedContent
                                (fetch_get w _ _)))) eqn:Hc.
              ** rewrite (Hyes eq_refl).
                 eexists _, _, _. split; [reflexivity|split; [reflexivity|]].
                 cbn; tauto.
              ** destruct (Hno eq_refl) as (text & ->).
                 eexists _, _, _. split; [reflexivity|split; [reflexivity|]].
                 cbn; tauto.
           ++ intros _. split; [reflexivity|split; [reflexivity|]].
              exists variables. reflexivity.
        -- rewrite Hrun. cbn [try_catch fst snd app].
           split; [reflexivity|split; [|split; [|cbn; lia]]].
           ++ right. right.
              eexists _, _, _. split; [reflexivity|split; [reflexivity|]].
              cbn; tauto.
           ++ intros _. split; [reflexivity|split; [reflexivity|]].
              exists variables. reflexivity.
      * rewrite Hrun. cbn [try_catch fst snd app].
        split; [reflexivity|split; [|split; [discriminate|cbn; lia]]].
        right. right.
        eexists _, _, _. split; [reflexivity|split; [reflexivity|]].
        cbn; tauto.
Qed.


End HandlerFacts.



(** ** The colours of the file-content adapter *)

Section FileColours.

Lemma obj_get_set_token (colors : obj) (k : string) (v : jsval) (name : string)
    (token : jsval) :
  (forall name token, obj_get colors name = Some token -> token = v) ->
  obj_get (obj_set colors k v) name = Some token -> token = v.
Proof.
  intros Hacc. destruct (String.eqb k name) eqn:E.
  - apply String.eqb_eq in E. subst k. rewrite obj_get_set_eq.
    intros [= <-]. reflexivity.
  - apply String.eqb_neq in E. rewrite obj_get_set_ne by exact E.
    apply Hacc.
Qed.

(** X24.  [FigmaFileSync] never reads a colour from the file: the colour
    category is never empty, and it is either the nine default colours
    (when no fill style and no component with a colour name was found) or
    made of tokens that all have the value [#007AFF]. *)
Theorem file_sync_colours (fileData : FileData) :
  exists colors,
    obj_get (extractTokensFromFile fileData) "color" = Some (JObj colors)
    /\ colors <> []
    /\ (colors = default_colors
        \/ forall name token,
             obj_get colors name = Some token ->
             token = color_token "#007AFF").
Proof.
  unfold extractTokensFromFile. cbv zeta.
  set (found :=
         match components fileData with
         | Some l => colors_from_components _ l
         | None => _
         end).
  destruct (Nat.eqb (List.length (obj_keys found)) 0) eqn:E.
  - exists default_colors. split; [reflexivity|split; [discriminate|]].
    left. reflexivity.
  - exists found. split; [reflexivity|split].
    + intros Hnil. rewrite Hnil in E. discriminate E.
    + right. subst found.
      assert (forall name token,
                obj_get
                  match styles fileData with
                  | Some l => colors_from_styles [] l
                  | None => []
                  end name = Some token ->
                token = color_token "#007AFF") as Hstyles.
      { destruct (styles fileData) as [l|]; [|discriminate].
        unfold colors_from_styles.
        apply (fold_left_preserves
                 (fun colors => forall name token,
                    obj_get colors name = Some token ->
                    token = color_token "#007AFF")); [discriminate|].
        intros acc e Hacc name token.
        destruct (String.eqb _ _); [|apply Hacc].
        apply obj_get_set_token, Hacc. }
      destruct (components fileData) as [l|]; [|exact Hstyles].
      unfold colors_from_components.
      apply (fold_left_preserves
               (fun colors => forall name token,
                  obj_get colors name = Some token ->
                  token = color_token "#007AFF")); [exact Hstyles|].
      intros acc e Hacc name token.
      destruct (_ || _); [|apply Hacc].
      apply obj_get_set_token, Hacc.
Qed.

End FileColours.
